(** * The bzz gateway handlers of pkg/api/bzz.go

    A shallow embedding of the upload and download handlers of the bzz
    endpoint, and the properties of the resolution-and-pipeline engine they
    implement: single-level feed dereferencing, the path fallback chain, the
    response headers of a download, tag accounting and the durability gate of
    an upload. *)

From Stdlib Require Import ZArith Lia Bool List Ascii String.
From stdpp Require Import base option list strings pretty gmap.

Local Open Scope string_scope.
Local Open Scope Z_scope.

(** * Go values *)

(** A byte slice, [[]byte]. *)
Abbreviation bytes := (list Byte.byte).

(** Go's [error]: the sentinel values bzz.go tests with [errors.Is], any other
    error value, and an error wrapped by [fmt.Errorf] with the verb %w. *)
Inductive error : Type :=
| manifest_ErrNotFound
| manifest_ErrInvalidManifestType
| storage_ErrNotFound
| postage_ErrBucketFull
| tags_ErrNotFound
| errors_New (text : string)
| fmt_Errorf (format : string) (wrapped : error).

Fixpoint error_eqb (a b : error) : bool :=
  match a, b with
  | manifest_ErrNotFound, manifest_ErrNotFound => true
  | manifest_ErrInvalidManifestType, manifest_ErrInvalidManifestType => true
  | storage_ErrNotFound, storage_ErrNotFound => true
  | postage_ErrBucketFull, postage_ErrBucketFull => true
  | tags_ErrNotFound, tags_ErrNotFound => true
  | errors_New s, errors_New t => String.eqb s t
  | fmt_Errorf s e, fmt_Errorf t f => String.eqb s t && error_eqb e f
  | _, _ => false
  end.

(** [errors.Is]: the error or one of the errors it wraps is the target. *)
Fixpoint errors_Is (err target : error) : bool :=
  error_eqb err target ||
  match err with
  | fmt_Errorf _ wrapped => errors_Is wrapped target
  | _ => false
  end.

(** A Go result pair [(T, error)]. *)
Inductive result (A : Type) : Type :=
| Ok (a : A)
| Err (e : error).
Arguments Ok {A} a.
Arguments Err {A} e.

(** * Package strings *)

Module strings.

(** [strings.HasPrefix(s, prefix)]. *)
Definition HasPrefix (s prefix : string) : bool := String.prefix prefix s.

(** [strings.HasSuffix(s, suffix)]:
    [len(s) >= len(suffix) && s[len(s)-len(suffix):] == suffix]. *)
Definition HasSuffix (s suffix : string) : bool :=
  (String.length suffix <=? String.length s)%nat &&
  String.eqb
    (String.substring (String.length s - String.length suffix)
                      (String.length suffix) s)
    suffix.

(** [strings.TrimRight(s, cutset)] for a cutset of one byte: the loop
    [for len(s) > 0 && s[len(s)-1] == c { s = s[:len(s)-1] }]. *)
Fixpoint trimRightByte (s : string) (c : ascii) : string :=
  match s with
  | EmptyString => EmptyString
  | String a s' =>
      match trimRightByte s' c with
      | EmptyString => if Ascii.eqb a c then EmptyString else String a EmptyString
      | t => String a t
      end
  end.

(** A string of [n] bytes [c]. *)
Fixpoint Repeat (c : ascii) (n : nat) : string :=
  match n with
  | O => EmptyString
  | S n => String c (Repeat c n)
  end.

(** [strings.Join(elems, sep)]. *)
Fixpoint Join (elems : list string) (sep : string) : string :=
  match elems with
  | [] => ""
  | [e] => e
  | e :: rest => e +:+ sep +:+ Join rest sep
  end.

End strings.

(** * Package encoding/hex *)

Module hex.

Definition hextable : string := "0123456789abcdef".

Definition digit (n : N) : ascii :=
  match String.get (N.to_nat n) hextable with
  | Some c => c
  | None => "0"%char
  end.

(** [hex.EncodeToString]: two lower-case digits per byte. *)
Fixpoint EncodeToString (src : bytes) : string :=
  match src with
  | [] => ""
  | b :: rest =>
      String (digit (N.shiftr (Byte.to_N b) 4))
        (String (digit (N.land (Byte.to_N b) 15)) (EncodeToString rest))
  end.

(** The value of a hexadecimal character, as [reverseHexTable] gives it. *)
Definition fromHexChar (c : ascii) : option N :=
  let n := N_of_ascii c in
  if (48 <=? n)%N && (n <=? 57)%N then Some (n - 48)%N
  else if (97 <=? n)%N && (n <=? 102)%N then Some (n - 87)%N
  else if (65 <=? n)%N && (n <=? 70)%N then Some (n - 55)%N
  else None.

Definition ErrLength : error := errors_New "encoding/hex: odd length hex string".
Definition InvalidByteError (c : ascii) : error :=
  errors_New ("encoding/hex: invalid byte: " +:+ String c "").

Definition byte_of_nibbles (a b : N) : Byte.byte :=
  match Byte.of_N (N.lor (N.shiftl a 4) b) with
  | Some x => x
  | None => Byte.x00
  end.

(** [hex.DecodeString]; on an error the bytes decoded so far are dropped,
    as every caller in bzz.go does. *)
Fixpoint DecodeString (s : string) : result bytes :=
  match s with
  | EmptyString => Ok []
  | String p EmptyString =>
      match fromHexChar p with
      | None => Err (InvalidByteError p)
      | Some _ => Err ErrLength
      end
  | String p (String q rest) =>
      match fromHexChar p, fromHexChar q with
      | None, _ => Err (InvalidByteError p)
      | Some _, None => Err (InvalidByteError q)
      | Some a, Some b =>
          match DecodeString rest with
          | Ok l => Ok (byte_of_nibbles a b :: l)
          | Err e => Err e
          end
      end
  end.

End hex.

(** * HTTP requests and responses *)

(** A swarm address (a Reference): a byte slice. *)
Abbreviation Address := (list Byte.byte).

(** Modelled from the spec: the [String] method of a Reference, declared in
    package swarm outside this file; a Reference serializes to hex for
    transport. *)
Definition Address_String (a : Address) : string := hex.EncodeToString a.

(** The fields of [url.URL] the handlers touch. *)
Record URL : Type := mkURL {
  Scheme : string;
  Host : string;
  Path : string;
  RawQuery : string;
}.

(** The parts of an [http.Request] the handlers read: its URL, its headers,
    its query values and the variables the router extracted from the path. *)
Record Request : Type := mkRequest {
  req_URL : URL;
  req_Header : gmap string string;
  req_Query : gmap string string;
  req_Vars : gmap string string;
}.

(** The value handed to a jsonhttp responder. *)
Inductive response : Type :=
| resp_nil
| resp_string (message : string)
| resp_error (e : error)
| resp_StatusResponse (Message : string) (Code : Z) (Reasons : list (string * string))
| resp_bzzUploadResponse (reference : Address).

(** What has been written to the client. *)
Inductive written : Type :=
| NotWritten
| JSON (code : Z) (payload : response)
| Redirected (url : string) (code : Z)
| Content (reference : Address) (length : Z).

(** An [http.ResponseWriter]: the header map ([Header().Set] replaces the
    value of a key) and what was written. A key is kept as the handler
    spells it; bzz.go spells each header name in one way only. *)
Record ResponseWriter : Type := mkResponseWriter {
  Header : gmap string string;
  Written : written;
}.

Definition Header_Set (w : ResponseWriter) (key value : string) : ResponseWriter :=
  {| Header := <[key := value]> (Header w); Written := Written w |}.

Module http.
Definition StatusCreated : Z := 201.
Definition StatusPermanentRedirect : Z := 308.
Definition StatusBadRequest : Z := 400.
Definition StatusPaymentRequired : Z := 402.
Definition StatusNotFound : Z := 404.
Definition StatusInternalServerError : Z := 500.

(** [http.Redirect]: replies with a redirect to [url]. *)
Definition Redirect (w : ResponseWriter) (url : string) (code : Z) : ResponseWriter :=
  {| Header := Header w; Written := Redirected url code |}.

(** [http.ServeContent] over the reader the joiner opened for [reference],
    of [length] bytes. *)
Definition ServeContent (w : ResponseWriter) (reference : Address) (length : Z)
  : ResponseWriter :=
  {| Header := Header w; Written := Content reference length |}.
End http.

(** Modelled from the spec: the responders of package jsonhttp, which is not
    part of this file (JSON response formatting is an external collaborator);
    a responder replies with its HTTP status and the given payload. *)
Module jsonhttp.
Definition Respond (w : ResponseWriter) (code : Z) (payload : response) : ResponseWriter :=
  {| Header := Header w; Written := JSON code payload |}.
Definition Created w payload := Respond w http.StatusCreated payload.
Definition BadRequest w payload := Respond w http.StatusBadRequest payload.
Definition PaymentRequired w payload := Respond w http.StatusPaymentRequired payload.
Definition NotFound w payload := Respond w http.StatusNotFound payload.
Definition InternalServerError w payload :=
  Respond w http.StatusInternalServerError payload.
End jsonhttp.

(** * Manifests and feeds: the interfaces the handlers consume *)

(** [manifest.Entry]: a reference and its metadata. *)
Record Entry : Type := NewEntry {
  Reference : Address;
  Metadata : gmap string string;
}.

(** Indexing a Go map: the zero value when the key is absent. *)
Definition map_index (m : gmap string string) (key : string) : string :=
  default "" (m !! key).

(** The read methods of [manifest.Interface], which the download path calls
    on a manifest loaded read-only. *)
Record manifest_Interface : Type := mkManifest {
  Lookup : string -> result Entry;
  HasPrefix : string -> result bool;
}.

(** [feeds.Index]. *)
Record feeds_Index : Type := mkIndex {
  MarshalBinary : result bytes;
}.

(** * The download path: bzzDownloadHandler and serveReference *)

(** The calls serveReference makes while it resolves the manifest; the loop
    keeps them in the order they are made. *)
Inductive call : Type :=
| call_NewDefaultManifestReference (address : Address)
| call_manifestFeed (m : manifest_Interface)
| call_At (at_time : Z).

Definition is_manifestFeed (c : call) : bool :=
  match c with call_manifestFeed _ => true | _ => false end.

Definition is_At (c : call) : bool :=
  match c with call_At _ => true | _ => false end.

(** How many of the calls are of a kind. *)
Fixpoint count_calls (kind : call -> bool) (cs : list call) : nat :=
  match cs with
  | [] => O
  | c :: rest => ((if kind c then 1 else 0) + count_calls kind rest)%nat
  end.

(** The declarations of other packages that the handlers use. They are not
    part of bzz.go; the handlers are verified for every choice of them. *)
Class Imports : Type := {
  (** A chunk and the decoder of a feed update's payload. *)
  Chunk : Type;
  parseFeedUpdate : Chunk -> result (Address * Z);

  (** [feeds.Type], the value [new(feeds.Type)] points to, and its
      [FromString] method. *)
  feeds_Type : Type;
  feeds_Type_zero : feeds_Type;
  feeds_Type_FromString : string -> result feeds_Type;

  (** [common.Address] and [common.BytesToAddress]. *)
  common_Address : Type;
  common_BytesToAddress : bytes -> common_Address;

  (** The storer, the load-saver built on it, the manifest loader and the
      joiner, which gives the length of the content it opens. *)
  Storer : Type;
  LoadSaver : Type;
  loadsave_NewReadonly : Storer -> LoadSaver;
  manifest_NewDefaultManifestReference :
    Address -> LoadSaver -> result manifest_Interface;
  joiner_New : Storer -> Address -> result Z;

  (** Library functions: [path.Join], [filepath.Base], the [String] method of
      a URL, the verb %q of [fmt.Sprintf], [strconv.FormatInt] in base 10, and
      the clock, [time.Now().Unix()]. *)
  path_Join : list string -> string;
  filepath_Base : string -> string;
  URL_String : URL -> string;
  fmt_q : string -> string;
  strconv_FormatInt10 : Z -> string;
  time_Now_Unix : Z;

  (** [mapStructure] on the path variables of a download: the address and the
      path, or the fields it rejects. *)
  mapStructure_paths :
    gmap string string -> (Address * string) + list (string * string);

  (** Constants of packages manifest and api. *)
  manifest_WebsiteIndexDocumentSuffixKey : string;
  manifest_WebsiteErrorDocumentPathKey : string;
  manifest_EntryMetadataContentTypeKey : string;
  manifest_EntryMetadataFilenameKey : string;
  feedMetadataEntryOwner : string;
  feedMetadataEntryTopic : string;
  feedMetadataEntryType : string;
  SwarmFeedIndexHeader : string;
  SwarmTagHeader : string;
  contentTypeHeader : string;
  swarm_ZeroAddress : Address;
  errFileStore : error;

  (** The state of the node that an upload changes: the tags, the chunks
      stored and the manifest being built. A collaborator of the upload
      path takes the state and gives the state it leaves. *)
  World : Type;

  (** [mapStructure] on the query values of a file upload: the file name, or
      the fields it rejects. *)
  mapStructure_queries : gmap string string -> string + list (string * string);
  (** The error of the validator for a [FileName] that breaks its tag, and
      the text of a [validationError]. *)
  validate_error : string -> error;
  validationError_Error : string -> string -> error -> string;

  (** A tag, its [Uid], and the methods [getOrCreateTag], [IncN] on the
      counter [tags.TotalChunks], and [DoneSplit]. *)
  Tag : Type;
  Uid : Tag -> Z;
  fmt_Sprint : Z -> string;
  getOrCreateTag : string -> World -> result (Tag * bool) * World;
  IncN_TotalChunks : Tag -> Z -> World -> option error * World;
  DoneSplit : Tag -> Address -> World -> result Z * World;

  (** What the handler reads off the request through helpers of api.go. *)
  requestCalculateNumberOfChunks : Request -> Z;
  calculateNumberOfChunks : Z -> bool -> Z;
  requestEncrypt : Request -> bool;
  requestPin : Request -> bool;

  (** The pipeline [requestPipelineFn] builds, run on the body of the request
      with the tag in its context. *)
  requestPipelineFn : Storer -> Request -> Tag -> World -> result Address * World;

  (** A manifest being built: [manifest.NewDefaultManifest], [Add], the sizes
      of the serialized trie nodes a [Store] has to persist, the saving of
      one node, and the reference of the root once all are saved. *)
  Manifest : Type;
  manifest_NewDefaultManifest :
    Storer -> Request -> bool -> World -> result Manifest * World;
  Add : Manifest -> string -> Entry -> World -> option error * World;
  trie_nodes : Manifest -> World -> list Z;
  save_node : Manifest -> Z -> World -> option error * World;
  trie_reference : Manifest -> World -> Address;

  (** [pinning.CreatePin]. *)
  CreatePin : Address -> bool -> World -> option error * World;
}.

(** Modelled from the spec: the constant [manifest.RootPath], declared in
    package manifest outside this file; the path "/" holds the root-level
    metadata of a manifest. *)
Definition manifest_RootPath : string := "/".

(** The headers that serving content writes. *)
Definition content_headers : list string :=
  ["ETag"; "Content-Length"; "Access-Control-Expose-Headers";
   "Content-Disposition"; "Content-Type"].

(** The character of a double quote. *)
Definition dq : string := String (ascii_of_nat 34) EmptyString.

Section Download.

Context `{Imports}.

(** [feeds.Feed] and [feeds.New]. *)
Record feeds_Feed : Type := feeds_New {
  Topic : bytes;
  Owner : common_Address;
}.

(** [feeds.Lookup]: [At] gives the update at a time (no chunk when there is
    none) and the current index, or an error. *)
Record feeds_Lookup : Type := mkLookup {
  At : Z -> Z -> result (option Chunk * feeds_Index);
}.

(** [feeds.Factory]. *)
Record feeds_Factory : Type := mkFactory {
  NewLookup : feeds_Type -> feeds_Feed -> result feeds_Lookup;
}.

(** The fields of [Service] the download path reads. *)
Record Service : Type := mkService {
  storer : Storer;
  feedFactory : feeds_Factory;
}.

(** ** downloadHandler *)

Definition downloadHandler (s : Service) (w : ResponseWriter) (r : Request)
    (reference : Address) (additionalHeaders : gmap string (list string))
    (etag : bool) : ResponseWriter :=
  match joiner_New (storer s) reference with
  | Err err =>
      if errors_Is err storage_ErrNotFound
      then jsonhttp.NotFound w resp_nil
      else jsonhttp.InternalServerError w (resp_string "joiner failed")
  | Ok l =>
      let w := map_fold
                 (fun name values w => Header_Set w name (strings.Join values "; "))
                 w additionalHeaders in
      let w := if etag
               then Header_Set w "ETag" (fmt_q (Address_String reference))
               else w in
      let w := Header_Set w "Content-Length" (strconv_FormatInt10 l) in
      let w := Header_Set w "Access-Control-Expose-Headers" "Content-Disposition" in
      http.ServeContent w reference l
  end.

(** ** serveManifestEntry *)

Definition serveManifestEntry (s : Service) (w : ResponseWriter) (r : Request)
    (manifestEntry : Entry) (etag : bool) : ResponseWriter :=
  let additionalHeaders : gmap string (list string) := ∅ in
  let mtdt := Metadata manifestEntry in
  let additionalHeaders :=
    match mtdt !! manifest_EntryMetadataFilenameKey with
    | Some fname =>
        let fname := filepath_Base fname in
        <["Content-Disposition" := ["inline; filename=" +:+ dq +:+ fname +:+ dq]]>
          additionalHeaders
    | None => additionalHeaders
    end in
  let additionalHeaders :=
    match mtdt !! manifest_EntryMetadataContentTypeKey with
    | Some mimeType => <["Content-Type" := [mimeType]]> additionalHeaders
    | None => additionalHeaders
    end in
  downloadHandler s w r (Reference manifestEntry) additionalHeaders etag.

(** ** manifestMetadataLoad *)

Definition manifestMetadataLoad (manifest : manifest_Interface)
    (path metadataKey : string) : string * bool :=
  match Lookup manifest path with
  | Err _ => ("", false)
  | Ok me =>
      match Metadata me !! metadataKey with
      | Some val => (val, true)
      | None => ("", false)
      end
  end.

(** ** manifestFeed *)

(** One of the three optional metadata values: decoded when it is not the
    empty string, the given zero value otherwise. *)
Definition decode_if_set {A : Type} (e : string) (zero : A)
    (decode : string -> result A) : result A :=
  if String.eqb e "" then Ok zero else decode e.

Definition manifestFeed (s : Service) (m : manifest_Interface)
    : result feeds_Lookup :=
  match Lookup m "/" with
  | Err err => Err (fmt_Errorf "node lookup: %w" err)
  | Ok e =>
      let meta := Metadata e in
      match decode_if_set (map_index meta feedMetadataEntryOwner) [] hex.DecodeString with
      | Err err => Err err
      | Ok owner =>
          match decode_if_set (map_index meta feedMetadataEntryTopic) [] hex.DecodeString with
          | Err err => Err err
          | Ok topic =>
              match decode_if_set (map_index meta feedMetadataEntryType)
                      feeds_Type_zero feeds_Type_FromString with
              | Err err => Err err
              | Ok t =>
                  if (length owner =? 0)%nat || (length topic =? 0)%nat
                  then Err (errors_New "node lookup: feed metadata absent")
                  else
                    let f := feeds_New topic (common_BytesToAddress owner) in
                    NewLookup (feedFactory s) t f
              end
          end
      end
  end.

(** ** serveReference *)

(** The path resolution of serveReference, once the manifest [m] is
    settled: the statements after the feed check. *)
Definition serveReference_path (s : Service) (m : manifest_Interface)
    (feedDereferenced : bool) (pathVar : string)
    (w : ResponseWriter) (r : Request) : ResponseWriter :=
  if String.eqb pathVar "" then
    let notFound := jsonhttp.NotFound w (resp_string "address not found or incorrect") in
    match manifestMetadataLoad m manifest_RootPath manifest_WebsiteIndexDocumentSuffixKey with
    | (indexDocumentSuffixKey, true) =>
        let pathWithIndex := path_Join [pathVar; indexDocumentSuffixKey] in
        match Lookup m pathWithIndex with
        | Ok indexDocumentManifestEntry =>
            serveManifestEntry s w r indexDocumentManifestEntry (negb feedDereferenced)
        | Err _ => notFound
        end
    | (_, false) => notFound
    end
  else
    match Lookup m pathVar with
    | Err err =>
        if errors_Is err manifest_ErrNotFound then
          (* check if error document is to be shown *)
          let errorDocument :=
            let notFound := jsonhttp.NotFound w (resp_string "path address not found") in
            match manifestMetadataLoad m manifest_RootPath manifest_WebsiteErrorDocumentPathKey with
            | (errorDocumentPath, true) =>
                if negb (String.eqb pathVar errorDocumentPath) then
                  match Lookup m errorDocumentPath with
                  | Ok errorDocumentManifestEntry =>
                      serveManifestEntry s w r errorDocumentManifestEntry
                        (negb feedDereferenced)
                  | Err _ => notFound
                  end
                else notFound
            | (_, false) => notFound
            end in
          (* check index suffix path *)
          let indexSuffix :=
            match manifestMetadataLoad m manifest_RootPath manifest_WebsiteIndexDocumentSuffixKey with
            | (indexDocumentSuffixKey, true) =>
                if negb (strings.HasSuffix pathVar indexDocumentSuffixKey) then
                  let pathWithIndex := path_Join [pathVar; indexDocumentSuffixKey] in
                  match Lookup m pathWithIndex with
                  | Ok indexDocumentManifestEntry =>
                      serveManifestEntry s w r indexDocumentManifestEntry
                        (negb feedDereferenced)
                  | Err _ => errorDocument
                  end
                else errorDocument
            | (_, false) => errorDocument
            end in
          if negb (strings.HasPrefix pathVar "/") then
            (* check for directory *)
            let dirPath := pathVar +:+ "/" in
            match HasPrefix m dirPath with
            | Ok true =>
                (* redirect to directory *)
                let u := req_URL r in
                let u := {| Scheme := Scheme u; Host := Host u;
                            Path := Path u +:+ "/"; RawQuery := RawQuery u |} in
                let redirectURL := URL_String u in
                http.Redirect w redirectURL http.StatusPermanentRedirect
            | _ => indexSuffix
            end
          else indexSuffix
        else jsonhttp.NotFound w resp_nil
    | Ok me =>
        (* serve requested path *)
        serveManifestEntry s w r me (negb feedDereferenced)
    end.

(** The variables of serveReference that the jump to FETCH carries over,
    with the calls made so far. *)
Record fetch_state : Type := mkFetch {
  address : Address;
  feedDereferenced : bool;
  w_ : ResponseWriter;
  calls : list call;
}.

(** One pass over the body of serveReference from the label FETCH: either
    the handler returns, or it jumps back to FETCH. *)
Inductive outcome : Type :=
| Return (w : ResponseWriter) (calls : list call)
| Goto_FETCH (st : fetch_state).

Definition FETCH (s : Service) (pathVar : string) (r : Request)
    (st : fetch_state) : outcome :=
  let w := w_ st in
  let ls := loadsave_NewReadonly (storer s) in
  (* read manifest entry *)
  let calls := (calls st ++ [call_NewDefaultManifestReference (address st)])%list in
  match manifest_NewDefaultManifestReference (address st) ls with
  | Err _ => Return (jsonhttp.NotFound w resp_nil) calls
  | Ok m =>
      if negb (feedDereferenced st) then
        let calls := (calls ++ [call_manifestFeed m])%list in
        match manifestFeed s m with
        | Ok l =>
            (* we have a feed manifest here *)
            let calls := (calls ++ [call_At time_Now_Unix])%list in
            match At l time_Now_Unix 0 with
            | Err _ => Return (jsonhttp.NotFound w (resp_string "feed not found")) calls
            | Ok (None, _) =>
                Return (jsonhttp.NotFound w (resp_string "no update found")) calls
            | Ok (Some ch, cur) =>
                match parseFeedUpdate ch with
                | Err _ =>
                    Return (jsonhttp.InternalServerError w
                              (resp_string "mapStructure feed update")) calls
                | Ok (ref, _) =>
                    match MarshalBinary cur with
                    | Err _ =>
                        Return (jsonhttp.InternalServerError w
                                  (resp_string "marshal index")) calls
                    | Ok curBytes =>
                        let w := Header_Set w SwarmFeedIndexHeader
                                   (hex.EncodeToString curBytes) in
                        let w := Header_Set w "Access-Control-Expose-Headers"
                                   SwarmFeedIndexHeader in
                        Goto_FETCH {| address := ref; feedDereferenced := true;
                                      w_ := w; calls := calls |}
                    end
                end
            end
        | Err _ =>
            Return (serveReference_path s m (feedDereferenced st) pathVar w r) calls
        end
      else
        Return (serveReference_path s m (feedDereferenced st) pathVar w r) calls
  end.

(** serveReference: the passes from FETCH, started with feedDereferenced
    false. [fuel] bounds the number of passes; [None] is a run that has not
    returned within it. *)
Fixpoint serveReference_from (fuel : nat) (s : Service) (pathVar : string)
    (r : Request) (st : fetch_state) : option (ResponseWriter * list call) :=
  match fuel with
  | O => None
  | S fuel =>
      match FETCH s pathVar r st with
      | Return w calls => Some (w, calls)
      | Goto_FETCH st' => serveReference_from fuel s pathVar r st'
      end
  end.

(** The state serveReference starts from. *)
Definition initial (address : Address) (w : ResponseWriter) : fetch_state :=
  {| address := address; feedDereferenced := false; w_ := w; calls := [] |}.

Definition serveReference (fuel : nat) (s : Service) (address : Address)
    (pathVar : string) (w : ResponseWriter) (r : Request)
    : option (ResponseWriter * list call) :=
  serveReference_from fuel s pathVar r (initial address w).

(** The pass over a manifest that is taken as it is: it is loaded, and the
    path is resolved in it. *)
Definition plain_pass (s : Service) (pathVar : string) (r : Request)
    (fd : bool) (a : Address) (w : ResponseWriter) (cs : list call)
    : ResponseWriter * list call :=
  match manifest_NewDefaultManifestReference a (loadsave_NewReadonly (storer s)) with
  | Err _ =>
      (jsonhttp.NotFound w resp_nil,
       (cs ++ [call_NewDefaultManifestReference a])%list)
  | Ok m =>
      (serveReference_path s m fd pathVar w r,
       (cs ++ [call_NewDefaultManifestReference a])%list)
  end.

(** ** bzzDownloadHandler *)

(** The slash normalisation of bzzDownloadHandler. *)
Definition trailing_slash (p : string) : string :=
  if strings.HasSuffix p "/"
  then strings.trimRightByte p "/" +:+ "/" (* leave one slash if there was some *)
  else p.

Definition bzzDownloadHandler (fuel : nat) (s : Service)
    (w : ResponseWriter) (r : Request) : option (ResponseWriter * list call) :=
  match mapStructure_paths (req_Vars r) with
  | inr reasons =>
      Some (jsonhttp.BadRequest w
              (resp_StatusResponse "invalid path params" http.StatusBadRequest reasons),
            [])
  | inl (paths_Address, paths_Path) =>
      let paths_Path := trailing_slash paths_Path in
      serveReference fuel s paths_Address paths_Path w r
  end.

End Download.

(** * The path resolver, in the words of its contract *)

Section PathResolver.

Context `{Imports}.

(** The attempts of a fallback chain, in order: the first that succeeds is
    the answer, and [otherwise] when none does. *)
Fixpoint first_success (attempts : list (option ResponseWriter))
    (otherwise : ResponseWriter) : ResponseWriter :=
  match attempts with
  | [] => otherwise
  | Some answer :: _ => answer
  | None :: rest => first_success rest otherwise
  end.

(** A key of the root metadata, when the root entry has it. *)
Definition root_metadata (m : manifest_Interface) (key : string) : option string :=
  match Lookup m manifest_RootPath with
  | Ok e => Metadata e !! key
  | Err _ => None
  end.

(** (a) The path does not start with a separator and the manifest has
    entries under the path followed by a slash: a permanent redirect to
    the address of the request with a slash appended. *)
Definition redirect_to_directory (m : manifest_Interface) (pathVar : string)
    (w : ResponseWriter) (r : Request) : option ResponseWriter :=
  if strings.HasPrefix pathVar "/" then None
  else
    match HasPrefix m (pathVar +:+ "/") with
    | Ok true =>
        let u := req_URL r in
        Some (http.Redirect w
                (URL_String {| Scheme := Scheme u; Host := Host u;
                               Path := Path u +:+ "/"; RawQuery := RawQuery u |})
                http.StatusPermanentRedirect)
    | _ => None
    end.

(** (b) An index-document suffix is configured at the root, the path does
    not already end with it, and the path joined with it is found. *)
Definition index_document (s : Service) (m : manifest_Interface)
    (feedDereferenced : bool) (pathVar : string)
    (w : ResponseWriter) (r : Request) : option ResponseWriter :=
  match root_metadata m manifest_WebsiteIndexDocumentSuffixKey with
  | Some suffix =>
      if strings.HasSuffix pathVar suffix then None
      else
        match Lookup m (path_Join [pathVar; suffix]) with
        | Ok e => Some (serveManifestEntry s w r e (negb feedDereferenced))
        | Err _ => None
        end
  | None => None
  end.

(** (c) An error-document path is configured at the root, it differs from
    the path, and it is found. *)
Definition error_document (s : Service) (m : manifest_Interface)
    (feedDereferenced : bool) (pathVar : string)
    (w : ResponseWriter) (r : Request) : option ResponseWriter :=
  match root_metadata m manifest_WebsiteErrorDocumentPathKey with
  | Some errorDocumentPath =>
      if String.eqb pathVar errorDocumentPath then None
      else
        match Lookup m errorDocumentPath with
        | Ok e => Some (serveManifestEntry s w r e (negb feedDereferenced))
        | Err _ => None
        end
  | None => None
  end.

(** The chain for a path that is not empty and was not found; (d) is the
    answer when (a), (b) and (c) fail. *)
Definition fallback_chain (s : Service) (m : manifest_Interface)
    (feedDereferenced : bool) (pathVar : string)
    (w : ResponseWriter) (r : Request) : ResponseWriter :=
  first_success
    [ redirect_to_directory m pathVar w r;
      index_document s m feedDereferenced pathVar w r;
      error_document s m feedDereferenced pathVar w r ]
    (jsonhttp.NotFound w (resp_string "path address not found")).

(** The empty path: the index document named at the root, joined to the
    empty path, or not found. *)
Definition empty_path (s : Service) (m : manifest_Interface)
    (feedDereferenced : bool) (w : ResponseWriter) (r : Request)
    : ResponseWriter :=
  match root_metadata m manifest_WebsiteIndexDocumentSuffixKey with
  | None => jsonhttp.NotFound w (resp_string "address not found or incorrect")
  | Some suffix =>
      match Lookup m (path_Join [""; suffix]) with
      | Err _ => jsonhttp.NotFound w (resp_string "address not found or incorrect")
      | Ok e => serveManifestEntry s w r e (negb feedDereferenced)
      end
  end.

End PathResolver.

(** * The ways feed detection fails *)

Section FeedDetection.

Context `{Imports}.

(** manifestFeed on [m] fails: the root entry cannot be looked up, the
    owner or the topic is not valid hex, the feed type is not recognised,
    the owner or the topic is missing, or any other reason. *)
Inductive feed_detection_fails (s : Service) (m : manifest_Interface) : Prop :=
| root_lookup_fails (e : error) :
    Lookup m "/" = Err e -> feed_detection_fails s m
| owner_not_hex (root : Entry) (owner : string) (e : error) :
    Lookup m "/" = Ok root ->
    Metadata root !! feedMetadataEntryOwner = Some owner ->
    hex.DecodeString owner = Err e -> feed_detection_fails s m
| topic_not_hex (root : Entry) (topic : string) (e : error) :
    Lookup m "/" = Ok root ->
    Metadata root !! feedMetadataEntryTopic = Some topic ->
    hex.DecodeString topic = Err e -> feed_detection_fails s m
| type_unrecognized (root : Entry) (t : string) (e : error) :
    Lookup m "/" = Ok root ->
    Metadata root !! feedMetadataEntryType = Some t ->
    t <> "" ->
    feeds_Type_FromString t = Err e -> feed_detection_fails s m
| owner_missing (root : Entry) :
    Lookup m "/" = Ok root ->
    Metadata root !! feedMetadataEntryOwner = None -> feed_detection_fails s m
| topic_missing (root : Entry) :
    Lookup m "/" = Ok root ->
    Metadata root !! feedMetadataEntryTopic = None -> feed_detection_fails s m
| other_reason (e : error) :
    manifestFeed s m = Err e -> feed_detection_fails s m.

(** The manifest a request is resolved in: the manifest at the root taken
as it is, with feedDereferenced false, when it is not a feed; or the
manifest at the target of the feed update, with feedDereferenced true and
the feed-index headers written. *)
Inductive resolves (s : Service) (root : Address) (w : ResponseWriter)
  : manifest_Interface -> bool -> ResponseWriter -> Prop :=
| resolves_manifest (m : manifest_Interface) (e : error) :
    manifest_NewDefaultManifestReference root (loadsave_NewReadonly (storer s)) = Ok m ->
    manifestFeed s m = Err e ->
    resolves s root w m false w
| resolves_feed (feed : manifest_Interface) (l : feeds_Lookup) (ch : Chunk)
    (cur : feeds_Index) (ref : Address) (ts : Z) (curBytes : bytes)
    (m : manifest_Interface) :
    manifest_NewDefaultManifestReference root (loadsave_NewReadonly (storer s)) = Ok feed ->
    manifestFeed s feed = Ok l ->
    At l time_Now_Unix 0 = Ok (Some ch, cur) ->
    parseFeedUpdate ch = Ok (ref, ts) ->
    MarshalBinary cur = Ok curBytes ->
    manifest_NewDefaultManifestReference ref (loadsave_NewReadonly (storer s)) = Ok m ->
    resolves s root w m true
      (Header_Set
         (Header_Set w SwarmFeedIndexHeader (hex.EncodeToString curBytes))
         "Access-Control-Expose-Headers" SwarmFeedIndexHeader).

End FeedDetection.

(** * The upload path: fileUploadHandler *)

(** What fileUploadHandler asks of its collaborators, in the order it asks. *)
Inductive event : Type :=
| ev_getOrCreateTag (created : bool)
| ev_IncN (n : Z)
| ev_pipeline (fr : result Address)
| ev_Add (path : string) (e : Entry)
| ev_save_node (dataLen : Z)
| ev_Store (manifestReference : result Address)
| ev_DoneSplit (address : Address)
| ev_CreatePin (reference : Address)
| ev_wait (err : option error).

Definition is_IncN (e : event) : bool :=
  match e with ev_IncN _ => true | _ => false end.

Definition is_save_node (e : event) : bool :=
  match e with ev_save_node _ => true | _ => false end.

Definition is_DoneSplit (e : event) : bool :=
  match e with ev_DoneSplit _ => true | _ => false end.

(** How many of the events are of a kind. *)
Fixpoint count_events (kind : event -> bool) (evs : list event) : nat :=
  match evs with
  | [] => O
  | e :: rest => ((if kind e then 1 else 0) + count_events kind rest)%nat
  end.

Section Upload.

Context `{Imports}.

(** The state a handler runs in: the node, the response writer, and the
    events so far. *)
Record handler_state : Type := mkState {
  world : World;
  rw : ResponseWriter;
  events : list event;
}.

(** A handler step: a value, or [None] once the handler has returned. *)
Definition Handler (A : Type) : Type := handler_state -> option A * handler_state.

Definition ret {A : Type} (a : A) : Handler A := fun st => (Some a, st).

Definition bind {A B : Type} (m : Handler A) (k : A -> Handler B) : Handler B :=
  fun st =>
    match m st with
    | (Some a, st') => k a st'
    | (None, st') => (None, st')
    end.

(** The statement [return]. *)
Definition exit {A : Type} : Handler A := fun st => (None, st).

(** A call of a collaborator on the node. *)
Definition call_world {A : Type} (f : World -> A * World) : Handler A :=
  fun st =>
    let (a, wd) := f (world st) in
    (Some a, {| world := wd; rw := rw st; events := events st |}).

Definition read_world {A : Type} (f : World -> A) : Handler A :=
  fun st => (Some (f (world st)), st).

(** A write on the response writer. *)
Definition respond (f : ResponseWriter -> ResponseWriter) : Handler unit :=
  fun st =>
    (Some tt, {| world := world st; rw := f (rw st); events := events st |}).

Definition emit (e : event) : Handler unit :=
  fun st =>
    (Some tt, {| world := world st; rw := rw st;
                 events := (events st ++ [e])%list |}).

End Upload.

Notation "x <- m ;; k" := (bind m (fun x => k))
  (at level 100, m at next level, right associativity).
Notation "m ;;; k" := (bind m (fun _ => k))
  (at level 100, right associativity).

Section UploadHandler.

Context `{Imports}.

(** The validation the tag [validate:"startsnotwith=/"] of the field
    [FileName] asks of [validate.Struct(queries)]. *)
Definition validate_Struct (FileName : string) : option error :=
  if strings.HasPrefix FileName "/" then Some (validate_error FileName) else None.

(** [tag.IncN(tags.TotalChunks, n)]. *)
Definition tag_IncN (tag : Tag) (n : Z) : Handler (option error) :=
  emit (ev_IncN n) ;;;
  call_world (IncN_TotalChunks tag n).

(** [manifest.StoreSizeFunc]. *)
Definition StoreSizeFunc : Type := Z -> Handler (option error).

(** Modelled from the spec: the method [Store] of the manifest, which
    belongs to package manifest and is not part of this file. The size
    callbacks are invoked by the manifest store as trie nodes are
    persisted: every callback is called with the size of a node before the
    node is saved, and the first error ends the store. *)
Fixpoint run_storeSizeFn (fns : list StoreSizeFunc) (dataLen : Z)
    : Handler (option error) :=
  match fns with
  | [] => ret None
  | fn :: rest =>
      err <- fn dataLen ;;
      match err with
      | Some e => ret (Some (fmt_Errorf "manifest store size func: %w" e))
      | None => run_storeSizeFn rest dataLen
      end
  end.

Fixpoint save_nodes (m : Manifest) (nodes : list Z) (fns : list StoreSizeFunc)
    : Handler (option error) :=
  match nodes with
  | [] => ret None
  | dataLen :: rest =>
      err <- run_storeSizeFn fns dataLen ;;
      match err with
      | Some e => ret (Some e)
      | None =>
          emit (ev_save_node dataLen) ;;;
          err <- call_world (save_node m dataLen) ;;
          match err with
          | Some e => ret (Some e)
          | None => save_nodes m rest fns
          end
      end
  end.

Definition Store (m : Manifest) (storeSizeFn : list StoreSizeFunc)
    : Handler (result Address) :=
  nodes <- read_world (trie_nodes m) ;;
  err <- save_nodes m nodes storeSizeFn ;;
  match err with
  | Some e => ret (Err e)
  | None => reference <- read_world (trie_reference m) ;; ret (Ok reference)
  end.

(** [m.Add(ctx, path, entry)]. *)
Definition m_Add (m : Manifest) (path : string) (e : Entry) : Handler (option error) :=
  emit (ev_Add path e) ;;;
  call_world (Add m path e).

(** ** fileUploadHandler *)

(** The closure fileUploadHandler appends to [storeSizeFn]; it captures the
    tag and the encryption flag. *)
Definition storeSizeFn_closure (tag : Tag) (encrypt : bool) : StoreSizeFunc :=
  fun dataSize =>
    let estimatedTotalChunks := calculateNumberOfChunks dataSize encrypt in
    if 0 <? estimatedTotalChunks then
      err <- tag_IncN tag estimatedTotalChunks ;;
      match err with
      | Some e => ret (Some (fmt_Errorf "increment tag: %w" e))
      | None => ret None
      end
    else ret None.

Definition fileUploadHandler (r : Request) (storer : Storer)
    (waitFn : World -> option error * World) : Handler unit :=
  queries_FileName <-
    match mapStructure_queries (req_Query r) with
    | inr reasons =>
        respond (fun w => jsonhttp.BadRequest w
                   (resp_StatusResponse "invalid query params"
                      http.StatusBadRequest reasons)) ;;;
        exit
    | inl FileName => ret FileName
    end ;;

  got <- call_world (getOrCreateTag (map_index (req_Header r) SwarmTagHeader)) ;;
  tag_created <-
    match got with
    | Err err =>
        respond (fun w =>
                   if errors_Is err tags_ErrNotFound
                   then jsonhttp.NotFound w (resp_string "tag not found")
                   else jsonhttp.InternalServerError w
                          (resp_string "cannot get or create tag")) ;;;
        exit
    | Ok tc => emit (ev_getOrCreateTag (snd tc)) ;;; ret tc
    end ;;
  let tag := fst tag_created in
  let created := snd tag_created in

  (if negb created then
     (* only in the case when tag is sent via header *)
     let estimatedTotalChunks := requestCalculateNumberOfChunks r in
     if 0 <? estimatedTotalChunks then
       err <- tag_IncN tag estimatedTotalChunks ;;
       match err with
       | Some _ =>
           respond (fun w => jsonhttp.InternalServerError w
                      (resp_string "increment tag failed")) ;;;
           exit
       | None => ret tt
       end
     else ret tt
   else ret tt) ;;;

  (* first store the file and get its reference *)
  stored <- call_world (requestPipelineFn storer r tag) ;;
  emit (ev_pipeline stored) ;;;
  fr <-
    match stored with
    | Err err =>
        respond (fun w =>
                   if errors_Is err postage_ErrBucketFull
                   then jsonhttp.PaymentRequired w (resp_string "batch is overissued")
                   else jsonhttp.InternalServerError w (resp_error errFileStore)) ;;;
        exit
    | Ok fr => ret fr
    end ;;

  (* If filename is still empty, use the file hash as the filename *)
  queries_FileName <-
    (if String.eqb queries_FileName "" then
       let queries_FileName := Address_String fr in
       match validate_Struct queries_FileName with
       | Some err =>
           respond (fun w => jsonhttp.BadRequest w
                      (resp_StatusResponse "invalid body params"
                         http.StatusBadRequest
                         [("file hash",
                           validationError_Error "file hash" queries_FileName err)])) ;;;
           exit
       | None => ret queries_FileName
       end
     else ret queries_FileName) ;;

  let encrypt := requestEncrypt r in
  made <- call_world (manifest_NewDefaultManifest storer r encrypt) ;;
  m <-
    match made with
    | Err err =>
        respond (fun w =>
                   if errors_Is err manifest_ErrInvalidManifestType
                   then jsonhttp.BadRequest w (resp_string "create manifest failed")
                   else jsonhttp.InternalServerError w resp_nil) ;;;
        exit
    | Ok m => ret m
    end ;;

  let rootMetadata : gmap string string :=
    <[manifest_WebsiteIndexDocumentSuffixKey := queries_FileName]> ∅ in
  err <- m_Add m manifest_RootPath (NewEntry swarm_ZeroAddress rootMetadata) ;;
  match err with
  | Some _ =>
      respond (fun w => jsonhttp.InternalServerError w
                 (resp_string "add metadata failed")) ;;;
      exit
  | None => ret tt
  end ;;;

  let fileMtdt : gmap string string :=
    <[manifest_EntryMetadataFilenameKey := queries_FileName]>
      (<[manifest_EntryMetadataContentTypeKey :=
           map_index (req_Header r) contentTypeHeader]> ∅) in
  err <- m_Add m queries_FileName (NewEntry fr fileMtdt) ;;
  match err with
  | Some _ =>
      respond (fun w => jsonhttp.InternalServerError w
                 (resp_string "add file failed")) ;;;
      exit
  | None => ret tt
  end ;;;

  let storeSizeFn : list StoreSizeFunc :=
    if negb created then
      (* only in the case when tag is sent via header;
         each content that is saved for manifest *)
      [storeSizeFn_closure tag encrypt]
    else [] in

  saved <- Store m storeSizeFn ;;
  emit (ev_Store saved) ;;;
  manifestReference <-
    match saved with
    | Err err =>
        respond (fun w =>
                   if errors_Is err postage_ErrBucketFull
                   then jsonhttp.PaymentRequired w (resp_string "batch is overissued")
                   else jsonhttp.InternalServerError w
                          (resp_string "manifest store failed")) ;;;
        exit
    | Ok reference => ret reference
    end ;;

  (if created then
     emit (ev_DoneSplit manifestReference) ;;;
     done <- call_world (DoneSplit tag manifestReference) ;;
     match done with
     | Err _ =>
         respond (fun w => jsonhttp.InternalServerError w
                    (resp_string "done split failed")) ;;;
         exit
     | Ok _ => ret tt
     end
   else ret tt) ;;;

  (if requestPin r then
     emit (ev_CreatePin manifestReference) ;;;
     err <- call_world (CreatePin manifestReference false) ;;
     match err with
     | Some _ =>
         respond (fun w => jsonhttp.InternalServerError w
                    (resp_string "create pin failed")) ;;;
         exit
     | None => ret tt
     end
   else ret tt) ;;;

  err <- call_world waitFn ;;
  emit (ev_wait err) ;;;
  match err with
  | Some _ =>
      respond (fun w => jsonhttp.InternalServerError w
                 (resp_string "sync chunks failed")) ;;;
      exit
  | None => ret tt
  end ;;;

  respond (fun w =>
             Header_Set w "ETag" (fmt_q (Address_String manifestReference))) ;;;
  respond (fun w => Header_Set w SwarmTagHeader (fmt_Sprint (Uid tag))) ;;;
  respond (fun w => Header_Set w "Access-Control-Expose-Headers" SwarmTagHeader) ;;;
  respond (fun w => jsonhttp.Created w (resp_bzzUploadResponse manifestReference)).

(** The events of the request-size estimate: the increment of the tag by
the estimate, when the estimate is positive. *)
Definition estimate_events (r : Request) : list event :=
  if 0 <? requestCalculateNumberOfChunks r
  then [ev_IncN (requestCalculateNumberOfChunks r)]
  else [].

(** The events of one trie node persisted under the size callback: the
increment of the tag by the chunks of the node, when positive, and the
saving of the node. *)
Definition node_events (encrypt : bool) (dataLen : Z) : list event :=
  ((if 0 <? calculateNumberOfChunks dataLen encrypt
    then [ev_IncN (calculateNumberOfChunks dataLen encrypt)]
    else []) ++ [ev_save_node dataLen])%list.

(** The entries the handler added to the manifest, in order. *)
Fixpoint added (evs : list event) : list (string * Entry) :=
  match evs with
  | [] => []
  | ev_Add path e :: rest => (path, e) :: added rest
  | _ :: rest => added rest
  end.

(** Modelled from the spec: the manifest that the calls of [Add] build, which
belongs to package manifest and is not part of this file. Paths are unique
within a manifest: an entry added at a path is the entry of that path. *)
Definition built_manifest (evs : list event) : gmap string Entry :=
  fold_left (fun m pe => <[fst pe := snd pe]> m) (added evs) ∅.

End UploadHandler.

(** * A concrete node, to run the handlers on *)

Module Example.

(** What the store holds under an address: a manifest, as its entries by
    path, or a file of some length. *)
Inductive stored : Type :=
| stored_manifest (entries : list (string * Entry))
| stored_file (length : Z).

Definition store : Type := list (Address * stored).

Fixpoint bytes_eqb (a b : bytes) : bool :=
  match a, b with
  | [], [] => true
  | x :: a', y :: b' => Byte.eqb x y && bytes_eqb a' b'
  | _, _ => false
  end.

Fixpoint load (st : store) (a : Address) : option stored :=
  match st with
  | [] => None
  | (b, x) :: rest => if bytes_eqb a b then Some x else load rest a
  end.

Fixpoint find_entry (entries : list (string * Entry)) (p : string) : option Entry :=
  match entries with
  | [] => None
  | (q, e) :: rest => if String.eqb p q then Some e else find_entry rest p
  end.

Definition manifest_of (entries : list (string * Entry)) : manifest_Interface :=
  {| Lookup := fun p =>
       match find_entry entries p with
       | Some e => Ok e
       | None => Err manifest_ErrNotFound
       end;
     HasPrefix := fun p =>
       Ok (existsb (fun qe => strings.HasPrefix (fst qe) p) entries) |}.

(** The elements of a path between its slashes. *)
Fixpoint split_slash (p : string) : list string :=
  match p with
  | EmptyString => [""]
  | String a p' =>
      match split_slash p' with
      | [] => [String a ""]
      | h :: t => if Ascii.eqb a "/" then "" :: h :: t else String a h :: t
      end
  end.

(** One element of a path being cleaned, on the stack of the elements kept
    so far (the last one first). *)
Definition clean_step (rooted : bool) (kept : list string) (e : string)
    : list string :=
  if String.eqb e "" || String.eqb e "." then kept
  else if String.eqb e ".." then
    match kept with
    | [] => if rooted then [] else [".."]
    | top :: below => if String.eqb top ".." then e :: kept else below
    end
  else e :: kept.

(** [path.Clean]. *)
Definition clean (p : string) : string :=
  let rooted := strings.HasPrefix p "/" in
  let kept := rev (fold_left (clean_step rooted) (split_slash p) []) in
  let body := strings.Join kept "/" in
  if rooted then "/" +:+ body
  else if String.eqb body "" then "." else body.

(** [path.Join]: the elements that are not empty, joined by slashes and
    cleaned. *)
Definition join (elems : list string) : string :=
  match List.filter (fun e => negb (String.eqb e "")) elems with
  | [] => ""
  | nonempty => clean (strings.Join nonempty "/")
  end.

Definition from_string (s : string) : result bool :=
  if String.eqb s "Sequence" then Ok false
  else if String.eqb s "Epoch" then Ok true
  else Err (errors_New "unknown feed type").

Definition parse (ch : bytes) : result (Address * Z) :=
  match ch with
  | [] => Err (errors_New "invalid chunk")
  | _ => Ok (ch, 0)
  end.

Definition map_paths (vars : gmap string string)
    : (Address * string) + list (string * string) :=
  match vars !! "address" with
  | None => inr [("address", "required")]
  | Some a =>
      match hex.DecodeString a with
      | Ok b => inl (b, map_index vars "path")
      | Err _ => inr [("address", "invalid")]
      end
  end.

Definition map_queries (q : gmap string string) : string + list (string * string) :=
  if strings.HasPrefix (map_index q "name") "/"
  then inr [("name", "startsnotwith")]
  else inl (map_index q "name").

(** The node of the examples: the total of the one tag it keeps, and the
    number of chunks its pipeline has split. *)
Record node : Type := mkNode {
  tag_total : Z;
  split : Z;
}.

#[export] Instance imports : Imports := {|
  Chunk := bytes;
  parseFeedUpdate := parse;
  feeds_Type := bool;
  feeds_Type_zero := false;
  feeds_Type_FromString := from_string;
  common_Address := bytes;
  common_BytesToAddress := fun b => b;
  Storer := store;
  LoadSaver := store;
  loadsave_NewReadonly := fun st => st;
  manifest_NewDefaultManifestReference := fun a ls =>
    match load ls a with
    | Some (stored_manifest entries) => Ok (manifest_of entries)
    | _ => Err manifest_ErrInvalidManifestType
    end;
  joiner_New := fun st a =>
    match load st a with
    | Some (stored_file l) => Ok l
    | _ => Err storage_ErrNotFound
    end;
  path_Join := join;
  filepath_Base := fun p => p;
  URL_String := Path;
  fmt_q := fun s => dq +:+ s +:+ dq;
  strconv_FormatInt10 := fun z => pretty z;
  time_Now_Unix := 1700000000;
  mapStructure_paths := map_paths;
  manifest_WebsiteIndexDocumentSuffixKey := "website-index-document";
  manifest_WebsiteErrorDocumentPathKey := "website-error-document";
  manifest_EntryMetadataContentTypeKey := "Content-Type";
  manifest_EntryMetadataFilenameKey := "Filename";
  feedMetadataEntryOwner := "swarm-feed-owner";
  feedMetadataEntryTopic := "swarm-feed-topic";
  feedMetadataEntryType := "swarm-feed-type";
  SwarmFeedIndexHeader := "Swarm-Feed-Index";
  SwarmTagHeader := "Swarm-Tag";
  contentTypeHeader := "Content-Type";
  swarm_ZeroAddress := [];
  errFileStore := errors_New "could not store file";
  World := node;
  mapStructure_queries := map_queries;
  validate_error := fun _ => errors_New "startsnotwith";
  validationError_Error := fun entry value _ => entry +:+ ": " +:+ value;
  Tag := Z;
  Uid := fun t => t;
  fmt_Sprint := fun z => pretty z;
  getOrCreateTag := fun h nd =>
    if String.eqb h "" then (Ok (7, true), nd) else (Ok (3, false), nd);
  IncN_TotalChunks := fun _ n nd =>
    (None, {| tag_total := tag_total nd + n; split := split nd |});
  DoneSplit := fun _ _ nd =>
    (Ok (split nd), {| tag_total := split nd; split := split nd |});
  requestCalculateNumberOfChunks := fun _ => 5;
  calculateNumberOfChunks := fun dataSize _ => dataSize / 4096 + 1;
  requestEncrypt := fun _ => false;
  requestPin := fun _ => false;
  requestPipelineFn := fun _ _ _ nd =>
    (Ok [Byte.xf1; Byte.x1e],
     {| tag_total := tag_total nd; split := split nd + 5 |});
  Manifest := unit;
  manifest_NewDefaultManifest := fun _ _ _ nd => (Ok tt, nd);
  Add := fun _ _ _ nd => (None, nd);
  trie_nodes := fun _ _ => [100; 5000];
  save_node := fun _ _ nd => (None, nd);
  trie_reference := fun _ _ => [Byte.x0a; Byte.x0b];
  CreatePin := fun _ _ nd => (None, nd);
|}.

(** The feed of the examples: an update whose payload is the topic, at the
    index [00 01]; a topic that starts with [ff] has no update. *)
Definition lookup_of (f : feeds_Feed) : feeds_Lookup :=
  {| At := fun _ _ =>
       match Topic f with
       | Byte.xff :: _ => Ok (None, {| MarshalBinary := Ok [] |})
       | Byte.xee :: _ => Err (errors_New "lookup failed")
       | Byte.xdd :: _ => Ok (Some [], {| MarshalBinary := Ok [] |})
       | t => Ok (Some t, {| MarshalBinary := Ok [Byte.x00; Byte.x01] |})
       end |}.

Definition service (st : store) : Service :=
  {| storer := st;
     feedFactory := {| NewLookup := fun _ f => Ok (lookup_of f) |} |}.

Definition root_entry (md : list (string * string)) : string * Entry :=
  ("/", NewEntry [] (list_to_map md)).

Definition file_entry (p : string) (a : Address) : string * Entry :=
  (p, NewEntry a (list_to_map [("Filename", p)])).

(** A website at [a0], a feed at [aa] whose update points to [bb], and at
    [bb] a website whose root entry carries feed metadata of its own
    (pointing to [cc]). *)
Definition site : store :=
  [ ([Byte.xa0], stored_manifest
       [ root_entry [("website-index-document", "index.html");
                     ("website-error-document", "404.html")];
         file_entry "index.html" [Byte.x01];
         file_entry "404.html" [Byte.x02];
         file_entry "img/logo.png" [Byte.x03];
         file_entry "docs/index.html" [Byte.x04] ]);
    ([Byte.xaa], stored_manifest
       [ root_entry [("swarm-feed-owner", "0102"); ("swarm-feed-topic", "bb")] ]);
    ([Byte.xbb], stored_manifest
       [ root_entry [("swarm-feed-owner", "0102"); ("swarm-feed-topic", "cc");
                     ("website-index-document", "index.html")];
         file_entry "index.html" [Byte.x05] ]);
    ([Byte.xcc], stored_manifest
       [ root_entry [("website-index-document", "index.html")];
         file_entry "index.html" [Byte.x06] ]);
    ([Byte.xa1], stored_manifest
       [ root_entry [("swarm-feed-owner", "0102"); ("swarm-feed-topic", "ff")] ]);
    ([Byte.xa2], stored_manifest
       [ root_entry [("swarm-feed-owner", "0102"); ("swarm-feed-topic", "dd")] ]);
    ([Byte.xa3], stored_manifest
       [ root_entry [("swarm-feed-owner", "xyz"); ("swarm-feed-topic", "bb");
                     ("website-index-document", "index.html")];
         file_entry "index.html" [Byte.x01] ]);
    ([Byte.x01], stored_file 10);
    ([Byte.x02], stored_file 20);
    ([Byte.x03], stored_file 30);
    ([Byte.x04], stored_file 40);
    ([Byte.x05], stored_file 50);
    ([Byte.x06], stored_file 60) ].

Definition fresh : ResponseWriter := {| Header := ∅; Written := NotWritten |}.

Definition request (p : string) : Request :=
  {| req_URL := {| Scheme := ""; Host := ""; Path := p; RawQuery := "" |};
     req_Header := ∅; req_Query := ∅; req_Vars := ∅ |}.

(** The request of a download of [path] under the address [a], in hex. *)
Definition download_request (a path : string) : Request :=
  {| req_URL := {| Scheme := ""; Host := "";
                   Path := "/bzz/" +:+ a +:+ "/" +:+ path; RawQuery := "" |};
     req_Header := ∅; req_Query := ∅;
     req_Vars := <["address" := a]> (<["path" := path]> ∅) |}.

(** The manifests of the store [site] at [a0], [a1], [a2] and [a3]. *)
Definition manifest_at (a : Address) : manifest_Interface :=
  match load site a with
  | Some (stored_manifest entries) => manifest_of entries
  | _ => manifest_of []
  end.

(** The feed that the manifests at [a1] and [a2] name by their topic. *)
Definition feed_of_topic (topic : bytes) : feeds_Feed :=
  {| Topic := topic; Owner := [Byte.x01; Byte.x02] |}.

(** An upload request: its tag header, when the client supplies a tag. *)
Definition upload_request (tag : option string) : Request :=
  {| req_URL := {| Scheme := ""; Host := ""; Path := "/bzz"; RawQuery := "" |};
     req_Header :=
       match tag with
       | Some t => <["Swarm-Tag" := t]> (<["Content-Type" := "text/plain"]> ∅)
       | None => <["Content-Type" := "text/plain"]> ∅
       end;
     req_Query := ∅; req_Vars := ∅ |}.

(** The state an upload starts in. *)
Definition upload_start : handler_state :=
  {| world := {| tag_total := 0; split := 0 |}; rw := fresh; events := [] |}.

(** An upload request that names the file. *)
Definition named_upload_request (name : string) : Request :=
  {| req_URL := {| Scheme := ""; Host := ""; Path := "/bzz"; RawQuery := "" |};
     req_Header := <["Content-Type" := "text/plain"]> ∅;
     req_Query := <["name" := name]> ∅; req_Vars := ∅ |}.

(** A wait that succeeds, and a wait that fails. *)
Definition wait_ok (nd : node) : option error * node := (None, nd).
Definition wait_fails (nd : node) : option error * node :=
  (Some (errors_New "sync timeout"), nd).

End Example.

(** The response writer after a feed dereference: the feed-index header and
its exposure are written. *)
Definition feed_headers `{Imports} (w : ResponseWriter) (curBytes : bytes) : ResponseWriter :=
  Header_Set
    (Header_Set w SwarmFeedIndexHeader (hex.EncodeToString curBytes))
    "Access-Control-Expose-Headers" SwarmFeedIndexHeader.
Definition is_CreatePin (e : event) : bool :=
  match e with ev_CreatePin _ => true | _ => false end.

Definition is_wait (e : event) : bool :=
  match e with ev_wait _ => true | _ => false end.

(** The status codes fileUploadHandler answers with. *)
Definition upload_statuses : list Z :=
  [http.StatusCreated; http.StatusBadRequest; http.StatusPaymentRequired;
   http.StatusNotFound; http.StatusInternalServerError].
(** * A node whose collaborators fail *)

Module Faulty.

(** The node of the examples, with a tag service that knows the tag 3 only,
a pipeline whose batch can be full, and pins on request. *)
Definition imports : Imports := {|
  Chunk := bytes;
  parseFeedUpdate := Example.parse;
  feeds_Type := bool;
  feeds_Type_zero := false;
  feeds_Type_FromString := Example.from_string;
  common_Address := bytes;
  common_BytesToAddress := fun b => b;
  Storer := Example.store;
  LoadSaver := Example.store;
  loadsave_NewReadonly := fun st => st;
  manifest_NewDefaultManifestReference := fun a ls =>
    match Example.load ls a with
    | Some (Example.stored_manifest entries) => Ok (Example.manifest_of entries)
    | _ => Err manifest_ErrInvalidManifestType
    end;
  joiner_New := fun st a =>
    match Example.load st a with
    | Some (Example.stored_file l) => Ok l
    | _ => Err storage_ErrNotFound
    end;
  path_Join := Example.join;
  filepath_Base := fun p => p;
  URL_String := Path;
  fmt_q := fun s => dq +:+ s +:+ dq;
  strconv_FormatInt10 := fun z => pretty z;
  time_Now_Unix := 1700000000;
  mapStructure_paths := Example.map_paths;
  manifest_WebsiteIndexDocumentSuffixKey := "website-index-document";
  manifest_WebsiteErrorDocumentPathKey := "website-error-document";
  manifest_EntryMetadataContentTypeKey := "Content-Type";
  manifest_EntryMetadataFilenameKey := "Filename";
  feedMetadataEntryOwner := "swarm-feed-owner";
  feedMetadataEntryTopic := "swarm-feed-topic";
  feedMetadataEntryType := "swarm-feed-type";
  SwarmFeedIndexHeader := "Swarm-Feed-Index";
  SwarmTagHeader := "Swarm-Tag";
  contentTypeHeader := "Content-Type";
  swarm_ZeroAddress := [];
  errFileStore := errors_New "could not store file";
  World := Example.node;
  mapStructure_queries := Example.map_queries;
  validate_error := fun _ => errors_New "startsnotwith";
  validationError_Error := fun entry value _ => entry +:+ ": " +:+ value;
  Tag := Z;
  Uid := fun t => t;
  fmt_Sprint := fun z => pretty z;
  getOrCreateTag := fun h nd =>
    if String.eqb h "" then (Ok (7, true), nd)
    else if String.eqb h "3" then (Ok (3, false), nd)
    else (Err tags_ErrNotFound, nd);
  IncN_TotalChunks := fun _ n nd =>
    (None, Example.mkNode (Example.tag_total nd + n) (Example.split nd));
  DoneSplit := fun _ _ nd =>
    (Ok (Example.split nd), Example.mkNode (Example.split nd) (Example.split nd));
  requestCalculateNumberOfChunks := fun _ => 5;
  calculateNumberOfChunks := fun dataSize _ => dataSize / 4096 + 1;
  requestEncrypt := fun _ => false;
  requestPin := fun r => String.eqb (map_index (req_Header r) "Swarm-Pin") "true";
  requestPipelineFn := fun _ r _ nd =>
    if String.eqb (map_index (req_Header r) "Swarm-Postage-Batch-Id") "full"
    then (Err (fmt_Errorf "split: %w" postage_ErrBucketFull), nd)
    else (Ok [Byte.xf1; Byte.x1e],
          Example.mkNode (Example.tag_total nd) (Example.split nd + 5));
  Manifest := unit;
  manifest_NewDefaultManifest := fun _ _ _ nd => (Ok tt, nd);
  Add := fun _ _ _ nd => (None, nd);
  trie_nodes := fun _ _ => [100; 5000];
  save_node := fun _ _ nd => (None, nd);
  trie_reference := fun _ _ => [Byte.x0a; Byte.x0b];
  CreatePin := fun _ _ nd => (None, nd);
|}.

(** An upload request with the headers given. *)
Definition upload_request (headers : list (string * string)) : Request :=
  {| req_URL := {| Scheme := ""; Host := ""; Path := "/bzz"; RawQuery := "" |};
     req_Header := list_to_map headers;
     req_Query := ∅; req_Vars := ∅ |}.

(** The state an upload starts in. *)
Definition upload_start : @handler_state imports :=
  @mkState imports (Example.mkNode 0 0) Example.fresh [].

End Faulty.

(** * The upload entry point: bzzUploadHandler *)

Definition http_StatusUnprocessableEntity : Z := 422.

(** Modelled from the spec: the responder of package jsonhttp for the status
422, as the other responders. *)
Definition jsonhttp_UnprocessableEntity (w : ResponseWriter) (payload : response)
    : ResponseWriter :=
  jsonhttp.Respond w http_StatusUnprocessableEntity payload.

(** The declarations of other files and packages that bzzUploadHandler uses
beside those of fileUploadHandler: the errors of the stamper, two constants
of api.go, [strings.ToLower], [mapStructure] on the headers of an upload
(the media type of the content, or the fields it rejects),
[newStamperPutter], and the handler of a directory upload. *)
Class UploadImports `{Imports} : Type := {
  errBatchUnusable : error;
  postage_ErrNotUsable : error;
  postage_ErrNotFound : error;
  errInvalidPostageBatch : error;
  errUnsupportedDevNodeOperation : error;
  SwarmCollectionHeader : string;
  multiPartFormData : string;
  strings_ToLower : string -> string;
  mapStructure_headers : gmap string string -> string + list (string * string);
  newStamperPutter :
    Request -> World ->
    result (Storer * (World -> option error * World)) * World;
  dirUploadHandler :
    Request -> Storer -> (World -> option error * World) -> Handler unit;
}.

Section UploadEntry.

Context `{UploadImports}.

(** The reply of bzzUploadHandler to a failure of the stamper: the first
case of its switch that matches. *)
Definition putter_failed (err : error) (w : ResponseWriter) : ResponseWriter :=
  if errors_Is err errBatchUnusable || errors_Is err postage_ErrNotUsable then
    jsonhttp_UnprocessableEntity w
      (resp_string "batch not usable yet or does not exist")
  else if errors_Is err postage_ErrNotFound then
    jsonhttp.NotFound w (resp_string "batch with id not found")
  else if errors_Is err errInvalidPostageBatch then
    jsonhttp.BadRequest w (resp_string "invalid batch id")
  else if errors_Is err errUnsupportedDevNodeOperation then
    jsonhttp.BadRequest w (resp_error errUnsupportedDevNodeOperation)
  else
    jsonhttp.BadRequest w resp_nil.

Definition bzzUploadHandler (r : Request) : Handler unit :=
  headers_ContentType <-
    match mapStructure_headers (req_Header r) with
    | inr reasons =>
        respond (fun w => jsonhttp.BadRequest w
                   (resp_StatusResponse "invalid header params"
                      http.StatusBadRequest reasons)) ;;;
        exit
    | inl ContentType => ret ContentType
    end ;;

  made <- call_world (newStamperPutter r) ;;
  putter_wait <-
    match made with
    | Err err => respond (putter_failed err) ;;; exit
    | Ok pw => ret pw
    end ;;
  let putter := fst putter_wait in
  let wait := snd putter_wait in

  let isDir := map_index (req_Header r) SwarmCollectionHeader in
  if String.eqb (strings_ToLower isDir) "true"
     || String.eqb headers_ContentType multiPartFormData
  then dirUploadHandler r putter wait
  else fileUploadHandler r putter wait.

End UploadEntry.

(** * An entry point on the example node *)

Module Entry.

(** [strings.ToLower] on the letters of ASCII. *)
Definition lower (c : ascii) : ascii :=
  let n := N_of_ascii c in
  if (65 <=? n)%N && (n <=? 90)%N then ascii_of_N (n + 32) else c.

Fixpoint to_lower (s : string) : string :=
  match s with
  | EmptyString => EmptyString
  | String c rest => String (lower c) (to_lower rest)
  end.

(** The stamper of the examples: it knows the batch [b1] only. *)
Definition stamper (r : Request) (nd : Example.node)
    : result (Example.store * (Example.node -> option error * Example.node))
      * Example.node :=
  if String.eqb (map_index (req_Header r) "Swarm-Postage-Batch-Id") "b1"
  then (Ok (Example.site, Example.wait_ok), nd)
  else if String.eqb (map_index (req_Header r) "Swarm-Postage-Batch-Id") ""
  then (Err (errors_New "invalid postage batch"), nd)
  else (Err (errors_New "batch not found"), nd).

(** A directory upload that only replies. *)
Definition dir_upload (r : Request) (putter : Example.store)
    (wait : Example.node -> option error * Example.node)
    : @Handler Example.imports unit :=
  @respond Example.imports
    (fun w => jsonhttp.Created w (resp_bzzUploadResponse [Byte.xd1])).

Definition imports : @UploadImports Example.imports :=
  @Build_UploadImports Example.imports
    (* errBatchUnusable *) (errors_New "batch not usable")
    (* postage.ErrNotUsable *) (errors_New "not usable")
    (* postage.ErrNotFound *) (errors_New "batch not found")
    (* errInvalidPostageBatch *) (errors_New "invalid postage batch")
    (* errUnsupportedDevNodeOperation *)
    (errors_New "operation not supported in dev mode")
    (* SwarmCollectionHeader *) "Swarm-Collection"
    (* multiPartFormData *) "multipart/form-data"
    (* strings.ToLower *) to_lower
    (* mapStructure on the headers *)
    (fun h =>
       match h !! "Content-Type" with
       | Some ContentType => inl ContentType
       | None => inr [("Content-Type", "required")]
       end)
    (* newStamperPutter *) stamper
    (* dirUploadHandler *) dir_upload.

(** An upload request with the headers given. *)
Definition upload_request (headers : list (string * string)) : Request :=
  {| req_URL := {| Scheme := ""; Host := ""; Path := "/bzz"; RawQuery := "" |};
     req_Header := list_to_map headers;
     req_Query := ∅; req_Vars := ∅ |}.

End Entry.

(** * Properties *)

(** ** Strings *)

Example hex_encode_example :
  hex.EncodeToString [Byte.x00; Byte.xab; Byte.x7f] = "00ab7f".
Proof. reflexivity. Qed.

Example hex_decode_example :
  hex.DecodeString "00aB7f" = Ok [Byte.x00; Byte.xab; Byte.x7f].
Proof. reflexivity. Qed.

Example hex_decode_odd : hex.DecodeString "abc" = Err hex.ErrLength.
Proof. reflexivity. Qed.

Example trim_example : strings.trimRightByte "a/b//" "/" = "a/b".
Proof. reflexivity. Qed.

Lemma HasSuffix_byte_cons (a c : ascii) (s : string) :
  strings.HasSuffix (String a s) (String c "") =
  match s with
  | EmptyString => Ascii.eqb a c
  | _ => strings.HasSuffix s (String c "")
  end.
Proof.
  unfold strings.HasSuffix. destruct s as [|b s]; simpl.
  - destruct (Ascii.eqb a c); reflexivity.
  - rewrite Nat.sub_0_r. reflexivity.
Qed.

Lemma HasSuffix_byte_empty (c : ascii) : strings.HasSuffix "" (String c "") = false.
Proof. reflexivity. Qed.

(** What the trimming loop leaves does not end with the byte, and the bytes
    it removed are all that byte. *)
Lemma append_nil_l (s : string) : "" +:+ s = s.
Proof. reflexivity. Qed.

Lemma append_nil_r (s : string) : s +:+ "" = s.
Proof. induction s as [|a s IH]; [reflexivity|]. change (String a (s +:+ "") = String a s). now rewrite IH. Qed.

Lemma append_cons (a : ascii) (s t : string) : String a s +:+ t = String a (s +:+ t).
Proof. reflexivity. Qed.

Lemma trimRightByte_spec (c : ascii) (s : string) :
  strings.HasSuffix (strings.trimRightByte s c) (String c "") = false /\
  exists n, s = strings.trimRightByte s c +:+ strings.Repeat c n.
Proof.
  induction s as [|a s [IHs [n IHn]]]; simpl.
  - split; [reflexivity | now exists O].
  - destruct (strings.trimRightByte s c) as [|b t] eqn:E.
    + rewrite append_nil_l in IHn.
      destruct (Ascii.eqb_spec a c) as [->|Hne].
      * split; [reflexivity|]. exists (S n). rewrite append_nil_l. simpl. now rewrite <- IHn.
      * split.
        -- rewrite HasSuffix_byte_cons. now apply Ascii.eqb_neq.
        -- exists n. rewrite append_cons, append_nil_l. now rewrite <- IHn.
    + split.
      * rewrite HasSuffix_byte_cons. exact IHs.
      * exists n. rewrite append_cons. now rewrite <- IHn.
Qed.

Lemma HasSuffix_byte_Repeat (c : ascii) (t : string) (n : nat) :
  strings.HasSuffix (t +:+ strings.Repeat c (S n)) (String c "") = true.
Proof.
  revert n. induction t as [|a t IH]; intros n.
  - rewrite append_nil_l. induction n as [|n IHn].
    + simpl. rewrite HasSuffix_byte_cons. apply Ascii.eqb_refl.
    + change (strings.Repeat c (S (S n))) with (String c (strings.Repeat c (S n))).
      rewrite HasSuffix_byte_cons. exact IHn.
  - rewrite append_cons, HasSuffix_byte_cons.
    destruct (t +:+ strings.Repeat c (S n)) eqn:E.
    + destruct t; discriminate.
    + rewrite <- E. apply (IH n).
Qed.

Lemma append_Repeat_1 (c : ascii) (t : string) (n : nat) :
  t +:+ strings.Repeat c (S n) = (t +:+ strings.Repeat c n) +:+ String c "".
Proof.
  induction t as [|a t IHt].
  - rewrite !append_nil_l. induction n as [|n IH]; [reflexivity|].
    change (String c (strings.Repeat c (S n)) =
            String c (strings.Repeat c n) +:+ String c "").
    rewrite append_cons. f_equal. exact IH.
  - rewrite !append_cons. now rewrite IHt.
Qed.

Lemma trimRightByte_Repeat (c : ascii) (n : nat) :
  strings.trimRightByte (strings.Repeat c n) c = "".
Proof.
  induction n as [|n IH]; [reflexivity|].
  simpl. rewrite IH. now rewrite Ascii.eqb_refl.
Qed.

(** The loop removes exactly the trailing run of the byte. *)
Lemma trimRightByte_append_Repeat (c : ascii) (stem : string) (n : nat) :
  strings.HasSuffix stem (String c "") = false ->
  strings.trimRightByte (stem +:+ strings.Repeat c n) c = stem.
Proof.
  induction stem as [|a t IH]; intros Hstem.
  - rewrite append_nil_l. apply trimRightByte_Repeat.
  - rewrite append_cons. rewrite HasSuffix_byte_cons in Hstem.
    cbn [strings.trimRightByte]. destruct t as [|b t].
    + rewrite append_nil_l, trimRightByte_Repeat. now rewrite Hstem.
    + rewrite (IH Hstem). reflexivity.
Qed.

(** ** bzzDownloadHandler: the trailing slashes of the path *)

Section DownloadProperties.

Context `{Imports}.

Lemma trailing_slash_unchanged (p : string) :
  strings.HasSuffix p "/" = false -> trailing_slash p = p.
Proof. unfold trailing_slash. now intros ->. Qed.

Lemma trailing_slash_one (p : string) :
  strings.HasSuffix p "/" = true ->
  exists stem n,
    p = stem +:+ strings.Repeat "/" (S n) /\
    strings.HasSuffix stem "/" = false /\
    trailing_slash p = stem +:+ "/".
Proof.
  intros Hp. unfold trailing_slash. rewrite Hp.
  destruct (trimRightByte_spec "/" p) as [Hstem [n Hn]].
  destruct n as [|n].
  - exfalso. simpl in Hn. rewrite append_nil_r in Hn.
    rewrite <- Hn in Hstem. congruence.
  - exists (strings.trimRightByte p "/"), n. auto.
Qed.

Lemma trailing_slash_stem (stem : string) (n : nat) :
  strings.HasSuffix stem "/" = false ->
  trailing_slash (stem +:+ strings.Repeat "/" (S n)) = stem +:+ "/".
Proof.
  intros Hstem. unfold trailing_slash.
  rewrite HasSuffix_byte_Repeat. now rewrite trimRightByte_append_Repeat.
Qed.

(** C10. bzzDownloadHandler hands serveReference the path with its
    trailing slashes normalised: a path without a trailing slash is passed
    unchanged, and a path that ends in one or more slashes (a stem that
    does not end in a slash, followed by a run of slashes) is passed as the
    stem followed by exactly one slash. *)
Theorem bzzDownloadHandler_trailing_slash
    (fuel : nat) (s : Service) (w : ResponseWriter) (r : Request)
    (address : Address) (p : string) :
  mapStructure_paths (req_Vars r) = inl (address, p) ->
  bzzDownloadHandler fuel s w r
    = serveReference fuel s address (trailing_slash p) w r
  /\ (strings.HasSuffix p "/" = false -> trailing_slash p = p)
  /\ (strings.HasSuffix p "/" = true ->
      exists stem n,
        p = stem +:+ strings.Repeat "/" (S n) /\
        strings.HasSuffix stem "/" = false)
  /\ (forall stem n,
        strings.HasSuffix stem "/" = false ->
        p = stem +:+ strings.Repeat "/" (S n) ->
        trailing_slash p = stem +:+ "/").
Proof.
  intros Hmap. repeat split.
  - unfold bzzDownloadHandler. now rewrite Hmap.
  - apply trailing_slash_unchanged.
  - intros Hp. destruct (trailing_slash_one p Hp) as (stem & n & ? & ? & _).
    now exists stem, n.
  - intros stem n Hstem ->. now apply trailing_slash_stem.
Qed.

(** ** serveReference: the passes from FETCH *)

Lemma FETCH_dereferenced s pathVar r st :
  feedDereferenced st = true ->
  FETCH s pathVar r st =
  Return (fst (plain_pass s pathVar r true (address st) (w_ st) (calls st)))
         (snd (plain_pass s pathVar r true (address st) (w_ st) (calls st))).
Proof.
  intros Hfd. unfold FETCH, plain_pass. rewrite Hfd. simpl.
  destruct (manifest_NewDefaultManifestReference _ _); reflexivity.
Qed.

Lemma FETCH_no_feed s pathVar r st m e :
  feedDereferenced st = false ->
  manifest_NewDefaultManifestReference (address st)
    (loadsave_NewReadonly (storer s)) = Ok m ->
  manifestFeed s m = Err e ->
  FETCH s pathVar r st =
  Return (serveReference_path s m false pathVar (w_ st) r)
         (calls st ++ [call_NewDefaultManifestReference (address st);
                       call_manifestFeed m])%list.
Proof.
  intros Hfd Hm Hfeed. unfold FETCH. rewrite Hm, Hfd, Hfeed. simpl.
  now rewrite <- app_assoc.
Qed.

(** The only jump back to FETCH: taken with feedDereferenced false, over a
    feed manifest whose update decodes, and it sets feedDereferenced. *)
Lemma FETCH_Goto_inv s pathVar r st st' :
  FETCH s pathVar r st = Goto_FETCH st' ->
  feedDereferenced st = false /\
  exists m l ch cur ts curBytes,
    manifest_NewDefaultManifestReference (address st)
      (loadsave_NewReadonly (storer s)) = Ok m /\
    manifestFeed s m = Ok l /\
    At l time_Now_Unix 0 = Ok (Some ch, cur) /\
    parseFeedUpdate ch = Ok (address st', ts) /\
    MarshalBinary cur = Ok curBytes /\
    feedDereferenced st' = true /\
    w_ st' = Header_Set
               (Header_Set (w_ st) SwarmFeedIndexHeader (hex.EncodeToString curBytes))
               "Access-Control-Expose-Headers" SwarmFeedIndexHeader /\
    calls st' = (calls st ++ [call_NewDefaultManifestReference (address st);
                              call_manifestFeed m;
                              call_At time_Now_Unix])%list.
Proof.
  unfold FETCH.
  destruct (manifest_NewDefaultManifestReference _ _) as [m|] eqn:Hm; [|discriminate].
  destruct (feedDereferenced st) eqn:Hfd; simpl; [discriminate|].
  destruct (manifestFeed s m) as [l|] eqn:Hl; [|discriminate].
  destruct (At l time_Now_Unix 0) as [[[ch|] cur]|] eqn:Hat; try discriminate.
  destruct (parseFeedUpdate ch) as [[ref ts]|] eqn:Hparse; [|discriminate].
  destruct (MarshalBinary cur) as [curBytes|] eqn:Hcur; [|discriminate].
  intros [= <-]. split; [reflexivity|].
  exists m, l, ch, cur, ts, curBytes. simpl.
  repeat split; try assumption.
  now rewrite <- !app_assoc.
Qed.

(** Two passes are enough: a pass either returns, or jumps to a pass that
    returns. *)
Lemma serveReference_from_two s pathVar r st fuel :
  serveReference_from (S (S fuel)) s pathVar r st =
  match FETCH s pathVar r st with
  | Return w cs => Some (w, cs)
  | Goto_FETCH st' =>
      Some (plain_pass s pathVar r true (address st') (w_ st') (calls st'))
  end.
Proof.
  cbn [serveReference_from].
  destruct (FETCH s pathVar r st) as [w cs|st'] eqn:Hpass; [reflexivity|].
  apply FETCH_Goto_inv in Hpass as (_ & m & l & ch & cur & ts & cb & _ & _ & _ & _ & _ & Hfd & _).
  rewrite (FETCH_dereferenced _ _ _ _ Hfd).
  destruct fuel; now destruct (plain_pass _ _ _ _ _ _ _).
Qed.

Lemma count_calls_app kind (xs ys : list call) :
  count_calls kind (xs ++ ys) = (count_calls kind xs + count_calls kind ys)%nat.
Proof. induction xs as [|x xs IH]; simpl; [reflexivity|]. rewrite IH. lia. Qed.

(** A pass from the initial state makes at most one call of manifestFeed
    and at most one feed lookup, whatever it ends with. *)
Lemma FETCH_initial_calls s pathVar r root w kind :
  (kind = is_manifestFeed \/ kind = is_At) ->
  (count_calls kind
     match FETCH s pathVar r (initial root w) with
     | Return _ cs => cs
     | Goto_FETCH st' => calls st'
     end <= 1)%nat.
Proof.
  intros Hkind. unfold FETCH, initial. simpl.
  destruct (manifest_NewDefaultManifestReference _ _) as [m|]; simpl.
  2: { destruct Hkind as [-> | ->]; simpl; lia. }
  destruct (manifestFeed s m) as [l|]; simpl.
  2: { destruct Hkind as [-> | ->]; simpl; lia. }
  destruct (At l time_Now_Unix 0) as [[[ch|] cur]|]; simpl;
    try (destruct Hkind as [-> | ->]; simpl; lia).
  destruct (parseFeedUpdate ch) as [[ref ts]|]; simpl;
    try (destruct Hkind as [-> | ->]; simpl; lia).
  destruct (MarshalBinary cur); simpl;
    destruct Hkind as [-> | ->]; simpl; lia.
Qed.

Lemma plain_pass_calls s pathVar r fd a w cs :
  snd (plain_pass s pathVar r fd a w cs)
  = (cs ++ [call_NewDefaultManifestReference a])%list.
Proof. unfold plain_pass. now destruct (manifest_NewDefaultManifestReference _ _). Qed.

(** C1. serveReference dereferences a feed at most once per request. Every
    run returns within two passes, with at most one call of manifestFeed
    and at most one feed lookup among its calls; and when the first pass
    jumps back to FETCH, feedDereferenced is true and the run ends with the
    pass that loads the target of the update and resolves the path in it as
    in a plain manifest, without a call of manifestFeed on it, whatever
    metadata its root entry carries. *)
Theorem serveReference_dereferences_once
    (fuel : nat) (s : Service) (root : Address) (pathVar : string)
    (w : ResponseWriter) (r : Request) :
  exists w' cs,
    serveReference (S (S fuel)) s root pathVar w r = Some (w', cs) /\
    (count_calls is_manifestFeed cs <= 1)%nat /\
    (count_calls is_At cs <= 1)%nat /\
    forall st',
      FETCH s pathVar r (initial root w) = Goto_FETCH st' ->
      feedDereferenced st' = true /\
      cs = (calls st' ++ [call_NewDefaultManifestReference (address st')])%list /\
      w' = match manifest_NewDefaultManifestReference (address st')
                   (loadsave_NewReadonly (storer s)) with
           | Err _ => jsonhttp.NotFound (w_ st') resp_nil
           | Ok m' => serveReference_path s m' true pathVar (w_ st') r
           end.
Proof.
  unfold serveReference.
  rewrite serveReference_from_two.
  pose proof (FETCH_initial_calls s pathVar r root w is_manifestFeed (or_introl eq_refl)) as Hfeed.
  pose proof (FETCH_initial_calls s pathVar r root w is_At (or_intror eq_refl)) as Hat.
  destruct (FETCH s pathVar r (initial root w)) as [w1 cs1|st1] eqn:Hpass.
  - exists w1, cs1. split; [reflexivity|]. do 2 (split; [assumption|]). intros st' [=].
  - destruct (plain_pass s pathVar r true (address st1) (w_ st1) (calls st1))
      as [w2 cs2] eqn:Hplain.
    exists w2, cs2.
    assert (Hcs : cs2 = (calls st1 ++ [call_NewDefaultManifestReference (address st1)])%list).
    { rewrite <- (plain_pass_calls s pathVar r true (address st1) (w_ st1) (calls st1)).
      now rewrite Hplain. }
    split; [reflexivity|].
    split; [rewrite Hcs, count_calls_app; simpl; lia|].
    split; [rewrite Hcs, count_calls_app; simpl; lia|].
    intros st' [= <-].
    apply FETCH_Goto_inv in Hpass as (_ & m & l & ch & cur & ts & cb & _ & _ & _ & _ & _ & Hfd & _).
    split; [exact Hfd|]. split; [exact Hcs|].
    unfold plain_pass in Hplain.
    destruct (manifest_NewDefaultManifestReference _ _); now inversion Hplain.
Qed.

(** ** manifestFeed: failures of the detection *)

Lemma decode_if_set_empty {A : Type} (zero : A) (decode : string -> result A) :
  decode_if_set "" zero decode = Ok zero.
Proof. reflexivity. Qed.

Lemma decode_if_set_Err {A : Type} (e : string) (zero : A)
    (decode : string -> result A) (err : error) :
  e <> "" -> decode e = Err err -> decode_if_set e zero decode = Err err.
Proof.
  intros Hne Hdec. unfold decode_if_set.
  destruct (String.eqb_spec e "") as [->|_]; [congruence | exact Hdec].
Qed.

Lemma DecodeString_Err_nonempty (e : string) (err : error) :
  hex.DecodeString e = Err err -> e <> "".
Proof. intros Hdec ->. discriminate. Qed.

Lemma feed_detection_fails_Err (s : Service) (m : manifest_Interface) :
  feed_detection_fails s m -> exists e, manifestFeed s m = Err e.
Proof.
  intros [e Hroot | root owner e Hroot Hmeta Hdec | root topic e Hroot Hmeta Hdec
         | root t e Hroot Hmeta Hne Hdec | root Hroot Hmeta | root Hroot Hmeta
         | e Hfeed];
    unfold manifestFeed; try rewrite Hroot; unfold map_index; try rewrite Hmeta;
    simpl.
  - eauto.
  - rewrite (decode_if_set_Err _ _ _ e (DecodeString_Err_nonempty _ _ Hdec) Hdec).
    eauto.
  - destruct (decode_if_set _ [] hex.DecodeString); [|eauto].
    rewrite (decode_if_set_Err _ _ _ e (DecodeString_Err_nonempty _ _ Hdec) Hdec).
    eauto.
  - destruct (decode_if_set _ [] hex.DecodeString); [|eauto].
    destruct (decode_if_set _ [] hex.DecodeString); [|eauto].
    rewrite (decode_if_set_Err _ _ _ e Hne Hdec). eauto.
  - destruct (decode_if_set _ [] hex.DecodeString); [|eauto].
    destruct (decode_if_set _ feeds_Type_zero _); eauto.
  - destruct (decode_if_set _ [] hex.DecodeString) as [owner|]; [|eauto].
    destruct (decode_if_set _ feeds_Type_zero _); [|eauto].
    rewrite orb_true_r. eauto.
  - fold (manifestFeed s m). eauto.
Qed.

(** C9. When feed detection fails, for any of the reasons a manifest is
    not a feed or for any other, serveReference swallows the error: it
    answers with the path resolution in the loaded manifest, taken as an
    ordinary manifest, and makes no feed lookup. *)
Theorem feed_detection_error_swallowed
    (fuel : nat) (s : Service) (root : Address) (pathVar : string)
    (w : ResponseWriter) (r : Request) (m : manifest_Interface) :
  manifest_NewDefaultManifestReference root (loadsave_NewReadonly (storer s)) = Ok m ->
  feed_detection_fails s m ->
  serveReference (S fuel) s root pathVar w r
  = Some (serveReference_path s m false pathVar w r,
          [call_NewDefaultManifestReference root; call_manifestFeed m]).
Proof.
  intros Hm Hfails. apply feed_detection_fails_Err in Hfails as [e He].
  unfold serveReference. cbn [serveReference_from].
  now rewrite (FETCH_no_feed s pathVar r (initial root w) m e eq_refl Hm He).
Qed.

(** ** serveReference: the failures of a feed lookup *)

(** C8, as the code has it. Over a feed manifest: a lookup that fails is
    answered with not-found "feed not found"; a lookup that finds no update
    with not-found "no update found"; an update whose payload does not
    decode with the internal error "mapStructure feed update". *)
Theorem feed_lookup_failures
    (fuel : nat) (s : Service) (root : Address) (pathVar : string)
    (w : ResponseWriter) (r : Request) (m : manifest_Interface)
    (l : feeds_Lookup) :
  manifest_NewDefaultManifestReference root (loadsave_NewReadonly (storer s)) = Ok m ->
  manifestFeed s m = Ok l ->
  let cs := [call_NewDefaultManifestReference root; call_manifestFeed m;
             call_At time_Now_Unix] in
  (forall e, At l time_Now_Unix 0 = Err e ->
     serveReference (S fuel) s root pathVar w r
     = Some (jsonhttp.NotFound w (resp_string "feed not found"), cs)) /\
  (forall cur, At l time_Now_Unix 0 = Ok (None, cur) ->
     serveReference (S fuel) s root pathVar w r
     = Some (jsonhttp.NotFound w (resp_string "no update found"), cs)) /\
  (forall ch cur e, At l time_Now_Unix 0 = Ok (Some ch, cur) ->
     parseFeedUpdate ch = Err e ->
     serveReference (S fuel) s root pathVar w r
     = Some (jsonhttp.InternalServerError w (resp_string "mapStructure feed update"),
             cs)).
Proof.
  intros Hm Hl cs. unfold serveReference. cbn [serveReference_from].
  unfold FETCH, initial. simpl. rewrite Hm, Hl.
  repeat split.
  - intros e ->. reflexivity.
  - intros cur ->. reflexivity.
  - intros ch cur e -> ->. reflexivity.
Qed.

(** ** serveReference: the path resolution *)

Lemma manifestMetadataLoad_root (m : manifest_Interface) (key : string) :
  manifestMetadataLoad m manifest_RootPath key =
  match root_metadata m key with
  | Some val => (val, true)
  | None => ("", false)
  end.
Proof.
  unfold manifestMetadataLoad, root_metadata.
  destruct (Lookup m manifest_RootPath) as [me|]; [|reflexivity].
  now destruct (Metadata me !! key).
Qed.

Lemma serveReference_path_fallback
    (s : Service) (m : manifest_Interface) (fd : bool) (pathVar : string)
    (w : ResponseWriter) (r : Request) (e : error) :
  pathVar <> "" ->
  Lookup m pathVar = Err e ->
  errors_Is e manifest_ErrNotFound = true ->
  serveReference_path s m fd pathVar w r = fallback_chain s m fd pathVar w r.
Proof.
  intros Hne Hlookup Hnotfound.
  unfold serveReference_path, fallback_chain, redirect_to_directory,
    index_document, error_document.
  destruct (String.eqb_spec pathVar "") as [->|_]; [congruence|].
  rewrite Hlookup, Hnotfound, !manifestMetadataLoad_root.
  destruct (root_metadata m manifest_WebsiteErrorDocumentPathKey) as [p|];
    destruct (root_metadata m manifest_WebsiteIndexDocumentSuffixKey) as [suffix|];
    destruct (strings.HasPrefix pathVar "/"); simpl;
    try destruct (HasPrefix m (pathVar +:+ "/")) as [[|]|]; simpl;
    try destruct (strings.HasSuffix pathVar suffix); simpl;
    try destruct (Lookup m (path_Join [pathVar; suffix])); simpl;
    try destruct (pathVar =? p)%string; simpl;
    try destruct (Lookup m p); reflexivity.
Qed.

Lemma serveReference_path_empty
    (s : Service) (m : manifest_Interface) (fd : bool)
    (w : ResponseWriter) (r : Request) :
  serveReference_path s m fd "" w r = empty_path s m fd w r.
Proof.
  unfold serveReference_path, empty_path. simpl.
  rewrite manifestMetadataLoad_root.
  now destruct (root_metadata m manifest_WebsiteIndexDocumentSuffixKey).
Qed.

(** A request whose manifest resolves is answered by the path resolution in
that manifest. *)
Lemma serveReference_resolved
    (fuel : nat) (s : Service) (root : Address) (pathVar : string)
    (w : ResponseWriter) (r : Request)
    (m : manifest_Interface) (fd : bool) (w1 : ResponseWriter) :
  resolves s root w m fd w1 ->
  exists cs,
    serveReference (S (S fuel)) s root pathVar w r
    = Some (serveReference_path s m fd pathVar w1 r, cs).
Proof.
  intros Hres. unfold serveReference. rewrite serveReference_from_two.
  destruct Hres as [m e Hm Hfeed | feed l ch cur ref ts curBytes m Hfeed Hl Hat Hparse Hcur Hm].
  - rewrite (FETCH_no_feed s pathVar r (initial root w) m e eq_refl Hm Hfeed).
    eexists. reflexivity.
  - unfold FETCH, initial. cbn. rewrite Hfeed. cbn. rewrite Hl, Hat, Hparse, Hcur.
    unfold plain_pass. cbn. rewrite Hm. eexists. reflexivity.
Qed.

(** C2. For a request whose path is not empty and whose lookup in the
resolved manifest answers not-found, serveReference answers with the first
success of the chain: (a) the redirect to the directory, (b) the index
document under the path, (c) the error document, and (d) not-found "path
address not found" when none succeeds. *)
Theorem path_not_found_fallback
    (fuel : nat) (s : Service) (root : Address) (pathVar : string)
    (w : ResponseWriter) (r : Request)
    (m : manifest_Interface) (fd : bool) (w1 : ResponseWriter) (e : error) :
  resolves s root w m fd w1 ->
  pathVar <> "" ->
  Lookup m pathVar = Err e ->
  errors_Is e manifest_ErrNotFound = true ->
  exists cs,
    serveReference (S (S fuel)) s root pathVar w r
    = Some (fallback_chain s m fd pathVar w1 r, cs).
Proof.
  intros Hres Hne Hlookup Hnotfound.
  destruct (serveReference_resolved fuel s root pathVar w r m fd w1 Hres) as [cs Hrun].
  exists cs. rewrite Hrun.
  now rewrite (serveReference_path_fallback s m fd pathVar w1 r e).
Qed.

(** C3. For a request with the empty path, serveReference looks up the
index document that the root entry of the resolved manifest names, joined
to the empty path: it serves that entry when it resolves, and answers
not-found "address not found or incorrect" when the key is absent or the
lookup fails. *)
Theorem empty_path_index_document
    (fuel : nat) (s : Service) (root : Address)
    (w : ResponseWriter) (r : Request)
    (m : manifest_Interface) (fd : bool) (w1 : ResponseWriter) :
  resolves s root w m fd w1 ->
  exists cs,
    serveReference (S (S fuel)) s root "" w r
    = Some (match root_metadata m manifest_WebsiteIndexDocumentSuffixKey with
            | None =>
                jsonhttp.NotFound w1 (resp_string "address not found or incorrect")
            | Some suffix =>
                match Lookup m (path_Join [""; suffix]) with
                | Err _ =>
                    jsonhttp.NotFound w1
                      (resp_string "address not found or incorrect")
                | Ok entry => serveManifestEntry s w1 r entry (negb fd)
                end
            end, cs).
Proof.
  intros Hres.
  destruct (serveReference_resolved fuel s root "" w r m fd w1 Hres) as [cs Hrun].
  exists cs. rewrite Hrun. now rewrite serveReference_path_empty.
Qed.

(** ** The headers of a download *)

Lemma additionalHeaders_other (add : gmap string (list string))
    (w : ResponseWriter) (k : string) :
  add !! k = None ->
  Header (map_fold (fun name values w => Header_Set w name (strings.Join values "; "))
            w add) !! k
  = Header w !! k.
Proof.
  revert add.
  apply (map_fold_weak_ind
           (fun (w' : ResponseWriter) (add : gmap string (list string)) =>
              add !! k = None -> Header w' !! k = Header w !! k)).
  - reflexivity.
  - intros i x m w' Hi IH Hk.
    apply lookup_insert_None in Hk as [Hk Hne].
    simpl. rewrite lookup_insert_ne by exact Hne. now apply IH.
Qed.

(** When downloadHandler serves content, it is the content of the
    reference it was given; the ETag is the quoted reference when asked
    for, and otherwise no header but those of the content is written. *)
Lemma downloadHandler_content s w r reference add etag ref l :
  Written (downloadHandler s w r reference add etag) = Content ref l ->
  ref = reference /\
  (add !! "ETag" = None ->
   Header (downloadHandler s w r reference add etag) !! "ETag"
   = if etag then Some (fmt_q (Address_String reference)) else Header w !! "ETag") /\
  (forall k, add !! k = None ->
             k <> "ETag" -> k <> "Content-Length" ->
             k <> "Access-Control-Expose-Headers" ->
             Header (downloadHandler s w r reference add etag) !! k = Header w !! k).
Proof.
  unfold downloadHandler.
  destruct (joiner_New (storer s) reference) as [len|err].
  2: { destruct (errors_Is err storage_ErrNotFound); discriminate. }
  simpl. intros [= <- <-]. split; [reflexivity|]. split.
  - intros Hadd. rewrite !lookup_insert_ne by discriminate.
    destruct etag; simpl.
    + now rewrite lookup_insert_eq.
    + now apply additionalHeaders_other.
  - intros k Hadd H1 H2 H3.
    rewrite !lookup_insert_ne by congruence.
    destruct etag; simpl.
    + rewrite lookup_insert_ne by congruence. now apply additionalHeaders_other.
    + now apply additionalHeaders_other.
Qed.

Lemma serveManifestEntry_content s w r e etag ref l :
  Written (serveManifestEntry s w r e etag) = Content ref l ->
  ref = Reference e /\
  Header (serveManifestEntry s w r e etag) !! "ETag"
  = (if etag then Some (fmt_q (Address_String (Reference e)))
     else Header w !! "ETag") /\
  (forall k, k ∉ content_headers ->
             Header (serveManifestEntry s w r e etag) !! k = Header w !! k).
Proof.
  unfold serveManifestEntry. intros Hcontent.
  apply downloadHandler_content in Hcontent as (Href & Hetag & Hother).
  split; [exact Href|]. split.
  - apply Hetag.
    destruct (Metadata e !! manifest_EntryMetadataFilenameKey);
      destruct (Metadata e !! manifest_EntryMetadataContentTypeKey);
      now rewrite ?lookup_insert_ne by discriminate.
  - intros k Hk. unfold content_headers in Hk.
    rewrite !not_elem_of_cons in Hk. destruct Hk as (? & ? & ? & ? & ? & _).
    apply Hother; try assumption.
    destruct (Metadata e !! manifest_EntryMetadataFilenameKey);
      destruct (Metadata e !! manifest_EntryMetadataContentTypeKey);
      now rewrite ?lookup_insert_ne by congruence.
Qed.

(** The path resolution serves content only through serveManifestEntry. *)
Lemma serveReference_path_content s m fd pathVar w r ref l :
  Written (serveReference_path s m fd pathVar w r) = Content ref l ->
  exists e, serveReference_path s m fd pathVar w r
            = serveManifestEntry s w r e (negb fd).
Proof.
  unfold serveReference_path.
  repeat match goal with
         | |- context [match ?x with _ => _ end] => destruct x eqn:?
         end;
    simpl; intros Hw; try discriminate; eauto.
Qed.

Lemma plain_pass_content s pathVar r fd a w cs ref l :
  Written (fst (plain_pass s pathVar r fd a w cs)) = Content ref l ->
  Header (fst (plain_pass s pathVar r fd a w cs)) !! "ETag"
  = (if fd then Header w !! "ETag" else Some (fmt_q (Address_String ref))) /\
  (forall k, k ∉ content_headers ->
             Header (fst (plain_pass s pathVar r fd a w cs)) !! k = Header w !! k).
Proof.
  unfold plain_pass.
  destruct (manifest_NewDefaultManifestReference _ _) as [m|]; simpl;
    [|discriminate].
  intros Hw. destruct (serveReference_path_content _ _ _ _ _ _ _ _ Hw) as [e He].
  rewrite He in Hw |- *.
  apply serveManifestEntry_content in Hw as (-> & Hetag & Hother).
  split; [|exact Hother]. rewrite Hetag. now destruct fd.
Qed.

(** C6. A download that serves content sets its headers by the way the
    manifest was resolved. Resolved directly from the manifest root (the
    first pass returns, feedDereferenced false), it sets the ETag to the
    quoted reference of the content served and writes no feed-index header.
    Resolved through a feed (the first pass jumps back to FETCH with
    feedDereferenced true), it writes no ETag and sets the feed-index
    header to the hex encoding of the index of the feed update. *)
Theorem download_etag_or_feed_index
    (fuel : nat) (s : Service) (root : Address) (pathVar : string)
    (w : ResponseWriter) (r : Request)
    (w' : ResponseWriter) (cs : list call) (ref : Address) (l : Z) :
  serveReference (S (S fuel)) s root pathVar w r = Some (w', cs) ->
  Written w' = Content ref l ->
  Header w !! "ETag" = None ->
  Header w !! SwarmFeedIndexHeader = None ->
  SwarmFeedIndexHeader ∉ content_headers ->
  (forall w1 cs1,
      FETCH s pathVar r (initial root w) = Return w1 cs1 ->
      Header w' !! "ETag" = Some (fmt_q (Address_String ref)) /\
      Header w' !! SwarmFeedIndexHeader = None) /\
  (forall st',
      FETCH s pathVar r (initial root w) = Goto_FETCH st' ->
      feedDereferenced st' = true /\
      Header w' !! "ETag" = None /\
      exists m lk ch cur curBytes,
        manifest_NewDefaultManifestReference root
          (loadsave_NewReadonly (storer s)) = Ok m /\
        manifestFeed s m = Ok lk /\
        At lk time_Now_Unix 0 = Ok (Some ch, cur) /\
        MarshalBinary cur = Ok curBytes /\
        Header w' !! SwarmFeedIndexHeader = Some (hex.EncodeToString curBytes)).
Proof.
  unfold serveReference. rewrite serveReference_from_two.
  intros Hrun Hcontent Hetag0 Hidx0 Hdistinct. split.
  - intros w1 cs1 Hpass. rewrite Hpass in Hrun. injection Hrun as -> ->.
    (* the first pass returned: it is a plain pass with feedDereferenced false *)
    revert Hpass. unfold FETCH, initial. simpl.
    destruct (manifest_NewDefaultManifestReference _ _) as [m|] eqn:Hm; simpl.
    2: { intros [= <- _]. discriminate. }
    destruct (manifestFeed s m) as [lk|] eqn:Hlk; simpl.
    + destruct (At lk time_Now_Unix 0) as [[[ch|] cur]|]; simpl;
        try (intros [= <- _]; discriminate).
      destruct (parseFeedUpdate ch) as [[ref' ts]|]; simpl;
        try (intros [= <- _]; discriminate).
      destruct (MarshalBinary cur); simpl; [discriminate|].
      intros [= <- _]; discriminate.
    + intros [= <- _].
      destruct (serveReference_path_content _ _ _ _ _ _ _ _ Hcontent) as [me Hme].
      rewrite Hme in Hcontent |- *.
      apply serveManifestEntry_content in Hcontent as (-> & Hetag & Hother).
      split; [exact Hetag|]. now rewrite Hother.
  - intros st' Hpass. rewrite Hpass in Hrun.
    apply FETCH_Goto_inv in Hpass
      as (_ & m & lk & ch & cur & ts & curBytes & Hm & Hlk & Hat & _ & Hcur & Hfd & Hw & _).
    split; [exact Hfd|].
    assert (Hw' : w' = fst (plain_pass s pathVar r true (address st') (w_ st') (calls st')))
      by (injection Hrun as Hrun; now rewrite Hrun).
    rewrite Hw' in Hcontent |- *.
    apply plain_pass_content in Hcontent as (Hetag & Hother).
    assert (Hne : SwarmFeedIndexHeader <> "ETag" /\
                  SwarmFeedIndexHeader <> "Access-Control-Expose-Headers").
    { unfold content_headers in Hdistinct.
      rewrite !not_elem_of_cons in Hdistinct. tauto. }
    destruct Hne as [Hne1 Hne2].
    split.
    + rewrite Hetag, Hw. simpl.
      rewrite !lookup_insert_ne by congruence. exact Hetag0.
    + exists m, lk, ch, cur, curBytes. repeat split; try assumption.
      rewrite (Hother _ Hdistinct), Hw. simpl.
      rewrite lookup_insert_ne by congruence. now rewrite lookup_insert_eq.
Qed.

End DownloadProperties.

(** ** The download path on the example node *)

Section DownloadExamples.

Import Example.

(** The feed at [aa] points to [bb], whose root entry is feed-shaped and
    would lead to [cc]: the download serves the index document of [bb]. *)
Example feed_target_not_followed :
  (exists l, manifestFeed (service site) (manifest_at [Byte.xbb]) = Ok l) /\
  (fun o => (Written (fst o), snd o))
    <$> serveReference 2 (service site) [Byte.xaa] "" fresh (download_request "aa" "")
  = Some (Content [Byte.x05] 50,
          [call_NewDefaultManifestReference [Byte.xaa];
           call_manifestFeed (manifest_at [Byte.xaa]);
           call_At time_Now_Unix;
           call_NewDefaultManifestReference [Byte.xbb]]).
Proof. split; [eexists|]; reflexivity. Qed.

Lemma bzzDownloadHandler_trailing_slash_witness :
  mapStructure_paths (req_Vars (download_request "a0" "docs///"))
  = inl ([Byte.xa0], "docs///") /\
  trailing_slash "docs///" = "docs/".
Proof.
  split; [reflexivity|].
  destruct (bzzDownloadHandler_trailing_slash 2 (service site) fresh
              (download_request "a0" "docs///") [Byte.xa0] "docs///" eq_refl)
    as (_ & _ & _ & Hone).
  apply (Hone "docs" 2%nat); reflexivity.
Defined.

Lemma feed_detection_error_swallowed_witness :
  manifest_NewDefaultManifestReference [Byte.xa3]
    (loadsave_NewReadonly (storer (service site))) = Ok (manifest_at [Byte.xa3]) /\
  hex.DecodeString "xyz" = Err (hex.InvalidByteError "x") /\
  (Written ∘ fst)
    <$> serveReference 1 (service site) [Byte.xa3] "" fresh (download_request "a3" "")
  = Some (Content [Byte.x01] 10).
Proof.
  split; [reflexivity|]. split; [reflexivity|].
  rewrite (feed_detection_error_swallowed 0 (service site) [Byte.xa3] ""
             fresh (download_request "a3" "") (manifest_at [Byte.xa3]) eq_refl).
  - reflexivity.
  - eapply (owner_not_hex _ _ _ "xyz"); reflexivity.
Defined.

Lemma feed_lookup_failures_witness :
  manifest_NewDefaultManifestReference [Byte.xa1]
    (loadsave_NewReadonly (storer (service site))) = Ok (manifest_at [Byte.xa1]) /\
  manifestFeed (service site) (manifest_at [Byte.xa1])
  = Ok (lookup_of (feed_of_topic [Byte.xff])) /\
  serveReference 1 (service site) [Byte.xa1] "" fresh (download_request "a1" "")
  = Some (jsonhttp.NotFound fresh (resp_string "no update found"),
          [call_NewDefaultManifestReference [Byte.xa1];
           call_manifestFeed (manifest_at [Byte.xa1]);
           call_At time_Now_Unix]).
Proof.
  split; [reflexivity|]. split; [reflexivity|].
  destruct (feed_lookup_failures 0 (service site) [Byte.xa1] "" fresh
              (download_request "a1" "") (manifest_at [Byte.xa1])
              (lookup_of (feed_of_topic [Byte.xff])) eq_refl eq_refl)
    as (_ & Hnone & _).
  apply (Hnone {| MarshalBinary := Ok [] |}). reflexivity.
Defined.

(** C8, as it is stated, fails on the code. At [a1] the feed lookup
    succeeds and finds no update: the answer is "no update found", not
    "feed not found". At [a2] the update does not decode: the answer is
    "mapStructure feed update", not "feed update malformed". *)
Lemma feed_no_update_counterexample :
  At (lookup_of (feed_of_topic [Byte.xff])) time_Now_Unix 0
  = Ok (None, {| MarshalBinary := Ok [] |}) /\
  (Written ∘ fst)
    <$> serveReference 2 (service site) [Byte.xa1] "" fresh (download_request "a1" "")
  = Some (JSON 404 (resp_string "no update found")) /\
  (Written ∘ fst)
    <$> serveReference 2 (service site) [Byte.xa1] "" fresh (download_request "a1" "")
  <> Some (JSON 404 (resp_string "feed not found")) /\
  (Written ∘ fst)
    <$> serveReference 2 (service site) [Byte.xa2] "" fresh (download_request "a2" "")
  = Some (JSON 500 (resp_string "mapStructure feed update")) /\
  (forall code,
    (Written ∘ fst)
      <$> serveReference 2 (service site) [Byte.xa2] "" fresh (download_request "a2" "")
    <> Some (JSON code (resp_string "feed update malformed"))).
Proof.
  split; [reflexivity|]. split; [reflexivity|]. split; [discriminate|].
  split; [reflexivity|]. intros code. discriminate.
Qed.

Lemma resolves_a0 :
  resolves (service site) [Byte.xa0] fresh (manifest_at [Byte.xa0]) false fresh.
Proof.
  eapply resolves_manifest; reflexivity.
Defined.

Lemma path_not_found_fallback_witness :
  resolves (service site) [Byte.xa0] fresh (manifest_at [Byte.xa0]) false fresh /\
  "img" <> "" /\
  Lookup (manifest_at [Byte.xa0]) "img" = Err manifest_ErrNotFound /\
  errors_Is manifest_ErrNotFound manifest_ErrNotFound = true /\
  exists cs,
    serveReference 2 (service site) [Byte.xa0] "img" fresh (download_request "a0" "img")
    = Some (http.Redirect fresh "/bzz/a0/img/" http.StatusPermanentRedirect, cs).
Proof.
  split; [exact resolves_a0|].
  split; [discriminate|]. split; [reflexivity|]. split; [reflexivity|].
  destruct (path_not_found_fallback 0 (service site) [Byte.xa0] "img" fresh
              (download_request "a0" "img") (manifest_at [Byte.xa0]) false fresh
              manifest_ErrNotFound resolves_a0) as [cs Hrun];
    [discriminate | reflexivity | reflexivity |].
  exists cs. exact Hrun.
Defined.

Lemma empty_path_index_document_witness :
  resolves (service site) [Byte.xa0] fresh (manifest_at [Byte.xa0]) false fresh /\
  exists cs,
    (Written ∘ fst)
      <$> serveReference 2 (service site) [Byte.xa0] "" fresh (download_request "a0" "")
    = Some (Content [Byte.x01] 10) /\
    snd <$> serveReference 2 (service site) [Byte.xa0] "" fresh (download_request "a0" "")
    = Some cs.
Proof.
  split; [exact resolves_a0|].
  destruct (empty_path_index_document 0 (service site) [Byte.xa0] fresh
              (download_request "a0" "") (manifest_at [Byte.xa0]) false fresh
              resolves_a0) as [cs Hrun].
  exists cs. rewrite Hrun. split; reflexivity.
Defined.

Example fallback_index_document :
  Written (serveReference_path (service site) (manifest_at [Byte.xa0]) false "docs/"
             fresh (download_request "a0" "docs/"))
  = Content [Byte.x04] 40.
Proof. reflexivity. Qed.

Example fallback_error_document :
  Written (serveReference_path (service site) (manifest_at [Byte.xa0]) false "nothing"
             fresh (download_request "a0" "nothing"))
  = Content [Byte.x02] 20.
Proof. reflexivity. Qed.

Example fallback_not_found :
  Written (serveReference_path (service site) (manifest_at [Byte.xcc]) false "nothing"
             fresh (download_request "cc" "nothing"))
  = JSON 404 (resp_string "path address not found").
Proof. reflexivity. Qed.

Example empty_path_served :
  Written (serveReference_path (service site) (manifest_at [Byte.xa0]) false ""
             fresh (download_request "a0" ""))
  = Content [Byte.x01] 10.
Proof. reflexivity. Qed.

Lemma download_etag_or_feed_index_witness :
  let run := serveReference 2 (service site) [Byte.xaa] "" fresh
               (download_request "aa" "") in
  exists w' cs,
    run = Some (w', cs) /\
    Written w' = Content [Byte.x05] 50 /\
    Header fresh !! "ETag" = None /\
    Header fresh !! SwarmFeedIndexHeader = None /\
    (SwarmFeedIndexHeader ∉ content_headers) /\
    Header w' !! "ETag" = None /\
    Header w' !! SwarmFeedIndexHeader = Some "0001".
Proof.
  intros run.
  destruct run as [[w' cs]|] eqn:Hrun; [|discriminate Hrun].
  exists w', cs.
  assert (Hcontent : Written w' = Content [Byte.x05] 50)
    by (injection Hrun as <- _; reflexivity).
  assert (Hdistinct : SwarmFeedIndexHeader ∉ content_headers).
  { intros Hin. unfold content_headers in Hin.
    repeat (apply elem_of_cons in Hin as [Hin|Hin]; [discriminate Hin|]).
    now apply elem_of_nil in Hin. }
  do 5 (split; [first [reflexivity | assumption]|]).
  destruct (download_etag_or_feed_index 0 (service site) [Byte.xaa] "" fresh
              (download_request "aa" "") w' cs [Byte.x05] 50
              Hrun Hcontent eq_refl eq_refl Hdistinct) as [_ Hfeed].
  destruct (FETCH (service site) "" (download_request "aa" "") (initial [Byte.xaa] fresh))
    as [w1 cs1|st'] eqn:Hpass; [discriminate Hpass|].
  destruct (Hfeed st' eq_refl) as (_ & Hetag & _).
  split; [exact Hetag|].
  injection Hrun as <- _. reflexivity.
Defined.

End DownloadExamples.

(** ** The upload path *)

Section UploadProperties.

Context `{Imports}.

Lemma count_events_app kind (xs ys : list event) :
  count_events kind (xs ++ ys) = (count_events kind xs + count_events kind ys)%nat.
Proof. induction xs as [|x xs IH]; simpl; [reflexivity|]. rewrite IH. lia. Qed.

(** The size callback answers, leaves the response writer alone, and its
only event is the increment of the tag. *)
Lemma storeSizeFn_closure_spec (tag : Tag) (encrypt : bool) (dataLen : Z)
    (st : handler_state) :
  exists err st',
    storeSizeFn_closure tag encrypt dataLen st = (Some err, st') /\
    rw st' = rw st /\
    events st' =
      (events st ++ if 0 <? calculateNumberOfChunks dataLen encrypt
                    then [ev_IncN (calculateNumberOfChunks dataLen encrypt)]
                    else [])%list.
Proof.
  unfold storeSizeFn_closure, tag_IncN, bind, emit, call_world, ret.
  destruct (0 <? calculateNumberOfChunks dataLen encrypt); simpl.
  - destruct (IncN_TotalChunks tag _ (world st)) as [[e|] wd]; simpl;
      eexists _, _; repeat split.
  - eexists _, _. repeat split. now rewrite app_nil_r.
Qed.

(** A store under the size callback. It answers; it leaves the response
writer alone; its events are increments of the tag and savings of nodes;
and when it succeeds they are the events of every node, in order. *)
Lemma save_nodes_closure_spec (tag : Tag) (encrypt : bool) (m : Manifest)
    (nodes : list Z) (st : handler_state) :
  exists err st' evs,
    save_nodes m nodes [storeSizeFn_closure tag encrypt] st = (Some err, st') /\
    rw st' = rw st /\
    events st' = (events st ++ evs)%list /\
    Forall (fun e => is_IncN e || is_save_node e = true) evs /\
    (err = None -> evs = flat_map (node_events encrypt) nodes).
Proof.
  revert st. induction nodes as [|dataLen rest IH]; intros st.
  - exists None, st, []. cbn. rewrite app_nil_r. repeat split. constructor.
  - cbn [save_nodes run_storeSizeFn]. unfold bind at 1 2.
    destruct (storeSizeFn_closure_spec tag encrypt dataLen st)
      as (err & st1 & Hcb & Hrw1 & Hev1).
    rewrite Hcb.
    assert (Hkinds : Forall (fun e => is_IncN e || is_save_node e = true)
              (if 0 <? calculateNumberOfChunks dataLen encrypt
               then [ev_IncN (calculateNumberOfChunks dataLen encrypt)] else [])).
    { destruct (0 <? _); repeat constructor. }
    destruct err as [e|]; cbn.
    + eexists _, _, _. split; [reflexivity|]. split; [exact Hrw1|].
      split; [exact Hev1|]. split; [exact Hkinds | discriminate].
    + unfold bind, emit, call_world. cbn.
      destruct (save_node m dataLen (world st1)) as [[e|] wd] eqn:Hsave; cbn.
      * eexists _, _, _. split; [reflexivity|]. cbn. split; [exact Hrw1|].
        split; [rewrite Hev1, <- app_assoc; reflexivity|].
        split; [|discriminate].
        apply Forall_app. split; [exact Hkinds | repeat constructor].
      * match goal with |- context [save_nodes m rest _ ?st2] =>
          destruct (IH st2) as (err' & st' & evs & Hrun & Hrw & Hev & Hall & Hok)
        end.
        rewrite Hrun. eexists _, _, _. split; [reflexivity|].
        split; [rewrite Hrw; exact Hrw1|].
        split; [rewrite Hev; cbn; rewrite Hev1, <- !app_assoc; reflexivity|].
        split.
        -- apply Forall_app. split; [exact Hkinds|].
           constructor; [reflexivity | exact Hall].
        -- intros ->. cbn. unfold node_events. rewrite <- app_assoc.
           cbn. now rewrite (Hok eq_refl).
Qed.

(** A store without a size callback: its events are the savings of nodes. *)
Lemma save_nodes_nil_spec (m : Manifest) (nodes : list Z) (st : handler_state) :
  exists err st' evs,
    save_nodes m nodes [] st = (Some err, st') /\
    rw st' = rw st /\
    events st' = (events st ++ evs)%list /\
    Forall (fun e => is_save_node e = true) evs.
Proof.
  revert st. induction nodes as [|dataLen rest IH]; intros st.
  - exists None, st, []. cbn. rewrite app_nil_r. repeat split. constructor.
  - cbn [save_nodes run_storeSizeFn]. unfold bind, ret, emit, call_world. cbn.
    destruct (save_node m dataLen (world st)) as [[e|] wd] eqn:Hsave; cbn.
    + eexists _, _, _. split; [reflexivity|]. cbn. repeat split.
      repeat constructor.
    + match goal with |- context [save_nodes m rest _ ?st2] =>
        destruct (IH st2) as (err' & st' & evs & Hrun & Hrw & Hev & Hall)
      end.
      unfold bind, ret, emit, call_world in Hrun. rewrite Hrun.
      eexists _, _, _. split; [reflexivity|].
      split; [exact Hrw|].
      split; [rewrite Hev; cbn; rewrite <- app_assoc; reflexivity|].
      constructor; [reflexivity | exact Hall].
Qed.

(** *** Running the handler symbolically *)

(** The term a run is stuck on: the scrutinee at its head. *)
Ltac stuck t :=
  match t with
  | match ?x with _ => _ end => stuck x
  | negb ?x => stuck x
  | fst ?x => stuck x
  | snd ?x => stuck x
  | ?f _ => stuck_head f
  | _ => t
  end
with stuck_head f :=
  match f with
  | match ?x with _ => _ end => stuck x
  | ?g _ => stuck_head g
  end.

(** One step of a run: a case on the answer of the collaborator the run is
stuck on; a store is stepped over by its lemma. *)
Ltac exec_step Hrun :=
  match type of Hrun with
  | ?lhs = _ =>
      let x := stuck lhs in
      lazymatch x with
      | save_nodes ?m ?n [storeSizeFn_closure ?t ?e] ?s =>
          let err := fresh "err" in let st' := fresh "st" in let evs := fresh "evs" in
          let Hs := fresh "Hsave" in let Hrw := fresh "Hrw" in let Hev := fresh "Hev" in
          let Hall := fresh "Hall" in let Hok := fresh "Hok" in
          destruct (save_nodes_closure_spec t e m n s)
            as (err & st' & evs & Hs & Hrw & Hev & Hall & Hok);
          rewrite Hs in Hrun; clear Hs; cbn in Hrw, Hev
      | save_nodes ?m ?n [] ?s =>
          let err := fresh "err" in let st' := fresh "st" in let evs := fresh "evs" in
          let Hs := fresh "Hsave" in let Hrw := fresh "Hrw" in let Hev := fresh "Hev" in
          let Hall := fresh "Hall" in
          destruct (save_nodes_nil_spec m n s)
            as (err & st' & evs & Hs & Hrw & Hev & Hall);
          rewrite Hs in Hrun; clear Hs; cbn in Hrw, Hev
      | (_, _) => fail
      | _ => destruct x eqn:?
      end
  end.

Ltac exec Hrun :=
  unfold fileUploadHandler, tag_IncN, m_Add, Store, validate_Struct in Hrun;
  unfold bind, ret, exit, respond, emit, call_world, read_world in Hrun;
  repeat (cbn in Hrun; exec_step Hrun);
  cbn in Hrun; injection Hrun as <- <-.

Ltac unfold_status :=
  unfold jsonhttp.Created, jsonhttp.BadRequest, jsonhttp.PaymentRequired,
    jsonhttp.NotFound, jsonhttp.InternalServerError, jsonhttp.Respond,
    http.StatusCreated, http.StatusBadRequest, http.StatusPaymentRequired,
    http.StatusNotFound, http.StatusInternalServerError in *.

(** The end of a run: the events and the response writer in normal form. *)
Ltac leaf :=
  cbn;
  repeat match goal with
         | Hx : rw _ = _ |- _ => rewrite Hx in *; clear Hx
         | Hx : events _ = _ |- _ => rewrite Hx in *; clear Hx
         end;
  cbn; rewrite <- ?app_assoc; cbn;
  repeat match goal with
         | |- context [if ?b then _ else _] => destruct b
         end;
  unfold_status; cbn.

Lemma Forall_kind_In (kind : event -> bool) (evs : list event) (x : event) :
  Forall (fun e => kind e = true) evs -> In x evs -> kind x = true.
Proof.
  rewrite Forall_forall. intros Hall Hin. apply Hall. now apply list_elem_of_In.
Qed.

Lemma count_events_none (kind kind' : event -> bool) (evs : list event) :
  Forall (fun e => kind' e = true) evs ->
  (forall e, kind' e = true -> kind e = false) ->
  count_events kind evs = O.
Proof.
  intros Hall Hdisjoint. induction Hall as [|e evs He _ IH]; [reflexivity|].
  simpl. now rewrite (Hdisjoint e He), IH.
Qed.

Lemma added_app (xs ys : list event) : added (xs ++ ys) = (added xs ++ added ys)%list.
Proof.
  induction xs as [|x xs IH]; [reflexivity|].
  destruct x; simpl; now rewrite ?IH.
Qed.

Lemma added_none (kind' : event -> bool) (evs : list event) :
  Forall (fun e => kind' e = true) evs ->
  (forall path e, kind' (ev_Add path e) = false) ->
  added evs = [].
Proof.
  intros Hall Hdisjoint. induction Hall as [|e evs He _ IH]; [reflexivity|].
  destruct e; simpl; try exact IH. now rewrite Hdisjoint in He.
Qed.

(** A membership in the events of a run, by cases. *)
Ltac in_events Hin :=
  rewrite ?in_app_iff in Hin; cbn [In] in Hin;
  repeat match type of Hin with
         | _ \/ _ => destruct Hin as [Hin|Hin]
         end;
  try discriminate Hin; try contradiction;
  try match goal with
      | Hall : Forall _ ?evs |- _ =>
          match type of Hin with
          | In _ evs => apply (Forall_kind_In _ _ _ Hall) in Hin; discriminate Hin
          end
      end.

(** *** The durability gate *)

Lemma upload_wait_failure r storer waitFn st0 res st :
  fileUploadHandler r storer waitFn st0 = (res, st) ->
  events st0 = [] ->
  forall e, In (ev_wait (Some e)) (events st) ->
  Written (rw st)
  = JSON http.StatusInternalServerError (resp_string "sync chunks failed") /\
  Header (rw st) = Header (rw st0).
Proof.
  intros Hrun Hev0 e. exec Hrun. all: leaf.
  all: intros Hin; in_events Hin.
  all: split; reflexivity.
Qed.

Lemma upload_sync_failed_distinct r storer waitFn st0 res st :
  fileUploadHandler r storer waitFn st0 = (res, st) ->
  events st0 = [] ->
  Written (rw st)
  = JSON http.StatusInternalServerError (resp_string "sync chunks failed") ->
  exists e, In (ev_wait (Some e)) (events st).
Proof.
  intros Hrun Hev0. exec Hrun. all: leaf.
  all: intros Hw; try discriminate Hw.
  all: eexists; rewrite ?in_app_iff; cbn; eauto 10.
Qed.

Lemma upload_created r storer waitFn st0 res st :
  fileUploadHandler r storer waitFn st0 = (res, st) ->
  events st0 = [] ->
  SwarmTagHeader <> "ETag" ->
  SwarmTagHeader <> "Access-Control-Expose-Headers" ->
  forall payload,
    Written (rw st) = JSON http.StatusCreated payload ->
    exists manifestReference tag created wd,
      getOrCreateTag (map_index (req_Header r) SwarmTagHeader) (world st0)
      = (Ok (tag, created), wd) /\
      payload = resp_bzzUploadResponse manifestReference /\
      In (ev_wait None) (events st) /\
      In (ev_Store (Ok manifestReference)) (events st) /\
      Header (rw st) !! "ETag" = Some (fmt_q (Address_String manifestReference)) /\
      Header (rw st) !! SwarmTagHeader = Some (fmt_Sprint (Uid tag)).
Proof.
  intros Hrun Hev0 Hne1 Hne2 payload. exec Hrun. all: leaf.
  all: intros Hw; try discriminate Hw.
  all: injection Hw as <-.
  all: eexists _, _, _, _; split; [reflexivity|]; split; [reflexivity|].
  all: rewrite ?in_app_iff; cbn.
  all: split; [eauto 10|]; split; [eauto 10|].
  all: split; (rewrite !lookup_insert_ne by congruence); apply lookup_insert_eq.
Qed.

(** C5. The upload handler answers 201 Created, with the manifest reference,
the ETag and the tag id, only on a run in which wait has returned nil; and a
run in which wait fails is answered with the internal error "sync chunks
failed", which no other failure produces, and carries no reference and no
header of a success. *)
Theorem upload_success_only_after_wait
    (r : Request) (storer : Storer) (waitFn : World -> option error * World)
    (st0 : handler_state) (res : option unit) (st : handler_state) :
  fileUploadHandler r storer waitFn st0 = (res, st) ->
  events st0 = [] ->
  SwarmTagHeader <> "ETag" ->
  SwarmTagHeader <> "Access-Control-Expose-Headers" ->
  (forall payload,
      Written (rw st) = JSON http.StatusCreated payload ->
      exists manifestReference tag created wd,
        getOrCreateTag (map_index (req_Header r) SwarmTagHeader) (world st0)
        = (Ok (tag, created), wd) /\
        payload = resp_bzzUploadResponse manifestReference /\
        In (ev_wait None) (events st) /\
        In (ev_Store (Ok manifestReference)) (events st) /\
        Header (rw st) !! "ETag" = Some (fmt_q (Address_String manifestReference)) /\
        Header (rw st) !! SwarmTagHeader = Some (fmt_Sprint (Uid tag))) /\
  (forall e,
      In (ev_wait (Some e)) (events st) ->
      Written (rw st)
      = JSON http.StatusInternalServerError (resp_string "sync chunks failed") /\
      Header (rw st) = Header (rw st0)) /\
  (Written (rw st)
   = JSON http.StatusInternalServerError (resp_string "sync chunks failed") ->
   exists e, In (ev_wait (Some e)) (events st)).
Proof.
  intros Hrun Hev0 Hne1 Hne2. split; [|split].
  - now apply (upload_created r storer waitFn st0 res st).
  - now apply (upload_wait_failure r storer waitFn st0 res st).
  - now apply (upload_sync_failed_distinct r storer waitFn st0 res st).
Qed.

(** *** Tag accounting *)

(** The count of a kind of events at the end of a run. *)
Ltac count_leaf :=
  cbn; rewrite ?count_events_app; cbn;
  try match goal with
      | Hall : Forall _ ?evs |- context [count_events ?kind ?evs] =>
          rewrite (count_events_none kind _ evs Hall)
            by (intros []; cbn; congruence)
      end;
  cbn; try reflexivity; try lia.

Ltac use_estimate :=
  unfold estimate_events;
  repeat match goal with
         | Hb : (0 <? requestCalculateNumberOfChunks _) = _ |- _ => rewrite Hb
         end.

Lemma upload_client_tag_no_DoneSplit r storer waitFn st0 res st :
  fileUploadHandler r storer waitFn st0 = (res, st) ->
  events st0 = [] ->
  In (ev_getOrCreateTag false) (events st) ->
  count_events is_DoneSplit (events st) = O.
Proof.
  intros Hrun Hev0. exec Hrun. all: leaf.
  all: intros Hin; in_events Hin.
  all: count_leaf.
Qed.

Lemma upload_client_tag_estimate_first r storer waitFn st0 res st :
  fileUploadHandler r storer waitFn st0 = (res, st) ->
  events st0 = [] ->
  In (ev_getOrCreateTag false) (events st) ->
  exists rest,
    events st = (ev_getOrCreateTag false :: estimate_events r ++ rest)%list /\
    (rest = [] \/ exists fr rest', rest = ev_pipeline fr :: rest').
Proof.
  intros Hrun Hev0. exec Hrun. all: use_estimate. all: leaf.
  all: intros Hin; in_events Hin.
  all: eexists; split; [reflexivity|].
  all: first [left; reflexivity | right; eexists _, _; reflexivity].
Qed.

Lemma upload_client_tag_store r storer waitFn st0 res st :
  fileUploadHandler r storer waitFn st0 = (res, st) ->
  events st0 = [] ->
  In (ev_getOrCreateTag false) (events st) ->
  forall manifestReference,
    In (ev_Store (Ok manifestReference)) (events st) ->
    exists fr root name file nodes post,
      events st =
        (ev_getOrCreateTag false :: estimate_events r ++
         ev_pipeline (Ok fr) :: ev_Add manifest_RootPath root :: ev_Add name file ::
         flat_map (node_events (requestEncrypt r)) nodes ++
         ev_Store (Ok manifestReference) :: post)%list /\
      count_events is_IncN post = O /\
      count_events is_save_node post = O.
Proof.
  intros Hrun Hev0. exec Hrun. all: use_estimate. all: leaf.
  all: intros Hin; in_events Hin.
  all: intros manifestReference Hstore; in_events Hstore.
  all: injection Hstore as <-.
  all: match goal with Hok : None = None -> _ |- _ => rewrite (Hok eq_refl) end.
  all: eexists _, _, _, _, _, _; split; [reflexivity|].
  all: split; reflexivity.
Qed.

Lemma upload_created_tag_no_IncN r storer waitFn st0 res st :
  fileUploadHandler r storer waitFn st0 = (res, st) ->
  events st0 = [] ->
  In (ev_getOrCreateTag true) (events st) ->
  count_events is_IncN (events st) = O.
Proof.
  intros Hrun Hev0. exec Hrun. all: leaf.
  all: intros Hin; in_events Hin.
  all: count_leaf.
Qed.

Lemma upload_DoneSplit_at_most_once r storer waitFn st0 res st :
  fileUploadHandler r storer waitFn st0 = (res, st) ->
  events st0 = [] ->
  (count_events is_DoneSplit (events st) <= 1)%nat.
Proof.
  intros Hrun Hev0. exec Hrun. all: leaf.
  all: count_leaf.
Qed.

Lemma upload_created_tag_DoneSplit r storer waitFn st0 res st :
  fileUploadHandler r storer waitFn st0 = (res, st) ->
  events st0 = [] ->
  In (ev_getOrCreateTag true) (events st) ->
  forall manifestReference,
    In (ev_Store (Ok manifestReference)) (events st) ->
    exists pre post,
      events st =
        (pre ++ ev_Store (Ok manifestReference) ::
                ev_DoneSplit manifestReference :: post)%list /\
      count_events is_DoneSplit pre = O /\
      count_events is_DoneSplit post = O.
Proof.
  intros Hrun Hev0. exec Hrun. all: leaf.
  all: intros Hin; in_events Hin.
  all: intros manifestReference Hstore; in_events Hstore.
  all: injection Hstore as <-.
  all: match goal with
       | |- exists pre post, (?a :: ?b :: ?c :: ?d :: ?evs ++ _)%list = _ /\ _ =>
           exists ([a; b; c; d] ++ evs)%list
       end.
  all: eexists; split; [rewrite <- app_assoc; reflexivity|].
  all: split; count_leaf.
Qed.

(** C4. The tag accounting of an upload. With a tag supplied by the client
(created false): doneSplit is never called; the increment of the tag by the
request-size estimate comes first, before the split; and when the manifest
is stored, the store runs under the size callback, which increments the tag
for the chunks of each trie node before the node is saved. With a tag
created by the request (created true): the tag is never incremented, by an
estimate or by a size callback; and when the manifest is stored, doneSplit
is called exactly once, with the reference of the manifest, right after the
store. *)
Theorem upload_tag_accounting
    (r : Request) (storer : Storer) (waitFn : World -> option error * World)
    (st0 : handler_state) (res : option unit) (st : handler_state) :
  fileUploadHandler r storer waitFn st0 = (res, st) ->
  events st0 = [] ->
  (In (ev_getOrCreateTag false) (events st) ->
   count_events is_DoneSplit (events st) = O /\
   (exists rest,
       events st = (ev_getOrCreateTag false :: estimate_events r ++ rest)%list /\
       (rest = [] \/ exists fr rest', rest = ev_pipeline fr :: rest')) /\
   (forall manifestReference,
       In (ev_Store (Ok manifestReference)) (events st) ->
       exists fr root name file nodes post,
         events st =
           (ev_getOrCreateTag false :: estimate_events r ++
            ev_pipeline (Ok fr) :: ev_Add manifest_RootPath root ::
            ev_Add name file ::
            flat_map (node_events (requestEncrypt r)) nodes ++
            ev_Store (Ok manifestReference) :: post)%list /\
         count_events is_IncN post = O /\
         count_events is_save_node post = O)) /\
  (In (ev_getOrCreateTag true) (events st) ->
   count_events is_IncN (events st) = O /\
   (count_events is_DoneSplit (events st) <= 1)%nat /\
   (forall manifestReference,
       In (ev_Store (Ok manifestReference)) (events st) ->
       exists pre post,
         events st =
           (pre ++ ev_Store (Ok manifestReference) ::
                   ev_DoneSplit manifestReference :: post)%list /\
         count_events is_DoneSplit pre = O /\
         count_events is_DoneSplit post = O)).
Proof.
  intros Hrun Hev0. split; intros Htag.
  - split; [now apply (upload_client_tag_no_DoneSplit r storer waitFn st0 res st)|].
    split; [now apply (upload_client_tag_estimate_first r storer waitFn st0 res st)|].
    now apply (upload_client_tag_store r storer waitFn st0 res st).
  - split; [now apply (upload_created_tag_no_IncN r storer waitFn st0 res st)|].
    split; [now apply (upload_DoneSplit_at_most_once r storer waitFn st0 res st)|].
    now apply (upload_created_tag_DoneSplit r storer waitFn st0 res st).
Qed.

(** *** The default name of an upload *)

(** The hex form of a reference never starts with a path separator. *)
Lemma Address_String_no_separator (a : Address) :
  strings.HasPrefix (Address_String a) "/" = false.
Proof.
  destruct a as [|b rest]; [reflexivity|].
  unfold Address_String, strings.HasPrefix. cbn [hex.EncodeToString String.prefix].
  destruct b; reflexivity.
Qed.

Lemma no_separator_not_root (name : string) :
  strings.HasPrefix name "/" = false -> name <> manifest_RootPath.
Proof. intros Hname ->. discriminate. Qed.

(** The entries added at the end of a run. *)
Ltac added_leaf :=
  cbn; rewrite ?added_app; cbn;
  try match goal with
      | Hall : Forall _ ?evs |- context [added ?evs] =>
          rewrite (added_none _ evs Hall) by reflexivity
      end;
  cbn.

Lemma default_name_added r storer waitFn st0 res st :
  fileUploadHandler r storer waitFn st0 = (res, st) ->
  events st0 = [] ->
  mapStructure_queries (req_Query r) = inl "" ->
  forall saved,
    In (ev_Store saved) (events st) ->
    exists fr,
      In (ev_pipeline (Ok fr)) (events st) /\
      validate_Struct (Address_String fr) = None /\
      added (events st) =
        [(manifest_RootPath,
          NewEntry swarm_ZeroAddress
            (<[manifest_WebsiteIndexDocumentSuffixKey := Address_String fr]> ∅));
         (Address_String fr,
          NewEntry fr
            (<[manifest_EntryMetadataFilenameKey := Address_String fr]>
               (<[manifest_EntryMetadataContentTypeKey :=
                    map_index (req_Header r) contentTypeHeader]> ∅)))].
Proof.
  intros Hrun Hev0 Hname.
  unfold fileUploadHandler in Hrun. rewrite Hname in Hrun.
  exec Hrun. all: leaf.
  all: intros saved Hin; in_events Hin.
  all: eexists; split; [rewrite ?in_app_iff; cbn; eauto 10|].
  all: unfold validate_Struct.
  all: match goal with
       | Hsep : strings.HasPrefix (Address_String _) "/" = false |- _ => rewrite Hsep
       end.
  all: split; [reflexivity|].
  all: added_leaf; reflexivity.
Qed.

(** C7. An upload without a name stores a manifest with an entry whose path
and whose filename metadata are the hex string of the reference the
pipeline returned for the content, and a root entry whose index document
is that name; the name has passed the validation that it does not start
with a path separator. *)
Theorem upload_default_name
    (r : Request) (storer : Storer) (waitFn : World -> option error * World)
    (st0 : handler_state) (res : option unit) (st : handler_state) :
  fileUploadHandler r storer waitFn st0 = (res, st) ->
  events st0 = [] ->
  mapStructure_queries (req_Query r) = inl "" ->
  forall saved,
    In (ev_Store saved) (events st) ->
    exists fr root file,
      let name := Address_String fr in
      In (ev_pipeline (Ok fr)) (events st) /\
      validate_Struct name = None /\
      strings.HasPrefix name "/" = false /\
      added (events st) = [(manifest_RootPath, root); (name, file)] /\
      built_manifest (events st) !! name = Some file /\
      Reference file = fr /\
      Metadata file !! manifest_EntryMetadataFilenameKey = Some name /\
      built_manifest (events st) !! manifest_RootPath = Some root /\
      Metadata root !! manifest_WebsiteIndexDocumentSuffixKey = Some name.
Proof.
  intros Hrun Hev0 Hname saved Hin.
  destruct (default_name_added r storer waitFn st0 res st Hrun Hev0 Hname
              saved Hin) as (fr & Hfr & Hvalid & Hadded).
  eexists fr, _, _. cbn zeta.
  split; [exact Hfr|]. split; [exact Hvalid|].
  split; [apply Address_String_no_separator|].
  split; [exact Hadded|].
  unfold built_manifest. rewrite Hadded. cbn.
  split; [apply lookup_insert_eq|]. split; [reflexivity|].
  split; [apply lookup_insert_eq|].
  split; [|apply lookup_insert_eq].
  rewrite lookup_insert_ne.
  - apply lookup_insert_eq.
  - apply no_separator_not_root, Address_String_no_separator.
Qed.

(** *** More of the upload path *)

(** The end of a run, keeping the cases of the conditions of the response. *)
Ltac leaf_eqn :=
  cbn;
  repeat match goal with
         | Hx : rw _ = _ |- _ => rewrite Hx in *; clear Hx
         | Hx : events _ = _ |- _ => rewrite Hx in *; clear Hx
         end;
  cbn; rewrite <- ?app_assoc; cbn;
  repeat match goal with
         | |- context [if ?b then _ else _] => destruct b eqn:?
         end;
  unfold_status; cbn.

Ltac in_goal := rewrite ?in_app_iff; cbn; eauto 12.

(** X11. fileUploadHandler always replies with a JSON response whose status
is one of 201, 400, 402, 404 and 500. *)
Theorem upload_always_replies
    (r : Request) (storer : Storer) (waitFn : World -> option error * World)
    (st0 : handler_state) (res : option unit) (st : handler_state) :
  fileUploadHandler r storer waitFn st0 = (res, st) ->
  exists code payload,
    Written (rw st) = JSON code payload /\ In code upload_statuses.
Proof.
  intros Hrun. exec Hrun. all: leaf.
  all: eexists _, _; split; [reflexivity|].
  all: cbv; tauto.
Qed.

(** X12. An upload that is not answered 201 has returned early and the
handler has set no header. *)
Theorem upload_failure_writes_no_header
    (r : Request) (storer : Storer) (waitFn : World -> option error * World)
    (st0 : handler_state) (res : option unit) (st : handler_state) :
  fileUploadHandler r storer waitFn st0 = (res, st) ->
  (forall payload, Written (rw st) <> JSON http.StatusCreated payload) ->
  res = None /\ Header (rw st) = Header (rw st0).
Proof.
  intros Hrun. exec Hrun. all: leaf.
  all: intros Hno.
  all: first [split; reflexivity | exfalso; eapply Hno; reflexivity].
Qed.

(** X13. The only 404 of a file upload is tag not found: it is answered only
when getOrCreateTag fails with tags.ErrNotFound, before any other collaborator
is called. *)
Theorem upload_not_found_is_tag_not_found
    (r : Request) (storer : Storer) (waitFn : World -> option error * World)
    (st0 : handler_state) (res : option unit) (st : handler_state)
    (payload : response) :
  fileUploadHandler r storer waitFn st0 = (res, st) ->
  Written (rw st) = JSON http.StatusNotFound payload ->
  payload = resp_string "tag not found" /\
  events st = events st0 /\
  exists e wd,
    getOrCreateTag (map_index (req_Header r) SwarmTagHeader) (world st0) = (Err e, wd) /\
    errors_Is e tags_ErrNotFound = true /\
    world st = wd.
Proof.
  intros Hrun. exec Hrun. all: leaf_eqn.
  all: intros Hw; try discriminate Hw.
  all: injection Hw as <-.
  all: split; [reflexivity|]; split; [reflexivity|].
  all: eexists _, _; split; [reflexivity|]; split; [assumption | reflexivity].
Qed.

(** X14. A file upload is answered 402 only when the pipeline or the store
of the manifest failed with an error that is postage.ErrBucketFull, and
then with the message batch is overissued. *)
Theorem upload_payment_required_is_bucket_full
    (r : Request) (storer : Storer) (waitFn : World -> option error * World)
    (st0 : handler_state) (res : option unit) (st : handler_state)
    (payload : response) :
  fileUploadHandler r storer waitFn st0 = (res, st) ->
  events st0 = [] ->
  Written (rw st) = JSON http.StatusPaymentRequired payload ->
  payload = resp_string "batch is overissued" /\
  exists e,
    errors_Is e postage_ErrBucketFull = true /\
    (In (ev_pipeline (Err e)) (events st) \/ In (ev_Store (Err e)) (events st)).
Proof.
  intros Hrun Hev0. exec Hrun. all: leaf_eqn.
  all: intros Hw; try discriminate Hw.
  all: injection Hw as <-.
  all: split; [reflexivity|].
  all: eexists; split; [eassumption|].
  all: first [left; solve [in_goal] | right; solve [in_goal]].
Qed.

(** X15. A pin is created only on request: without the pin flag CreatePin is
never called, and when it is called it is called once, for the reference
of the manifest that was stored. *)
Theorem upload_pin_only_on_request
    (r : Request) (storer : Storer) (waitFn : World -> option error * World)
    (st0 : handler_state) (res : option unit) (st : handler_state) :
  fileUploadHandler r storer waitFn st0 = (res, st) ->
  events st0 = [] ->
  (requestPin r = false -> count_events is_CreatePin (events st) = O) /\
  (forall reference,
      In (ev_CreatePin reference) (events st) ->
      requestPin r = true /\
      In (ev_Store (Ok reference)) (events st) /\
      count_events is_CreatePin (events st) = 1%nat).
Proof.
  intros Hrun Hev0. exec Hrun. all: leaf.
  all: split; [intros Hpin; try discriminate Hpin; count_leaf|].
  all: intros reference Hin; in_events Hin.
  all: injection Hin as <-.
  all: split; [reflexivity|]; split; [in_goal | count_leaf].
Qed.

Lemma last_events (pre : list event) (x y : event) (post : list event) :
  last (pre ++ x :: y :: post) = last (pre ++ y :: post).
Proof.
  rewrite !last_app. now rewrite last_cons_cons.
Qed.

(** The last event of a run. *)
Ltac last_leaf :=
  cbn; rewrite ?app_comm_cons; rewrite ?last_app; cbn; try reflexivity.

(** X16. wait is the last call of an upload: it is called at most once, only
after the manifest was stored (and pinned, when a pin was requested), and
nothing is called after it. *)
Theorem upload_wait_is_last
    (r : Request) (storer : Storer) (waitFn : World -> option error * World)
    (st0 : handler_state) (res : option unit) (st : handler_state) :
  fileUploadHandler r storer waitFn st0 = (res, st) ->
  events st0 = [] ->
  forall err,
    In (ev_wait err) (events st) ->
    last (events st) = Some (ev_wait err) /\
    count_events is_wait (events st) = 1%nat /\
    exists manifestReference,
      In (ev_Store (Ok manifestReference)) (events st) /\
      (requestPin r = true -> In (ev_CreatePin manifestReference) (events st)).
Proof.
  intros Hrun Hev0. exec Hrun. all: leaf.
  all: intros waited Hin; in_events Hin.
  all: injection Hin as <-.
  all: split; [last_leaf|]; split; [count_leaf|].
  all: eexists; split; [in_goal|].
  all: intros Hpin; first [discriminate Hpin | in_goal].
Qed.

(** X17. fileUploadHandler never answers invalid body params: the name it
derives from the reference is a hex string, which the validation accepts. *)
Theorem upload_never_invalid_body_params
    (r : Request) (storer : Storer) (waitFn : World -> option error * World)
    (st0 : handler_state) (res : option unit) (st : handler_state)
    (code : Z) (reasons : list (string * string)) :
  fileUploadHandler r storer waitFn st0 = (res, st) ->
  Written (rw st) <> JSON http.StatusBadRequest
                       (resp_StatusResponse "invalid body params" code reasons).
Proof.
  intros Hrun. exec Hrun. all: leaf.
  all: try discriminate.
  all: match goal with
       | Hsep : strings.HasPrefix (Address_String ?a) "/" = true |- _ =>
           rewrite (Address_String_no_separator a) in Hsep; discriminate Hsep
       end.
Qed.

(** X18. An upload adds at most two entries to the manifest, and only after
the pipeline has succeeded: each entry added is the root entry, with the
zero address, or refers to the reference the pipeline returned. *)
Theorem upload_adds_after_pipeline
    (r : Request) (storer : Storer) (waitFn : World -> option error * World)
    (st0 : handler_state) (res : option unit) (st : handler_state) :
  fileUploadHandler r storer waitFn st0 = (res, st) ->
  events st0 = [] ->
  (length (added (events st)) <= 2)%nat /\
  forall path e,
    In (ev_Add path e) (events st) ->
    exists fr,
      In (ev_pipeline (Ok fr)) (events st) /\
      (path = manifest_RootPath /\ Reference e = swarm_ZeroAddress \/
       Reference e = fr).
Proof.
  intros Hrun Hev0. exec Hrun. all: leaf.
  all: split; [added_leaf; lia|].
  all: intros path entry Hin; in_events Hin.
  all: injection Hin as <- <-.
  all: eexists; split; [in_goal|].
  all: first [left; split; reflexivity | right; reflexivity].
Qed.

Lemma explicit_name_added r storer waitFn st0 res st name :
  fileUploadHandler r storer waitFn st0 = (res, st) ->
  events st0 = [] ->
  mapStructure_queries (req_Query r) = inl name ->
  name <> "" ->
  forall saved,
    In (ev_Store saved) (events st) ->
    exists fr,
      In (ev_pipeline (Ok fr)) (events st) /\
      added (events st) =
        [(manifest_RootPath,
          NewEntry swarm_ZeroAddress
            (<[manifest_WebsiteIndexDocumentSuffixKey := name]> ∅));
         (name,
          NewEntry fr
            (<[manifest_EntryMetadataFilenameKey := name]>
               (<[manifest_EntryMetadataContentTypeKey :=
                    map_index (req_Header r) contentTypeHeader]> ∅)))].
Proof.
  intros Hrun Hev0 Hname Hne.
  unfold fileUploadHandler in Hrun. rewrite Hname in Hrun.
  exec Hrun.
  all: try match goal with
           | Hempty : (?n =? "")%string = true, Hn : ?n <> "" |- _ =>
               apply String.eqb_eq in Hempty; contradiction
           end.
  all: leaf.
  all: intros saved Hin; in_events Hin.
  all: eexists; split; [in_goal|].
  all: added_leaf; reflexivity.
Qed.

(** X19. An upload with a name keeps it: the file entry is added at the path
of the name, with the name as its filename metadata, and the root entry
names it as the index document. *)
Theorem upload_explicit_name
    (r : Request) (storer : Storer) (waitFn : World -> option error * World)
    (st0 : handler_state) (res : option unit) (st : handler_state)
    (name : string) :
  fileUploadHandler r storer waitFn st0 = (res, st) ->
  events st0 = [] ->
  mapStructure_queries (req_Query r) = inl name ->
  name <> "" ->
  forall saved,
    In (ev_Store saved) (events st) ->
    exists fr root file,
      In (ev_pipeline (Ok fr)) (events st) /\
      added (events st) = [(manifest_RootPath, root); (name, file)] /\
      Reference file = fr /\
      Metadata file !! manifest_EntryMetadataFilenameKey = Some name /\
      Reference root = swarm_ZeroAddress /\
      Metadata root = <[manifest_WebsiteIndexDocumentSuffixKey := name]> ∅ /\
      (name <> manifest_RootPath ->
       built_manifest (events st) !! name = Some file /\
       built_manifest (events st) !! manifest_RootPath = Some root).
Proof.
  intros Hrun Hev0 Hname Hne saved Hin.
  destruct (explicit_name_added r storer waitFn st0 res st name Hrun Hev0 Hname Hne
              saved Hin) as (fr & Hfr & Hadded).
  eexists fr, _, _. split; [exact Hfr|]. split; [exact Hadded|].
  split; [reflexivity|]. split; [apply lookup_insert_eq|].
  split; [reflexivity|]. split; [reflexivity|].
  intros Hroot. unfold built_manifest. rewrite Hadded. cbn.
  split; [apply lookup_insert_eq|].
  rewrite lookup_insert_ne by exact Hroot. apply lookup_insert_eq.
Qed.

(** A 201 is answered after the store and after a wait that returned nil. *)
Lemma upload_created_waited r storer waitFn st0 res st payload :
  fileUploadHandler r storer waitFn st0 = (res, st) ->
  events st0 = [] ->
  Written (rw st) = JSON http.StatusCreated payload ->
  exists manifestReference,
    payload = resp_bzzUploadResponse manifestReference /\
    In (ev_wait None) (events st) /\
    In (ev_Store (Ok manifestReference)) (events st).
Proof.
  intros Hrun Hev0. exec Hrun. all: leaf.
  all: intros Hw; try discriminate Hw.
  all: injection Hw as <-.
  all: eexists; split; [reflexivity|]; split; in_goal.
Qed.

End UploadProperties.

(** ** The upload path on the example node *)

Section UploadExamples.

Import Example.

(** An upload under a tag of the client: the estimate, the split, the two
entries, the two trie nodes under the size callback, the store, the wait. *)
Example upload_with_client_tag :
  let st := snd (fileUploadHandler (upload_request (Some "3")) site wait_ok upload_start) in
  Written (rw st) = JSON 201 (resp_bzzUploadResponse [Byte.x0a; Byte.x0b]) /\
  tag_total (world st) = 8 /\
  map (fun e => match e with ev_Add p _ => ev_Add p (NewEntry [] ∅) | _ => e end)
      (events st)
  = [ev_getOrCreateTag false; ev_IncN 5; ev_pipeline (Ok [Byte.xf1; Byte.x1e]);
     ev_Add "/" (NewEntry [] ∅); ev_Add "f11e" (NewEntry [] ∅);
     ev_IncN 1; ev_save_node 100; ev_IncN 2; ev_save_node 5000;
     ev_Store (Ok [Byte.x0a; Byte.x0b]); ev_wait None].
Proof. repeat split. Qed.

(** An upload under a tag of its own. *)
Example upload_with_created_tag :
  let st := snd (fileUploadHandler (upload_request None) site wait_ok upload_start) in
  Written (rw st) = JSON 201 (resp_bzzUploadResponse [Byte.x0a; Byte.x0b]) /\
  map (fun e => match e with ev_Add p _ => ev_Add p (NewEntry [] ∅) | _ => e end)
      (events st)
  = [ev_getOrCreateTag true; ev_pipeline (Ok [Byte.xf1; Byte.x1e]);
     ev_Add "/" (NewEntry [] ∅); ev_Add "f11e" (NewEntry [] ∅);
     ev_save_node 100; ev_save_node 5000;
     ev_Store (Ok [Byte.x0a; Byte.x0b]); ev_DoneSplit [Byte.x0a; Byte.x0b];
     ev_wait None].
Proof. repeat split. Qed.

Lemma In_events_dec (e : event) (evs : list event) (n : nat) :
  nth_error evs n = Some e -> In e evs.
Proof. apply nth_error_In. Qed.

Lemma upload_tag_accounting_witness :
  let run := fileUploadHandler (upload_request (Some "3")) site wait_ok upload_start in
  events upload_start = [] /\
  In (ev_getOrCreateTag false) (events (snd run)) /\
  In (ev_Store (Ok [Byte.x0a; Byte.x0b])) (events (snd run)) /\
  count_events is_DoneSplit (events (snd run)) = O /\
  exists fr root name file nodes post,
    events (snd run) =
      (ev_getOrCreateTag false :: estimate_events (upload_request (Some "3")) ++
       ev_pipeline (Ok fr) :: ev_Add manifest_RootPath root :: ev_Add name file ::
       flat_map (node_events (requestEncrypt (upload_request (Some "3")))) nodes ++
       ev_Store (Ok [Byte.x0a; Byte.x0b]) :: post)%list /\
    count_events is_IncN post = O /\
    count_events is_save_node post = O.
Proof.
  intros run.
  assert (Htag : In (ev_getOrCreateTag false) (events (snd run)))
    by (apply (In_events_dec _ _ 0); reflexivity).
  assert (Hstore : In (ev_Store (Ok [Byte.x0a; Byte.x0b])) (events (snd run)))
    by (apply (In_events_dec _ _ 9); reflexivity).
  split; [reflexivity|]. split; [exact Htag|]. split; [exact Hstore|].
  destruct (upload_tag_accounting (H := imports) (upload_request (Some "3")) site wait_ok
              upload_start (fst run) (snd run) (surjective_pairing run) eq_refl)
    as [Hclient _].
  destruct (Hclient Htag) as (Hnone & _ & Hshape).
  split; [exact Hnone|]. exact (Hshape _ Hstore).
Defined.

Lemma upload_success_only_after_wait_witness :
  let run := fileUploadHandler (upload_request None) site wait_fails upload_start in
  events upload_start = [] /\
  SwarmTagHeader <> "ETag" /\
  SwarmTagHeader <> "Access-Control-Expose-Headers" /\
  In (ev_wait (Some (errors_New "sync timeout"))) (events (snd run)) /\
  Written (rw (snd run))
  = JSON http.StatusInternalServerError (resp_string "sync chunks failed") /\
  Header (rw (snd run)) = Header (rw upload_start).
Proof.
  intros run.
  assert (Hwait : In (ev_wait (Some (errors_New "sync timeout"))) (events (snd run)))
    by (apply (In_events_dec _ _ 8); reflexivity).
  split; [reflexivity|]. split; [discriminate|]. split; [discriminate|].
  split; [exact Hwait|].
  destruct (upload_success_only_after_wait (H := imports) (upload_request None) site wait_fails
              upload_start (fst run) (snd run) (surjective_pairing run) eq_refl)
    as (_ & Hfail & _); [discriminate | discriminate |].
  exact (Hfail _ Hwait).
Defined.

Lemma upload_default_name_witness :
  let run := fileUploadHandler (upload_request None) site wait_ok upload_start in
  events upload_start = [] /\
  mapStructure_queries (req_Query (upload_request None)) = inl "" /\
  In (ev_Store (Ok [Byte.x0a; Byte.x0b])) (events (snd run)) /\
  exists fr root file,
    let name := Address_String fr in
    In (ev_pipeline (Ok fr)) (events (snd run)) /\
    validate_Struct name = None /\
    strings.HasPrefix name "/" = false /\
    added (events (snd run)) = [(manifest_RootPath, root); (name, file)] /\
    built_manifest (events (snd run)) !! name = Some file /\
    Reference file = fr /\
    Metadata file !! manifest_EntryMetadataFilenameKey = Some name /\
    built_manifest (events (snd run)) !! manifest_RootPath = Some root /\
    Metadata root !! manifest_WebsiteIndexDocumentSuffixKey = Some name.
Proof.
  intros run.
  assert (Hstore : In (ev_Store (Ok [Byte.x0a; Byte.x0b])) (events (snd run)))
    by (apply (In_events_dec _ _ 6); reflexivity).
  split; [reflexivity|]. split; [reflexivity|]. split; [exact Hstore|].
  exact (upload_default_name (H := imports) (upload_request None) site wait_ok upload_start
           (fst run) (snd run) (surjective_pairing run) eq_refl eq_refl _ Hstore).
Defined.

Example default_name_example :
  let st := snd (fileUploadHandler (upload_request None) site wait_ok upload_start) in
  Address_String [Byte.xf1; Byte.x1e] = "f11e" /\
  (Metadata <$> built_manifest (events st) !! "f11e")
  = Some (<["Filename" := "f11e"]> (<["Content-Type" := "text/plain"]> ∅)) /\
  (Metadata <$> built_manifest (events st) !! "/")
  = Some (<["website-index-document" := "f11e"]> ∅).
Proof. repeat split. Qed.

End UploadExamples.

(** ** More of the download path *)

Section MoreDownloadProperties.

Context `{Imports}.

(** *** The slash normalisation is idempotent *)

Lemma HasSuffix_append_byte (t : string) (c : ascii) :
  strings.HasSuffix (t +:+ String c "") (String c "") = true.
Proof. apply (HasSuffix_byte_Repeat c t 0). Qed.

(** X1. The slash normalisation of bzzDownloadHandler is idempotent: a path
that has been normalised is left as it is by a second normalisation. *)
Theorem trailing_slash_idempotent (p : string) :
  trailing_slash (trailing_slash p) = trailing_slash p.
Proof.
  destruct (strings.HasSuffix p "/") eqn:Hp.
  - destruct (trailing_slash_one p Hp) as (stem & n & _ & Hstem & ->).
    apply (trailing_slash_stem stem 0 Hstem).
  - rewrite (trailing_slash_unchanged p Hp). now apply trailing_slash_unchanged.
Qed.

(** *** The outcomes of serveReference *)

Lemma serveReference_outcome fuel s root pathVar w r w' cs :
  serveReference (S (S fuel)) s root pathVar w r = Some (w', cs) ->
  (exists m fd w1,
      resolves s root w m fd w1 /\
      w' = serveReference_path s m fd pathVar w1 r) \/
  (exists w0 code message,
      w' = jsonhttp.Respond w0 code message /\
      (w0 = w \/ exists curBytes, w0 = feed_headers w curBytes)).
Proof.
  unfold serveReference. rewrite serveReference_from_two.
  destruct (FETCH s pathVar r (initial root w)) as [w1 cs1|st'] eqn:Hpass.
  - intros [= <- <-]. revert Hpass. unfold FETCH, initial. cbn.
    destruct (manifest_NewDefaultManifestReference _ _) as [m|] eqn:Hm; cbn.
    2: { intros [= <- _]. right. eexists _, _, _. split; [reflexivity|]. now left. }
    destruct (manifestFeed s m) as [l|e] eqn:Hl; cbn.
    + destruct (At l time_Now_Unix 0) as [[[ch|] cur]|]; cbn;
        try (intros [= <- _]; right; eexists _, _, _; split; [reflexivity|]; now left).
      destruct (parseFeedUpdate ch) as [[ref ts]|]; cbn;
        try (intros [= <- _]; right; eexists _, _, _; split; [reflexivity|]; now left).
      destruct (MarshalBinary cur); cbn; [discriminate|].
      intros [= <- _]; right; eexists _, _, _; split; [reflexivity|]; now left.
    + intros [= <- _]. left. exists m, false, w. split; [|reflexivity].
      now apply (resolves_manifest s root w m e).
  - apply FETCH_Goto_inv in Hpass
      as (_ & feed & l & ch & cur & ts & curBytes & Hfeed & Hl & Hat & Hparse & Hcur & _ & Hw & _).
    unfold plain_pass.
    destruct (manifest_NewDefaultManifestReference (address st') _) as [m|] eqn:Hm;
      intros [= <- _]; rewrite Hw.
    + left. eexists m, true, _. split; [|reflexivity].
      now apply (resolves_feed s root w feed l ch cur (address st') ts curBytes m).
    + right. eexists _, _, _. split; [reflexivity|]. right. now exists curBytes.
Qed.

(** *** What the handlers write *)

Lemma downloadHandler_written s w r reference add etag :
  Written (downloadHandler s w r reference add etag) <> NotWritten.
Proof.
  unfold downloadHandler.
  destruct (joiner_New (storer s) reference) as [l|e]; [discriminate|].
  destruct (errors_Is e storage_ErrNotFound); discriminate.
Qed.

Lemma serveReference_path_written s m fd pathVar w r :
  Written (serveReference_path s m fd pathVar w r) <> NotWritten.
Proof.
  unfold serveReference_path, serveManifestEntry.
  repeat match goal with
         | |- context [match ?x with _ => _ end] =>
             lazymatch x with
             | joiner_New _ _ => fail
             | _ => destruct x eqn:?
             end
         end;
    first [discriminate | apply downloadHandler_written].
Qed.

Lemma serveReference_returns fuel s root pathVar w r :
  exists w' cs, serveReference (S (S fuel)) s root pathVar w r = Some (w', cs).
Proof.
  unfold serveReference. rewrite serveReference_from_two.
  destruct (FETCH s pathVar r (initial root w)) as [w1 cs1|st'].
  - now exists w1, cs1.
  - destruct (plain_pass s pathVar r true (address st') (w_ st') (calls st'))
      as [w2 cs2]. now exists w2, cs2.
Qed.

(** X2. serveReference always replies: every run returns within two passes
and has written a response, whatever the store, the feed and the path are. *)
Theorem serveReference_always_replies
    (fuel : nat) (s : Service) (root : Address) (pathVar : string)
    (w : ResponseWriter) (r : Request) :
  exists w' cs,
    serveReference (S (S fuel)) s root pathVar w r = Some (w', cs) /\
    Written w' <> NotWritten.
Proof.
  destruct (serveReference_returns fuel s root pathVar w r) as (w' & cs & Hrun).
  exists w', cs. split; [exact Hrun|].
  destruct (serveReference_outcome _ _ _ _ _ _ _ _ Hrun)
    as [(m & fd & w1 & _ & ->) | (w0 & code & message & -> & _)].
  - apply serveReference_path_written.
  - discriminate.
Qed.

(** *** The headers a response carries *)


(** What downloadHandler writes when it serves content. *)
Lemma downloadHandler_serves s w r reference add etag ref l :
  Written (downloadHandler s w r reference add etag) = Content ref l ->
  joiner_New (storer s) reference = Ok l /\
  Header (downloadHandler s w r reference add etag)
  = <["Access-Control-Expose-Headers" := "Content-Disposition"]>
      (<["Content-Length" := strconv_FormatInt10 l]>
         (Header
            (let w1 := map_fold
                         (fun name values w =>
                            Header_Set w name (strings.Join values "; "))
                         w add in
             if etag then Header_Set w1 "ETag" (fmt_q (Address_String reference))
             else w1))).
Proof.
  unfold downloadHandler.
  destruct (joiner_New (storer s) reference) as [len|err].
  2: { destruct (errors_Is err storage_ErrNotFound); discriminate. }
  cbn. intros [= _ <-]. split; reflexivity.
Qed.

(** What downloadHandler leaves when it does not serve content. *)
Lemma downloadHandler_fails s w r reference add etag :
  (forall ref l, Written (downloadHandler s w r reference add etag) <> Content ref l) ->
  Header (downloadHandler s w r reference add etag) = Header w.
Proof.
  unfold downloadHandler.
  destruct (joiner_New (storer s) reference) as [len|err].
  - intros Hno. now destruct (Hno reference len).
  - intros _. now destruct (errors_Is err storage_ErrNotFound).
Qed.

Lemma serveReference_path_no_content s m fd pathVar w r :
  (forall ref l, Written (serveReference_path s m fd pathVar w r) <> Content ref l) ->
  Header (serveReference_path s m fd pathVar w r) = Header w.
Proof.
  unfold serveReference_path, serveManifestEntry.
  repeat match goal with
         | |- context [match ?x with _ => _ end] =>
             lazymatch x with
             | joiner_New _ _ => fail
             | _ => destruct x eqn:?
             end
         end;
    first [reflexivity | apply downloadHandler_fails].
Qed.

(** X3. A download that does not serve content (a not-found, an internal
error or a redirect) writes none of the headers of content: every header
other than the two feed headers is as it was before the request. *)
Theorem no_content_no_content_headers
    (fuel : nat) (s : Service) (root : Address) (pathVar : string)
    (w : ResponseWriter) (r : Request) (w' : ResponseWriter) (cs : list call) :
  serveReference (S (S fuel)) s root pathVar w r = Some (w', cs) ->
  (forall ref l, Written w' <> Content ref l) ->
  forall k,
    k <> SwarmFeedIndexHeader ->
    k <> "Access-Control-Expose-Headers" ->
    Header w' !! k = Header w !! k.
Proof.
  intros Hrun Hno k Hk1 Hk2.
  assert (Hfeed : forall curBytes,
             Header (feed_headers w curBytes) !! k = Header w !! k).
  { intros curBytes. unfold feed_headers. cbn.
    now rewrite !lookup_insert_ne by congruence. }
  destruct (serveReference_outcome _ _ _ _ _ _ _ _ Hrun)
    as [(m & fd & w1 & Hres & ->) | (w0 & code & message & -> & Hw0)].
  - rewrite (serveReference_path_no_content _ _ _ _ _ _ Hno).
    destruct Hres; [reflexivity|]. apply Hfeed.
  - cbn. destruct Hw0 as [-> | [curBytes ->]]; [reflexivity | apply Hfeed].
Qed.

(** The path resolution writes no header but those of content. *)
Lemma serveReference_path_frame s m fd pathVar w r k :
  k ∉ content_headers ->
  Header (serveReference_path s m fd pathVar w r) !! k = Header w !! k.
Proof.
  intros Hk.
  destruct (Written (serveReference_path s m fd pathVar w r)) as [| | |ref l] eqn:Hw.
  4: { destruct (serveReference_path_content _ _ _ _ _ _ _ _ Hw) as [e He].
       rewrite He in Hw |- *.
       apply serveManifestEntry_content in Hw as (_ & _ & Hother). now apply Hother. }
  all: rewrite serveReference_path_no_content; [reflexivity|].
  all: intros ref l; rewrite Hw; discriminate.
Qed.

(** X4. After a feed dereference every response carries the feed-index
header with the hex encoding of the index of the update, also when the
target is not a manifest or the path is not found; a request resolved
directly from a manifest never writes that header. *)
Theorem feed_index_header_on_every_response
    (fuel : nat) (s : Service) (root : Address) (pathVar : string)
    (w : ResponseWriter) (r : Request) (w' : ResponseWriter) (cs : list call) :
  serveReference (S (S fuel)) s root pathVar w r = Some (w', cs) ->
  SwarmFeedIndexHeader ∉ content_headers ->
  (forall feed l ch cur ref ts curBytes,
      manifest_NewDefaultManifestReference root (loadsave_NewReadonly (storer s))
      = Ok feed ->
      manifestFeed s feed = Ok l ->
      At l time_Now_Unix 0 = Ok (Some ch, cur) ->
      parseFeedUpdate ch = Ok (ref, ts) ->
      MarshalBinary cur = Ok curBytes ->
      Header w' !! SwarmFeedIndexHeader = Some (hex.EncodeToString curBytes)) /\
  (forall m e,
      manifest_NewDefaultManifestReference root (loadsave_NewReadonly (storer s))
      = Ok m ->
      manifestFeed s m = Err e ->
      Header w' !! SwarmFeedIndexHeader = Header w !! SwarmFeedIndexHeader).
Proof.
  intros Hrun Hdistinct.
  assert (Hne : SwarmFeedIndexHeader <> "Access-Control-Expose-Headers").
  { unfold content_headers in Hdistinct. rewrite !not_elem_of_cons in Hdistinct. tauto. }
  unfold serveReference in Hrun. rewrite serveReference_from_two in Hrun.
  split.
  - intros feed l ch cur ref ts curBytes Hfeed Hl Hat Hparse Hcur.
    revert Hrun. unfold FETCH, initial. cbn. rewrite Hfeed. cbn.
    rewrite Hl, Hat, Hparse, Hcur. unfold plain_pass. cbn.
    destruct (manifest_NewDefaultManifestReference ref _) as [m|];
      intros [= <- _]; rewrite ?serveReference_path_frame by exact Hdistinct; cbn.
    all: rewrite lookup_insert_ne by congruence.
    all: now rewrite lookup_insert_eq.
  - intros m e Hm Hfeed.
    rewrite (FETCH_no_feed s pathVar r (initial root w) m e eq_refl Hm Hfeed) in Hrun.
    injection Hrun as <- _. now rewrite serveReference_path_frame.
Qed.

Lemma serveReference_serves fuel s root pathVar w r w' cs ref l :
  serveReference (S (S fuel)) s root pathVar w r = Some (w', cs) ->
  Written w' = Content ref l ->
  exists (e : Entry) (w1 : ResponseWriter) (add : gmap string (list string)) (etag : bool),
    Reference e = ref /\
    w' = downloadHandler s w1 r ref add etag.
Proof.
  intros Hrun Hcontent.
  destruct (serveReference_outcome _ _ _ _ _ _ _ _ Hrun)
    as [(m & fd & w1 & _ & ->) | (w0 & code & message & -> & _)]; [|discriminate].
  destruct (serveReference_path_content _ _ _ _ _ _ _ _ Hcontent) as [e He].
  rewrite He in Hcontent |- *.
  destruct (serveManifestEntry_content _ _ _ _ _ _ _ Hcontent) as (-> & _).
  unfold serveManifestEntry. eexists e, w1, _, _. split; reflexivity.
Qed.

(** X5. Whenever content is served, the header Access-Control-Expose-Headers
ends as Content-Disposition: the value written at a feed dereference is
overwritten by downloadHandler. *)
Theorem content_exposes_only_content_disposition
    (fuel : nat) (s : Service) (root : Address) (pathVar : string)
    (w : ResponseWriter) (r : Request) (w' : ResponseWriter) (cs : list call)
    (ref : Address) (l : Z) :
  serveReference (S (S fuel)) s root pathVar w r = Some (w', cs) ->
  Written w' = Content ref l ->
  Header w' !! "Access-Control-Expose-Headers" = Some "Content-Disposition".
Proof.
  intros Hrun Hcontent.
  destruct (serveReference_serves _ _ _ _ _ _ _ _ _ _ Hrun Hcontent)
    as (e & w1 & add & etag & _ & ->).
  destruct (downloadHandler_serves _ _ _ _ _ _ _ _ Hcontent) as [_ ->].
  apply lookup_insert_eq.
Qed.



(** *** The direct match, and the errors that are not not-found *)

(** X8. For a request whose manifest resolves and whose path is not empty: an
entry found at the path is served as it is, index and error documents
aside; an error that is not not-found is answered with the plain
not-found, without the fallback chain. *)
Theorem path_direct_match_or_generic_error
    (fuel : nat) (s : Service) (root : Address) (pathVar : string)
    (w : ResponseWriter) (r : Request)
    (m : manifest_Interface) (fd : bool) (w1 : ResponseWriter) :
  resolves s root w m fd w1 ->
  pathVar <> "" ->
  exists cs,
    serveReference (S (S fuel)) s root pathVar w r
    = Some (match Lookup m pathVar with
            | Ok me => serveManifestEntry s w1 r me (negb fd)
            | Err e =>
                if errors_Is e manifest_ErrNotFound
                then fallback_chain s m fd pathVar w1 r
                else jsonhttp.NotFound w1 resp_nil
            end, cs).
Proof.
  intros Hres Hne.
  destruct (serveReference_resolved fuel s root pathVar w r m fd w1 Hres) as [cs Hrun].
  exists cs. rewrite Hrun. f_equal. f_equal.
  destruct (Lookup m pathVar) as [me|e] eqn:Hlookup.
  - unfold serveReference_path. rewrite Hlookup.
    destruct (String.eqb_spec pathVar ""); [contradiction | reflexivity].
  - destruct (errors_Is e manifest_ErrNotFound) eqn:Hnf.
    + now apply (serveReference_path_fallback s m fd pathVar w1 r e).
    + unfold serveReference_path. rewrite Hlookup, Hnf.
      destruct (String.eqb_spec pathVar ""); [contradiction | reflexivity].
Qed.

(** *** The redirect *)

Lemma downloadHandler_no_redirect s w r reference add etag url code :
  Written (downloadHandler s w r reference add etag) <> Redirected url code.
Proof.
  unfold downloadHandler.
  destruct (joiner_New (storer s) reference) as [l|e]; [discriminate|].
  destruct (errors_Is e storage_ErrNotFound); discriminate.
Qed.

Lemma serveReference_path_redirect s m fd pathVar w r url code :
  Written (serveReference_path s m fd pathVar w r) = Redirected url code ->
  code = http.StatusPermanentRedirect /\
  pathVar <> "" /\
  strings.HasPrefix pathVar "/" = false /\
  (exists e, Lookup m pathVar = Err e /\ errors_Is e manifest_ErrNotFound = true) /\
  HasPrefix m (pathVar +:+ "/") = Ok true /\
  url = URL_String {| Scheme := Scheme (req_URL r); Host := Host (req_URL r);
                      Path := Path (req_URL r) +:+ "/";
                      RawQuery := RawQuery (req_URL r) |} /\
  Header (serveReference_path s m fd pathVar w r) = Header w.
Proof.
  unfold serveReference_path, serveManifestEntry.
  destruct (String.eqb_spec pathVar "") as [->|Hne].
  - repeat match goal with
           | |- context [match ?x with _ => _ end] =>
               lazymatch x with
               | joiner_New _ _ => fail
               | _ => destruct x eqn:?
               end
           end;
      intros Hw; first [discriminate Hw | now apply downloadHandler_no_redirect in Hw].
  - destruct (Lookup m pathVar) as [me|e] eqn:Hlookup.
    { intros Hw. now apply downloadHandler_no_redirect in Hw. }
    destruct (errors_Is e manifest_ErrNotFound) eqn:Hnf; [|discriminate].
    destruct (strings.HasPrefix pathVar "/") eqn:Hsep; cbn.
    + repeat match goal with
             | |- context [match ?x with _ => _ end] =>
                 lazymatch x with
                 | joiner_New _ _ => fail
                 | _ => destruct x eqn:?
                 end
             end;
        intros Hw; first [discriminate Hw | now apply downloadHandler_no_redirect in Hw].
    + destruct (HasPrefix m (pathVar +:+ "/")) as [[|]|] eqn:Hdir.
      * cbn. intros [= <- <-]. repeat split; eauto.
      * repeat match goal with
               | |- context [match ?x with _ => _ end] =>
                   lazymatch x with
                   | joiner_New _ _ => fail
                   | _ => destruct x eqn:?
                   end
               end;
          intros Hw; first [discriminate Hw | now apply downloadHandler_no_redirect in Hw].
      * repeat match goal with
               | |- context [match ?x with _ => _ end] =>
                   lazymatch x with
                   | joiner_New _ _ => fail
                   | _ => destruct x eqn:?
                   end
               end;
          intros Hw; first [discriminate Hw | now apply downloadHandler_no_redirect in Hw].
Qed.

(** X9. serveReference redirects only to a directory: a redirect is
permanent (308), goes to the address of the request with a slash appended,
and is given only for a path that is not empty, does not start with a
slash, was not found, and is a prefix directory of the resolved manifest;
it writes no header of its own. *)
Theorem redirect_only_to_directory
    (fuel : nat) (s : Service) (root : Address) (pathVar : string)
    (w : ResponseWriter) (r : Request) (w' : ResponseWriter) (cs : list call)
    (url : string) (code : Z) :
  serveReference (S (S fuel)) s root pathVar w r = Some (w', cs) ->
  Written w' = Redirected url code ->
  code = 308 /\
  pathVar <> "" /\
  strings.HasPrefix pathVar "/" = false /\
  url = URL_String {| Scheme := Scheme (req_URL r); Host := Host (req_URL r);
                      Path := Path (req_URL r) +:+ "/";
                      RawQuery := RawQuery (req_URL r) |} /\
  exists m fd w1,
    resolves s root w m fd w1 /\
    (exists e, Lookup m pathVar = Err e /\ errors_Is e manifest_ErrNotFound = true) /\
    HasPrefix m (pathVar +:+ "/") = Ok true /\
    Header w' = Header w1.
Proof.
  intros Hrun Hredirect.
  destruct (serveReference_outcome _ _ _ _ _ _ _ _ Hrun)
    as [(m & fd & w1 & Hres & ->) | (w0 & c & message & -> & _)]; [|discriminate].
  destruct (serveReference_path_redirect _ _ _ _ _ _ _ _ Hredirect)
    as (-> & Hne & Hsep & Hlookup & Hdir & -> & Hheader).
  repeat (split; [first [reflexivity | assumption]|]).
  exists m, fd, w1. auto.
Qed.

(** *** manifestFeed on a feed manifest *)

Lemma fromHexChar_digit (b : Byte.byte) :
  hex.fromHexChar (hex.digit (N.shiftr (Byte.to_N b) 4)) = Some (N.shiftr (Byte.to_N b) 4) /\
  hex.fromHexChar (hex.digit (N.land (Byte.to_N b) 15)) = Some (N.land (Byte.to_N b) 15) /\
  hex.byte_of_nibbles (N.shiftr (Byte.to_N b) 4) (N.land (Byte.to_N b) 15) = b.
Proof. destruct b; repeat split. Qed.

(** Decoding undoes encoding. *)
Lemma DecodeString_EncodeToString (src : bytes) :
  hex.DecodeString (hex.EncodeToString src) = Ok src.
Proof.
  induction src as [|b rest IH]; [reflexivity|].
  cbn [hex.EncodeToString hex.DecodeString].
  destruct (fromHexChar_digit b) as (-> & -> & ->). now rewrite IH.
Qed.

Lemma EncodeToString_nonempty (src : bytes) :
  src <> [] -> hex.EncodeToString src <> "".
Proof. destruct src; [congruence | discriminate]. Qed.

Lemma decode_if_set_hex (src : bytes) :
  decode_if_set (hex.EncodeToString src) [] hex.DecodeString = Ok src.
Proof.
  unfold decode_if_set. destruct src as [|b rest]; [reflexivity|].
  cbn [hex.EncodeToString String.eqb]. change (String ?a ?s =? "")%string with false.
  apply (DecodeString_EncodeToString (b :: rest)).
Qed.

(** X10. manifestFeed on a feed manifest: when the root entry carries the hex
encodings of an owner and a topic that are not empty, and a feed type that
is absent or recognised, it asks the factory for the lookup of the feed of
that topic and owner, with the type given (the zero type when absent). *)
Theorem manifestFeed_of_feed_manifest
    (s : Service) (m : manifest_Interface) (root : Entry)
    (owner topic : bytes) (t : feeds_Type) :
  Lookup m "/" = Ok root ->
  Metadata root !! feedMetadataEntryOwner = Some (hex.EncodeToString owner) ->
  Metadata root !! feedMetadataEntryTopic = Some (hex.EncodeToString topic) ->
  owner <> [] ->
  topic <> [] ->
  (map_index (Metadata root) feedMetadataEntryType = "" /\ t = feeds_Type_zero \/
   map_index (Metadata root) feedMetadataEntryType <> "" /\
   feeds_Type_FromString (map_index (Metadata root) feedMetadataEntryType) = Ok t) ->
  manifestFeed s m
  = NewLookup (feedFactory s) t (feeds_New topic (common_BytesToAddress owner)).
Proof.
  intros Hroot Howner Htopic Hno Hnt Htype.
  assert (Ho : map_index (Metadata root) feedMetadataEntryOwner
               = hex.EncodeToString owner)
    by (unfold map_index; now rewrite Howner).
  assert (Htp : map_index (Metadata root) feedMetadataEntryTopic
                = hex.EncodeToString topic)
    by (unfold map_index; now rewrite Htopic).
  unfold manifestFeed. rewrite Hroot, Ho, Htp, !decode_if_set_hex.
  assert (Ht : decode_if_set (map_index (Metadata root) feedMetadataEntryType)
                 feeds_Type_zero feeds_Type_FromString = Ok t).
  { destruct Htype as [[-> ->] | [Hne Hfrom]]; [reflexivity|].
    unfold decode_if_set.
    destruct (String.eqb_spec (map_index (Metadata root) feedMetadataEntryType) "");
      [contradiction | exact Hfrom]. }
  rewrite Ht.
  destruct owner; [contradiction|]. destruct topic; [contradiction|]. reflexivity.
Qed.

End MoreDownloadProperties.

(** ** The upload entry point *)

Section UploadEntryProperties.

Context `{UploadImports}.

(** X20. When the stamper fails, bzzUploadHandler answers a client error (422,
404 or 400) chosen by the first case that matches, returns without calling
the upload handlers, and leaves the headers and the events as they were. *)
Theorem stamper_failure_is_client_error
    (r : Request) (st0 : handler_state) (ContentType : string)
    (err : error) (wd : World) :
  mapStructure_headers (req_Header r) = inl ContentType ->
  newStamperPutter r (world st0) = (Err err, wd) ->
  exists code payload,
    bzzUploadHandler r st0
    = (None, {| world := wd;
                rw := jsonhttp.Respond (rw st0) code payload;
                events := events st0 |}) /\
    In code [http_StatusUnprocessableEntity; http.StatusNotFound;
             http.StatusBadRequest] /\
    (code = http_StatusUnprocessableEntity <->
     errors_Is err errBatchUnusable || errors_Is err postage_ErrNotUsable = true) /\
    (code = http.StatusNotFound ->
     errors_Is err postage_ErrNotFound = true).
Proof.
  intros Hheaders Hputter.
  unfold bzzUploadHandler, bind, ret, exit, respond, call_world.
  rewrite Hheaders. cbn. rewrite Hputter. cbn. unfold putter_failed.
  destruct (errors_Is err errBatchUnusable || errors_Is err postage_ErrNotUsable);
    [|destruct (errors_Is err postage_ErrNotFound);
      [|destruct (errors_Is err errInvalidPostageBatch);
        [|destruct (errors_Is err errUnsupportedDevNodeOperation)]]].
  all: eexists _, _; split; [reflexivity|].
  all: split; [cbn; tauto|].
  all: split; [split; intros Hc; first [reflexivity | discriminate Hc]|].
  all: intros Hc; first [reflexivity | discriminate Hc].
Qed.

(** X21. A file upload through bzzUploadHandler (no collection header, no
multipart content) is answered 201 only after the manifest was stored and
wait returned nil. *)
Theorem entry_file_upload_created_after_wait
    (r : Request) (st0 : handler_state) (res : option unit) (st : handler_state)
    (payload : response) :
  bzzUploadHandler r st0 = (res, st) ->
  events st0 = [] ->
  strings_ToLower (map_index (req_Header r) SwarmCollectionHeader) <> "true" ->
  (forall ContentType,
      mapStructure_headers (req_Header r) = inl ContentType ->
      ContentType <> multiPartFormData) ->
  Written (rw st) = JSON http.StatusCreated payload ->
  exists manifestReference,
    payload = resp_bzzUploadResponse manifestReference /\
    In (ev_wait None) (events st) /\
    In (ev_Store (Ok manifestReference)) (events st).
Proof.
  intros Hrun Hev0 Hdir Hmulti Hcreated.
  unfold bzzUploadHandler in Hrun.
  unfold bind, ret, exit, respond, call_world in Hrun.
  destruct (mapStructure_headers (req_Header r)) as [ContentType|reasons] eqn:Hheaders.
  2: { cbn in Hrun. injection Hrun as <- <-. discriminate Hcreated. }
  cbn in Hrun.
  destruct (newStamperPutter r (world st0)) as [[[putter wait]|err] wd].
  2: { cbn in Hrun. injection Hrun as <- <-. revert Hcreated. cbn.
       unfold putter_failed.
       repeat match goal with
              | |- context [if ?b then _ else _] => destruct b
              end; discriminate. }
  cbn in Hrun.
  destruct (String.eqb_spec
              (strings_ToLower (map_index (req_Header r) SwarmCollectionHeader))
              "true") as [|_]; [contradiction|].
  destruct (String.eqb_spec ContentType multiPartFormData) as [Heq|_];
    [now apply (Hmulti ContentType) in Heq|].
  cbn in Hrun.
  exact (upload_created_waited r putter wait _ res st payload Hrun Hev0 Hcreated).
Qed.

End UploadEntryProperties.

(** ** More of the download path on the example node *)

Section MoreDownloadExamples.

Import Example.

Lemma no_content_no_content_headers_witness :
  let run := serveReference 2 (service site) [Byte.xcc] "nothing" fresh
               (download_request "cc" "nothing") in
  exists w' cs,
    run = Some (w', cs) /\
    (forall ref l, Written w' <> Content ref l) /\
    "ETag" <> SwarmFeedIndexHeader /\
    "ETag" <> "Access-Control-Expose-Headers" /\
    Written w' = JSON 404 (resp_string "path address not found") /\
    Header w' !! "ETag" = Header fresh !! "ETag".
Proof.
  intros run. destruct run as [[w' cs]|] eqn:Hrun; [|discriminate Hrun].
  exists w', cs.
  assert (Hw : Written w' = JSON 404 (resp_string "path address not found"))
    by (injection Hrun as <- _; reflexivity).
  assert (Hno : forall ref l, Written w' <> Content ref l)
    by (intros ref l; rewrite Hw; discriminate).
  split; [reflexivity|]. split; [exact Hno|].
  split; [discriminate|]. split; [discriminate|]. split; [exact Hw|].
  apply (no_content_no_content_headers 0 (service site) [Byte.xcc] "nothing" fresh
           (download_request "cc" "nothing") w' cs Hrun Hno "ETag");
    discriminate.
Defined.

Lemma feed_index_header_distinct : SwarmFeedIndexHeader ∉ content_headers.
Proof.
  intros Hin. unfold content_headers in Hin.
  repeat (apply elem_of_cons in Hin as [Hin|Hin]; [discriminate Hin|]).
  now apply elem_of_nil in Hin.
Defined.

Lemma feed_index_header_on_every_response_witness :
  let run := serveReference 2 (service site) [Byte.xaa] "missing" fresh
               (download_request "aa" "missing") in
  exists w' cs,
    run = Some (w', cs) /\
    (SwarmFeedIndexHeader ∉ content_headers) /\
    Written w' = JSON 404 (resp_string "path address not found") /\
    Header w' !! SwarmFeedIndexHeader = Some "0001".
Proof.
  intros run. destruct run as [[w' cs]|] eqn:Hrun; [|discriminate Hrun].
  exists w', cs.
  split; [reflexivity|]. split; [exact feed_index_header_distinct|].
  split; [injection Hrun as <- _; reflexivity|].
  destruct (feed_index_header_on_every_response 0 (service site) [Byte.xaa] "missing"
              fresh (download_request "aa" "missing") w' cs Hrun
              feed_index_header_distinct) as [Hfeed _].
  apply (Hfeed (manifest_at [Byte.xaa]) (lookup_of (feed_of_topic [Byte.xbb]))
           [Byte.xbb] {| MarshalBinary := Ok [Byte.x00; Byte.x01] |}
           [Byte.xbb] 0 [Byte.x00; Byte.x01]); reflexivity.
Defined.

Lemma content_exposes_only_content_disposition_witness :
  let run := serveReference 2 (service site) [Byte.xaa] "" fresh
               (download_request "aa" "") in
  exists w' cs,
    run = Some (w', cs) /\
    Written w' = Content [Byte.x05] 50 /\
    Header w' !! "Access-Control-Expose-Headers" = Some "Content-Disposition".
Proof.
  intros run. destruct run as [[w' cs]|] eqn:Hrun; [|discriminate Hrun].
  exists w', cs.
  assert (Hw : Written w' = Content [Byte.x05] 50)
    by (injection Hrun as <- _; reflexivity).
  split; [reflexivity|]. split; [exact Hw|].
  exact (content_exposes_only_content_disposition 0 (service site) [Byte.xaa] ""
           fresh (download_request "aa" "") w' cs [Byte.x05] 50 Hrun Hw).
Defined.



Lemma path_direct_match_or_generic_error_witness :
  resolves (service site) [Byte.xa0] fresh (manifest_at [Byte.xa0]) false fresh /\
  "img/logo.png" <> "" /\
  exists cs,
    (Written ∘ fst)
      <$> serveReference 2 (service site) [Byte.xa0] "img/logo.png" fresh
            (download_request "a0" "img/logo.png")
    = Some (Content [Byte.x03] 30) /\
    snd <$> serveReference 2 (service site) [Byte.xa0] "img/logo.png" fresh
              (download_request "a0" "img/logo.png")
    = Some cs.
Proof.
  split; [exact resolves_a0|]. split; [discriminate|].
  destruct (path_direct_match_or_generic_error 0 (service site) [Byte.xa0]
              "img/logo.png" fresh (download_request "a0" "img/logo.png")
              (manifest_at [Byte.xa0]) false fresh resolves_a0)
    as [cs Hrun]; [discriminate|].
  exists cs. rewrite Hrun. split; reflexivity.
Defined.

Lemma redirect_only_to_directory_witness :
  let run := serveReference 2 (service site) [Byte.xa0] "img" fresh
               (download_request "a0" "img") in
  exists w' cs,
    run = Some (w', cs) /\
    Written w' = Redirected "/bzz/a0/img/" 308 /\
    strings.HasPrefix "img" "/" = false /\
    Header w' = Header fresh.
Proof.
  intros run. destruct run as [[w' cs]|] eqn:Hrun; [|discriminate Hrun].
  exists w', cs.
  assert (Hw : Written w' = Redirected "/bzz/a0/img/" 308)
    by (injection Hrun as <- _; reflexivity).
  split; [reflexivity|]. split; [exact Hw|].
  destruct (redirect_only_to_directory 0 (service site) [Byte.xa0] "img" fresh
              (download_request "a0" "img") w' cs "/bzz/a0/img/" 308 Hrun Hw)
    as (_ & _ & Hsep & _ & _).
  split; [exact Hsep|]. injection Hrun as <- _. reflexivity.
Defined.

Lemma manifestFeed_of_feed_manifest_witness :
  let root := snd (root_entry [("swarm-feed-owner", "0102"); ("swarm-feed-topic", "bb")]) in
  Lookup (manifest_at [Byte.xaa]) "/" = Ok root /\
  Metadata root !! feedMetadataEntryOwner
  = Some (hex.EncodeToString [Byte.x01; Byte.x02]) /\
  Metadata root !! feedMetadataEntryTopic = Some (hex.EncodeToString [Byte.xbb]) /\
  map_index (Metadata root) feedMetadataEntryType = "" /\
  manifestFeed (service site) (manifest_at [Byte.xaa])
  = NewLookup (feedFactory (service site)) feeds_Type_zero
      (feeds_New [Byte.xbb] (common_BytesToAddress [Byte.x01; Byte.x02])).
Proof.
  intros root. split; [reflexivity|]. split; [reflexivity|].
  split; [reflexivity|]. split; [reflexivity|].
  apply (manifestFeed_of_feed_manifest (service site) (manifest_at [Byte.xaa]) root
           [Byte.x01; Byte.x02] [Byte.xbb] feeds_Type_zero);
    try reflexivity; try discriminate.
  left. split; reflexivity.
Defined.

End MoreDownloadExamples.

(** ** More of the upload path on the example nodes *)

Section MoreUploadExamples.

Import Example.

Lemma upload_always_replies_witness :
  let run := fileUploadHandler (upload_request None) site wait_ok upload_start in
  Written (rw (snd run)) = JSON 201 (resp_bzzUploadResponse [Byte.x0a; Byte.x0b]) /\
  exists code payload,
    Written (rw (snd run)) = JSON code payload /\ In code upload_statuses.
Proof.
  intros run. split; [reflexivity|].
  exact (upload_always_replies (H := imports) (upload_request None) site wait_ok
           upload_start (fst run) (snd run) (surjective_pairing run)).
Defined.

Lemma upload_failure_writes_no_header_witness :
  let run := fileUploadHandler (upload_request None) site wait_fails upload_start in
  (forall payload, Written (rw (snd run)) <> JSON http.StatusCreated payload) /\
  fst run = None /\
  Header (rw (snd run)) = Header (rw upload_start).
Proof.
  intros run.
  assert (Hw : Written (rw (snd run))
               = JSON http.StatusInternalServerError (resp_string "sync chunks failed"))
    by reflexivity.
  assert (Hno : forall payload,
             Written (rw (snd run)) <> JSON http.StatusCreated payload)
    by (intros payload; rewrite Hw; discriminate).
  split; [exact Hno|].
  exact (upload_failure_writes_no_header (H := imports) (upload_request None) site
           wait_fails upload_start (fst run) (snd run) (surjective_pairing run) Hno).
Defined.

Lemma upload_wait_is_last_witness :
  let run := fileUploadHandler (upload_request None) site wait_ok upload_start in
  events upload_start = [] /\
  In (ev_wait None) (events (snd run)) /\
  last (events (snd run)) = Some (ev_wait None) /\
  count_events is_wait (events (snd run)) = 1%nat.
Proof.
  intros run.
  assert (Hwait : In (ev_wait None) (events (snd run)))
    by (apply (In_events_dec _ _ 8); reflexivity).
  split; [reflexivity|]. split; [exact Hwait|].
  destruct (upload_wait_is_last (H := imports) (upload_request None) site wait_ok
              upload_start (fst run) (snd run) (surjective_pairing run) eq_refl
              None Hwait) as (Hlast & Hcount & _).
  split; [exact Hlast | exact Hcount].
Defined.

Lemma upload_never_invalid_body_params_witness :
  let run := fileUploadHandler (upload_request None) site wait_ok upload_start in
  Written (rw (snd run))
  <> JSON http.StatusBadRequest
       (resp_StatusResponse "invalid body params" http.StatusBadRequest []).
Proof.
  intros run.
  exact (upload_never_invalid_body_params (H := imports) (upload_request None) site
           wait_ok upload_start (fst run) (snd run) http.StatusBadRequest []
           (surjective_pairing run)).
Defined.

Lemma upload_adds_after_pipeline_witness :
  let run := fileUploadHandler (upload_request None) site wait_ok upload_start in
  events upload_start = [] /\
  (length (added (events (snd run))) <= 2)%nat.
Proof.
  intros run. split; [reflexivity|].
  exact (proj1 (upload_adds_after_pipeline (H := imports) (upload_request None) site
                  wait_ok upload_start (fst run) (snd run)
                  (surjective_pairing run) eq_refl)).
Defined.

Lemma upload_explicit_name_witness :
  let run := fileUploadHandler (named_upload_request "hello.txt") site wait_ok
               upload_start in
  events upload_start = [] /\
  mapStructure_queries (req_Query (named_upload_request "hello.txt")) = inl "hello.txt" /\
  "hello.txt" <> "" /\
  In (ev_Store (Ok [Byte.x0a; Byte.x0b])) (events (snd run)) /\
  exists fr root file,
    In (ev_pipeline (Ok fr)) (events (snd run)) /\
    added (events (snd run)) = [(manifest_RootPath, root); ("hello.txt", file)] /\
    Reference file = fr /\
    Metadata file !! manifest_EntryMetadataFilenameKey = Some "hello.txt" /\
    Reference root = swarm_ZeroAddress /\
    Metadata root = <[manifest_WebsiteIndexDocumentSuffixKey := "hello.txt"]> ∅ /\
    ("hello.txt" <> manifest_RootPath ->
     built_manifest (events (snd run)) !! "hello.txt" = Some file /\
     built_manifest (events (snd run)) !! manifest_RootPath = Some root).
Proof.
  intros run.
  assert (Hstore : In (ev_Store (Ok [Byte.x0a; Byte.x0b])) (events (snd run)))
    by (apply (In_events_dec _ _ 6); reflexivity).
  split; [reflexivity|]. split; [reflexivity|]. split; [discriminate|].
  split; [exact Hstore|].
  apply (upload_explicit_name (H := imports) (named_upload_request "hello.txt") site
           wait_ok upload_start (fst run) (snd run) "hello.txt"
           (surjective_pairing run) eq_refl eq_refl) with (saved := Ok [Byte.x0a; Byte.x0b]).
  - discriminate.
  - exact Hstore.
Defined.

End MoreUploadExamples.

Section FaultyExamples.

Lemma upload_not_found_is_tag_not_found_witness :
  let r := Faulty.upload_request [("Swarm-Tag", "9")] in
  let run := fileUploadHandler (H := Faulty.imports) r Example.site Example.wait_ok
               Faulty.upload_start in
  Written (rw (snd run)) = JSON http.StatusNotFound (resp_string "tag not found") /\
  events (snd run) = events Faulty.upload_start.
Proof.
  intros r run. split; [reflexivity|].
  destruct (upload_not_found_is_tag_not_found (H := Faulty.imports) r Example.site
              Example.wait_ok Faulty.upload_start (fst run) (snd run)
              (resp_string "tag not found") (surjective_pairing run) eq_refl)
    as (_ & Hevents & _).
  exact Hevents.
Defined.

Lemma upload_payment_required_is_bucket_full_witness :
  let r := Faulty.upload_request [("Swarm-Postage-Batch-Id", "full")] in
  let run := fileUploadHandler (H := Faulty.imports) r Example.site Example.wait_ok
               Faulty.upload_start in
  events Faulty.upload_start = [] /\
  Written (rw (snd run))
  = JSON http.StatusPaymentRequired (resp_string "batch is overissued") /\
  exists e,
    errors_Is e postage_ErrBucketFull = true /\
    (In (ev_pipeline (Err e)) (events (snd run)) \/
     In (ev_Store (Err e)) (events (snd run))).
Proof.
  intros r run. split; [reflexivity|]. split; [reflexivity|].
  exact (proj2 (upload_payment_required_is_bucket_full (H := Faulty.imports) r
                  Example.site Example.wait_ok Faulty.upload_start (fst run) (snd run)
                  (resp_string "batch is overissued")
                  (surjective_pairing run) eq_refl eq_refl)).
Defined.

Lemma upload_pin_only_on_request_witness :
  let r := Faulty.upload_request [("Swarm-Pin", "true")] in
  let run := fileUploadHandler (H := Faulty.imports) r Example.site Example.wait_ok
               Faulty.upload_start in
  events Faulty.upload_start = [] /\
  In (ev_CreatePin [Byte.x0a; Byte.x0b]) (events (snd run)) /\
  requestPin (Imports := Faulty.imports) r = true /\
  In (ev_Store (Ok [Byte.x0a; Byte.x0b])) (events (snd run)) /\
  count_events is_CreatePin (events (snd run)) = 1%nat.
Proof.
  intros r run.
  assert (Hpin : In (ev_CreatePin [Byte.x0a; Byte.x0b]) (events (snd run)))
    by (apply (In_events_dec _ _ 8); reflexivity).
  split; [reflexivity|]. split; [exact Hpin|].
  destruct (upload_pin_only_on_request (H := Faulty.imports) r Example.site
              Example.wait_ok Faulty.upload_start (fst run) (snd run)
              (surjective_pairing run) eq_refl) as [_ Hcalled].
  exact (Hcalled _ Hpin).
Defined.

End FaultyExamples.

Section EntryExamples.

Lemma stamper_failure_is_client_error_witness :
  let r := Entry.upload_request [("Content-Type", "text/plain");
                                 ("Swarm-Postage-Batch-Id", "b7")] in
  mapStructure_headers (UploadImports := Entry.imports) (req_Header r)
  = inl "text/plain" /\
  newStamperPutter (UploadImports := Entry.imports) r (world Example.upload_start)
  = (Err (errors_New "batch not found"), world Example.upload_start) /\
  Written (rw (snd (bzzUploadHandler (H0 := Entry.imports) r Example.upload_start)))
  = JSON http.StatusNotFound (resp_string "batch with id not found") /\
  exists code payload,
    bzzUploadHandler (H0 := Entry.imports) r Example.upload_start
    = (None, {| world := world Example.upload_start;
                rw := jsonhttp.Respond (rw Example.upload_start) code payload;
                events := events Example.upload_start |}) /\
    In code [http_StatusUnprocessableEntity; http.StatusNotFound;
             http.StatusBadRequest].
Proof.
  intros r. split; [reflexivity|]. split; [reflexivity|]. split; [reflexivity|].
  destruct (stamper_failure_is_client_error (H0 := Entry.imports) r
              Example.upload_start "text/plain" (errors_New "batch not found")
              (world Example.upload_start) eq_refl eq_refl)
    as (code & payload & Hrun & Hcode & _).
  exists code, payload. split; [exact Hrun | exact Hcode].
Defined.

Lemma entry_file_upload_created_after_wait_witness :
  let r := Entry.upload_request [("Content-Type", "text/plain");
                                 ("Swarm-Postage-Batch-Id", "b1")] in
  let run := bzzUploadHandler (H0 := Entry.imports) r Example.upload_start in
  events Example.upload_start = [] /\
  strings_ToLower (UploadImports := Entry.imports)
    (map_index (req_Header r) (SwarmCollectionHeader (UploadImports := Entry.imports)))
  <> "true" /\
  Written (rw (snd run))
  = JSON http.StatusCreated (resp_bzzUploadResponse [Byte.x0a; Byte.x0b]) /\
  exists manifestReference,
    resp_bzzUploadResponse [Byte.x0a; Byte.x0b]
    = resp_bzzUploadResponse manifestReference /\
    In (ev_wait None) (events (snd run)) /\
    In (ev_Store (Ok manifestReference)) (events (snd run)).
Proof.
  intros r run. split; [reflexivity|]. split; [discriminate|]. split; [reflexivity|].
  apply (entry_file_upload_created_after_wait (H0 := Entry.imports) r
           Example.upload_start (fst run) (snd run)
           (resp_bzzUploadResponse [Byte.x0a; Byte.x0b])
           (surjective_pairing run) eq_refl).
  - discriminate.
  - intros ContentType [= <-]. discriminate.
  - reflexivity.
Defined.

End EntryExamples.
